(** * The chat client of chat-app: a shallow embedding of [ChatApp]

    The repository holds three revisions of the browser client, each a
    class [ChatApp] with the same methods:

    - [Part002]: src/unnamed/part_002, the oldest one (a search toggle, no
      [complete] event, no check of the payload);
    - [MainA]: src/static/js/main.js, lines 1-425 (tool check boxes,
      [complete] event, payload checks);
    - [MainB]: src/static/js/main.js, lines 427-1033 ([tool_result] events
      and a progress bar).

    The page is modelled by the record [app]: the answer pane and the
    reference pane as the lists of their child elements, the fields of the
    class, the timers that are pending and the event sources created so far.
    A method is a function from [app] to [app] (to [completion] where it can
    throw).  Values decoded from the wire are [JS.json] values and the
    coercions of JavaScript that the methods rely on are written out in
    module [JS].  What the browser does with an event source (which
    listeners an event reaches, and when) is in module [Browser].

    Left out: the console, the styles of the fade-in of a card, the scroll
    position, and the HTML that showdown makes of the answer (an answer
    block is modelled by the text that it renders). *)

From Stdlib Require Import String Ascii List Bool Arith ZArith Lia.
From Stdlib Require Import DecimalString SpecFloat.
Set Warnings "-register-all".
Import ListNotations.
Open Scope list_scope.
Open Scope string_scope.
Open Scope nat_scope.

(* ================================================================== *)
(** * JavaScript values *)
(* ================================================================== *)

Module JS.

(** A string of the program is a sequence of UTF-16 code units.  The model
    keeps a text as its UTF-8 bytes, a surrogate half that stands alone as
    the three bytes of its number, and measures and cuts it in code units
    ([length16], [slice16]).  Two texts with the same code units stand for
    the same string. *)

Definition code (c : ascii) : nat := nat_of_ascii c.

Definition chr (n : nat) : string := String (ascii_of_nat n) EmptyString.

(** The UTF-8 bytes of the code unit [u] (a surrogate half is written on
    its own). *)
Definition utf8 (u : nat) : string :=
  if u <? 128 then chr u
  else if u <? 2048 then chr (192 + u / 64) ++ chr (128 + u mod 64)
  else chr (224 + u / 4096) ++ chr (128 + (u / 64) mod 64) ++ chr (128 + u mod 64).

(** A byte that continues a character, and the first byte of a character
    beyond the basic plane (four bytes, two code units). *)
Definition is_continuation (n : nat) : bool := (128 <=? n) && (n <? 192).

Definition is_lead4 (n : nat) : bool := 240 <=? n.

(** [s.length], in code units. *)
Fixpoint length16 (s : string) : nat :=
  match s with
  | EmptyString => 0
  | String c r =>
      if is_continuation (code c) then length16 r
      else if is_lead4 (code c) then 2 + length16 r
      else 1 + length16 r
  end.

(** The high surrogate of the character whose four bytes are [b0] and the
    first bytes of [r]: 0xD800 + ((c - 0x10000) >> 10) for its number [c],
    where 0xD800 is 216 * 256. *)
Definition high_surrogate (b0 : nat) (r : string) : string :=
  let b1 := match r with String c _ => code c | EmptyString => 128 end in
  let b2 := match r with String _ (String c _) => code c | _ => 128 end in
  utf8 (216 * 256 + ((b0 mod 8) * 4096 + (b1 mod 64) * 64 + b2 mod 64 - 1024) / 16).

(** [s.slice(0, n)]: the first [n] code units.  A cut between the two
    units of a character leaves its high surrogate. *)
Fixpoint slice16 (n : nat) (s : string) : string :=
  match s with
  | EmptyString => EmptyString
  | String c r =>
      if is_continuation (code c) then String c (slice16 n r)
      else
        match n with
        | O => EmptyString
        | S n' =>
            if is_lead4 (code c) then
              match n' with
              | O => high_surrogate (code c) r
              | S n'' => String c (slice16 n'' r)
              end
            else String c (slice16 n' r)
        end
  end.

(** The double quote, written by its code. *)
Definition dquote : string := chr 34.

Definition codes (s : string) : list nat := map code (list_ascii_of_string s).

Definition of_codes (l : list nat) : string :=
  string_of_list_ascii (map ascii_of_nat l).

(** ** Numbers *)

(** A Number is a binary64 value: a zero or an infinity with its sign, NaN,
    or [m * 2 ^ e] with its sign, as [spec_float] of the Standard Library
    has them, with the operations rounded to the nearest value, ties to
    even. *)
Definition number : Type := spec_float.

Definition prec : Z := 53.
Definition emax : Z := 1024.

(** The Number nearest to [n / d]. *)
Definition nearest (neg : bool) (n d : positive) : number :=
  let '(m, e, l) := SFdiv_core_binary prec emax (Zpos n) 0 (Zpos d) 0 in
  binary_round_aux prec emax neg m e l.

(** The Number of an integer. *)
Definition of_Z (z : Z) : number := binary_normalize prec emax z 0 false.

(** The Number of the decimal [m * 10 ^ p], [0 <= m], with the sign [neg]. *)
Definition decimal (neg : bool) (m p : Z) : number :=
  match m with
  | Zpos m' =>
      if (0 <=? p)%Z then nearest neg (m' * Z.to_pos (10 ^ p)) 1
      else nearest neg m' (Z.to_pos (10 ^ (- p)))
  | _ => S754_zero neg
  end.

(** [x * y]. *)
Definition mul (x y : number) : number := SFmul prec emax x y.

(** [x < y]; false when one of them is NaN. *)
Definition less (x y : number) : bool := SFltb x y.

(** [Math.round(x)]: the integer nearest to [x], a half goes up, that is
    the floor of [x + 1/2]; a zero keeps the sign of [x]. *)
Definition Math_round (x : number) : number :=
  match x with
  | S754_finite s m e =>
      if (0 <=? e)%Z then x
      else
        match ((2 * cond_Zopp s (Zpos m) + 2 ^ (- e)) / 2 ^ (1 - e))%Z with
        | Z0 => S754_zero s
        | r => of_Z r
        end
  | _ => x
  end.

(** A value produced by [JSON.parse].  An object is the list of its
    members in the order of the text. *)
Inductive json : Type :=
| JNull
| JBool (b : bool)
| JNum (x : number)
| JStr (s : string)
| JArr (items : list json)
| JObj (members : list (string * json)).

(** [undefined] is [None] in a [option json]. *)
Definition value := option json.

(** ToBoolean. *)
Definition truthy (v : value) : bool :=
  match v with
  | None => false
  | Some JNull => false
  | Some (JBool b) => b
  | Some (JNum (S754_zero _)) | Some (JNum S754_nan) => false
  | Some (JNum _) => true
  | Some (JStr s) => negb (s =? EmptyString)%string
  | Some (JArr _) => true
  | Some (JObj _) => true
  end.

(** [typeof v === 'object'] (true of [null], of arrays and of objects). *)
Definition typeof_object (v : json) : bool :=
  match v with
  | JNull | JArr _ | JObj _ => true
  | _ => false
  end.

Definition isArray (v : value) : bool :=
  match v with
  | Some (JArr _) => true
  | _ => false
  end.

(** The last member named [k]: [JSON.parse] keeps the last of two members
    with one name. *)
Fixpoint lookup (k : string) (ms : list (string * json)) : value :=
  match ms with
  | [] => None
  | (k', v) :: ms' =>
      match lookup k ms' with
      | Some w => Some w
      | None => if (k' =? k)%string then Some v else None
      end
  end.

(** [v.k] for the member names that the client reads ([status], [content],
    [error], ...), on a value that is neither [null] nor [undefined].  A
    number, a boolean, a string or an array has none of them, but for
    [length], which is read apart ([length_of]), and for the method [link]
    that a string inherits ([link_of]). *)
Definition get (v : json) (k : string) : value :=
  match v with
  | JObj ms => lookup k ms
  | _ => None
  end.

(** [v === 'text']. *)
Definition is_string (v : value) (text : string) : bool :=
  match v with
  | Some (JStr s) => (s =? text)%string
  | _ => false
  end.

(** ** Numbers as text *)

Definition Z_toString (z : Z) : string :=
  NilZero.string_of_int (Z.to_int z).

(** [a / b < 10 ^ n], for positive [a] and [b]. *)
Definition below_power (a b n : Z) : bool :=
  if (0 <=? n)%Z then (a <? b * 10 ^ n)%Z else (a * 10 ^ (- n) <? b)%Z.

(** The least [n] from [n0] on with [a / b < 10 ^ n]. *)
Fixpoint magnitude_from (fuel : nat) (a b n0 : Z) : Z :=
  match fuel with
  | O => n0
  | S fuel' => if below_power a b n0 then n0 else magnitude_from fuel' a b (n0 + 1)%Z
  end.

(** The [n] with [10 ^ (n - 1) <= a / b < 10 ^ n].  The search starts below
    it: with [t] the difference of the numbers of bits of [a] and [b], less
    one, [2 ^ t <= a / b < 2 ^ (t + 2)], and [t * 30103 / 100000 - 1] is
    below the logarithm of [2 ^ t]; the [n] is at most four steps away. *)
Definition magnitude (a b : Z) : Z :=
  let t := (Z.log2 a - Z.log2 b - 1)%Z in
  magnitude_from 8 a b (t * 30103 / 100000 - 1)%Z.

(** The integer part of [(a / b) / 10 ^ p]. *)
Definition scaled (a b p : Z) : Z :=
  if (0 <=? p)%Z then (a / (b * 10 ^ p))%Z else (a * 10 ^ (- p) / b)%Z.

(** [a / b] compared with [c * 10 ^ p / 2]. *)
Definition compare_half (a b c p : Z) : comparison :=
  if (0 <=? p)%Z then (2 * a ?= c * 10 ^ p * b)%Z
  else (2 * a * 10 ^ (- p) ?= c * b)%Z.

(** The digits of [x = a / b], [10 ^ (n - 1) <= x < 10 ^ n], from [k]
    digits on: the first [k] for which a decimal [s * 10 ^ (n - k)] of [k]
    digits is read back as [x], with that [s] (the nearer to [x] of two,
    the even one of two as near), and the exponent [n].  When [x] is read
    back from [10 ^ n] its one digit is 1 and its exponent [n + 1].
    Seventeen digits are enough for every Number. *)
Fixpoint shortest (fuel : nat) (x : number) (a b n k : Z) : Z * Z * Z :=
  match fuel with
  | O => (0%Z, k, n)
  | S fuel' =>
      let p := (n - k)%Z in
      let lo := scaled a b p in
      let hi := (lo + 1)%Z in
      let is_x (s : Z) := SFeqb (decimal false s p) x in
      if is_x hi && (hi =? 10 ^ k)%Z then (1%Z, 1%Z, (n + 1)%Z)
      else if is_x lo && is_x hi then
        match compare_half a b (lo + hi) p with
        | Lt => (lo, k, n)
        | Gt => (hi, k, n)
        | Eq => (if Z.even lo then lo else hi, k, n)
        end
      else if is_x lo then (lo, k, n)
      else if is_x hi then (hi, k, n)
      else shortest fuel' x a b n (k + 1)%Z
  end.

(** The digits [s], their number [k] and the exponent [n] of [m * 2 ^ e]
    in Number::toString. *)
Definition digits_of (m : positive) (e : Z) : Z * Z * Z :=
  let '(a, b) :=
    if (0 <=? e)%Z then (Zpos m * 2 ^ e, 1)%Z else (Zpos m, 2 ^ (- e))%Z in
  shortest 17 (S754_finite false m e) a b (magnitude a b) 1.

Fixpoint zeros (n : nat) : string :=
  match n with
  | O => EmptyString
  | S n' => "0" ++ zeros n'
  end.

Definition positive_toString (m : positive) (e : Z) : string :=
  let '(s, k, n) := digits_of m e in
  let d := Z_toString s in
  if (k <=? n)%Z && (n <=? 21)%Z then d ++ zeros (Z.to_nat (n - k))
  else if (0 <? n)%Z && (n <=? 21)%Z then
    substring 0 (Z.to_nat n) d ++ "." ++ substring (Z.to_nat n) (Z.to_nat (k - n)) d
  else if (-6 <? n)%Z && (n <=? 0)%Z then "0." ++ zeros (Z.to_nat (- n)) ++ d
  else
    let exponent :=
      (if (0 <=? n - 1)%Z then "+" else "-") ++ Z_toString (Z.abs (n - 1)) in
    if (k =? 1)%Z then d ++ "e" ++ exponent
    else substring 0 1 d ++ "." ++ substring 1 (Z.to_nat (k - 1)) d ++ "e" ++ exponent.

(** Number::toString. *)
Definition Number_toString (x : number) : string :=
  match x with
  | S754_nan => "NaN"
  | S754_zero _ => "0"
  | S754_infinity false => "Infinity"
  | S754_infinity true => "-Infinity"
  | S754_finite false m e => positive_toString m e
  | S754_finite true m e => "-" ++ positive_toString m e
  end.

(** ** ToString *)

Fixpoint join (sep : string) (l : list string) : string :=
  match l with
  | [] => EmptyString
  | [x] => x
  | x :: l' => x ++ sep ++ join sep l'
  end.

(** ToString of a value, and within it [Array.prototype.join], which
    writes [null] as the empty string.  An object is written by
    Object.prototype.toString; the conversion of an object that has a
    member [toString] of its own, which JavaScript refuses, is not
    modelled. *)
Fixpoint json_toString (v : json) : string :=
  match v with
  | JNull => "null"
  | JBool true => "true"
  | JBool false => "false"
  | JNum x => Number_toString x
  | JStr s => s
  | JArr items =>
      join ","
        ((fix each (l : list json) : list string :=
            match l with
            | [] => []
            | JNull :: l' => EmptyString :: each l'
            | x :: l' => json_toString x :: each l'
            end) items)
  | JObj _ => "[object Object]"
  end.

Definition ToString (v : value) : string :=
  match v with
  | None => "undefined"
  | Some j => json_toString j
  end.

(** [items.join(sep)] on an array. *)
Definition Array_join (sep : string) (items : list json) : string :=
  join sep (map (fun x => match x with JNull => EmptyString | _ => json_toString x end) items).

(** [a || b] where [b] is a string literal, then written into a template. *)
Definition or_else (v : value) (dflt : string) : string :=
  if truthy v then ToString v else dflt.

(** What [node.textContent = v] stores: nothing for [null] and for
    [undefined], the text of [v] otherwise. *)
Definition textContent_of (v : value) : string :=
  match v with
  | None | Some JNull => EmptyString
  | Some j => json_toString j
  end.

(** ** String.prototype.trim *)

(** The white space and the line terminators of ECMAScript, each as its
    UTF-8 bytes: TAB, LF, VT, FF, CR, SP, U+00A0, U+1680, U+2000 to U+200A,
    U+2028, U+2029, U+202F, U+205F, U+3000 and U+FEFF. *)
Definition white_space : list (list nat) :=
  [ [9]; [10]; [11]; [12]; [13]; [32]; [194; 160]; [225; 154; 128];
    [226; 128; 128]; [226; 128; 129]; [226; 128; 130]; [226; 128; 131];
    [226; 128; 132]; [226; 128; 133]; [226; 128; 134]; [226; 128; 135];
    [226; 128; 136]; [226; 128; 137]; [226; 128; 138]; [226; 128; 168];
    [226; 128; 169]; [226; 128; 175]; [226; 129; 159]; [227; 128; 128];
    [239; 187; 191] ].

(** [l] without the prefix [p], when [p] is a prefix of [l]. *)
Fixpoint strip (p l : list nat) : option (list nat) :=
  match p, l with
  | [], _ => Some l
  | _ :: _, [] => None
  | x :: p', y :: l' => if x =? y then strip p' l' else None
  end.

Fixpoint strip_any (ps : list (list nat)) (l : list nat) : option (list nat) :=
  match ps with
  | [] => None
  | p :: ps' =>
      match strip p l with
      | Some r => Some r
      | None => strip_any ps' l
      end
  end.

Fixpoint trim_front (fuel : nat) (ps : list (list nat)) (l : list nat) : list nat :=
  match fuel with
  | O => l
  | S fuel' =>
      match strip_any ps l with
      | Some r => trim_front fuel' ps r
      | None => l
      end
  end.

Definition trim (s : string) : string :=
  let l := codes s in
  let front := trim_front (length l) white_space l in
  let back := trim_front (length front) (map (@rev nat) white_space) (rev front) in
  of_codes (rev back).

(** ** JSON.parse *)

Definition json_space (n : nat) : bool :=
  (n =? 32) || (n =? 9) || (n =? 10) || (n =? 13).

Fixpoint skip_ws (s : string) : string :=
  match s with
  | String c r => if json_space (code c) then skip_ws r else s
  | EmptyString => s
  end.

Definition is_digit (n : nat) : bool := (48 <=? n) && (n <=? 57).

(** The leading digits of [s], read as a number, how many they are, and
    what follows them. *)
Fixpoint digits (acc : Z) (count : nat) (s : string) : Z * nat * string :=
  match s with
  | String c r =>
      if is_digit (code c)
      then digits (10 * acc + Z.of_nat (code c - 48))%Z (S count) r
      else (acc, count, s)
  | EmptyString => (acc, count, s)
  end.

Definition hex_digit (n : nat) : option nat :=
  if is_digit n then Some (n - 48)
  else if (97 <=? n) && (n <=? 102) then Some (n - 87)
  else if (65 <=? n) && (n <=? 70) then Some (n - 55)
  else None.

(** The text of a string after its opening quote, up to the closing one. *)
Fixpoint parse_chars (s : string) : option (string * string) :=
  match s with
  | EmptyString => None
  | String c r =>
      let n := code c in
      if n =? 34 then Some (EmptyString, r)
      else if n =? 92 then
        match r with
        | EmptyString => None
        | String e r' =>
            let m := code e in
            let simple (x : nat) :=
              match parse_chars r' with
              | Some (t, rest) => Some (chr x ++ t, rest)
              | None => None
              end in
            if m =? 34 then simple 34
            else if m =? 92 then simple 92
            else if m =? 47 then simple 47
            else if m =? 98 then simple 8
            else if m =? 102 then simple 12
            else if m =? 110 then simple 10
            else if m =? 114 then simple 13
            else if m =? 116 then simple 9
            else if m =? 117 then
              match r' with
              | String h1 (String h2 (String h3 (String h4 r''))) =>
                  match hex_digit (code h1), hex_digit (code h2),
                        hex_digit (code h3), hex_digit (code h4) with
                  | Some a, Some b, Some c', Some d =>
                      match parse_chars r'' with
                      | Some (t, rest) =>
                          Some (utf8 (4096 * a + 256 * b + 16 * c' + d) ++ t, rest)
                      | None => None
                      end
                  | _, _, _, _ => None
                  end
              | _ => None
              end
            else None
        end
      else if n <? 32 then None
      else
        match parse_chars r with
        | Some (t, rest) => Some (String c t, rest)
        | None => None
        end
  end.

(** [s] without the prefix [p], when it starts with it. *)
Fixpoint after (p s : string) : option string :=
  match p, s with
  | EmptyString, _ => Some s
  | String _ _, EmptyString => None
  | String x p', String y s' => if Ascii.eqb x y then after p' s' else None
  end.

(** A number: an optional minus, an integer part with no leading zero, an
    optional fraction and an optional exponent. *)
Definition parse_number (s : string) : option (number * string) :=
  let '(neg, s1) :=
    match s with
    | String c r => if code c =? 45 then (true, r) else (false, s)
    | EmptyString => (false, s)
    end in
  let '(ip, ni, s2) := digits 0%Z 0 s1 in
  let leading_zero :=
    match s1 with
    | String c _ => (code c =? 48) && (1 <? ni)
    | EmptyString => false
    end in
  if (ni =? 0) || leading_zero then None
  else
    let frac :=
      match s2 with
      | String c r =>
          if code c =? 46 then
            let '(m, nf, s3) := digits ip 0 r in
            if nf =? 0 then None else Some (m, nf, s3)
          else Some (ip, 0, s2)
      | EmptyString => Some (ip, 0, s2)
      end in
    match frac with
    | None => None
    | Some (m, nf, s3) =>
        let expo :=
          match s3 with
          | String c r =>
              if (code c =? 101) || (code c =? 69) then
                let '(eneg, r1) :=
                  match r with
                  | String c' r' =>
                      if code c' =? 45 then (true, r')
                      else if code c' =? 43 then (false, r')
                      else (false, r)
                  | EmptyString => (false, r)
                  end in
                let '(e, ne, s4) := digits 0%Z 0 r1 in
                if ne =? 0 then None
                else Some (if eneg then (- e)%Z else e, s4)
              else Some (0%Z, s3)
          | EmptyString => Some (0%Z, s3)
          end in
        match expo with
        | None => None
        | Some (e, s4) => Some (decimal neg m (e - Z.of_nat nf), s4)
        end
    end.

(** A value, the elements of an array after its bracket and the members
    of an object after its brace.  [fuel] bounds the depth of the calls;
    two units for each character are enough. *)
Fixpoint parse_value (fuel : nat) (s : string) : option (json * string) :=
  match fuel with
  | O => None
  | S fuel' =>
      match skip_ws s with
      | EmptyString => None
      | String c r =>
          let n := code c in
          if n =? 110 then
            match after "ull" r with Some r' => Some (JNull, r') | None => None end
          else if n =? 116 then
            match after "rue" r with Some r' => Some (JBool true, r') | None => None end
          else if n =? 102 then
            match after "alse" r with Some r' => Some (JBool false, r') | None => None end
          else if n =? 34 then
            match parse_chars r with
            | Some (t, r') => Some (JStr t, r')
            | None => None
            end
          else if n =? 91 then
            match skip_ws r with
            | String c' r' =>
                if code c' =? 93 then Some (JArr [], r')
                else
                  match parse_elements fuel' r with
                  | Some (l, rest) => Some (JArr l, rest)
                  | None => None
                  end
            | EmptyString => None
            end
          else if n =? 123 then
            match skip_ws r with
            | String c' r' =>
                if code c' =? 125 then Some (JObj [], r')
                else
                  match parse_members fuel' r with
                  | Some (l, rest) => Some (JObj l, rest)
                  | None => None
                  end
            | EmptyString => None
            end
          else
            match parse_number (String c r) with
            | Some (x, r') => Some (JNum x, r')
            | None => None
            end
      end
  end

with parse_elements (fuel : nat) (s : string) : option (list json * string) :=
  match fuel with
  | O => None
  | S fuel' =>
      match parse_value fuel' s with
      | None => None
      | Some (v, r) =>
          match skip_ws r with
          | String c r' =>
              if code c =? 44 then
                match parse_elements fuel' r' with
                | Some (l, rest) => Some (v :: l, rest)
                | None => None
                end
              else if code c =? 93 then Some ([v], r')
              else None
          | EmptyString => None
          end
      end
  end

with parse_members (fuel : nat) (s : string) : option (list (string * json) * string) :=
  match fuel with
  | O => None
  | S fuel' =>
      match skip_ws s with
      | String q r =>
          if code q =? 34 then
            match parse_chars r with
            | None => None
            | Some (k, r1) =>
                match skip_ws r1 with
                | String colon r2 =>
                    if code colon =? 58 then
                      match parse_value fuel' r2 with
                      | None => None
                      | Some (v, r3) =>
                          match skip_ws r3 with
                          | String c r4 =>
                              if code c =? 44 then
                                match parse_members fuel' r4 with
                                | Some (l, rest) => Some ((k, v) :: l, rest)
                                | None => None
                                end
                              else if code c =? 125 then Some ([(k, v)], r4)
                              else None
                          | EmptyString => None
                          end
                      end
                    else None
                | EmptyString => None
                end
            end
          else None
      | EmptyString => None
      end
  end.

(** [JSON.parse(s)]: the value, or [None] where the engine throws a
    SyntaxError. *)
Definition JSON_parse (s : string) : option json :=
  match parse_value (2 * String.length s + 2) s with
  | Some (v, r) =>
      match skip_ws r with
      | EmptyString => Some v
      | String _ _ => None
      end
  | None => None
  end.

(** ** ToNumber *)

(** The digits of [s] in the base [base], read as a number, when [s] has
    nothing else and is not empty. *)
Fixpoint based (base : nat) (acc : Z) (count : nat) (s : string) : option Z :=
  match s with
  | EmptyString => if count =? 0 then None else Some acc
  | String c r =>
      match hex_digit (code c) with
      | Some d =>
          if d <? base then based base (Z.of_nat base * acc + Z.of_nat d)%Z (S count) r
          else None
      | None => None
      end
  end.

(** StrUnsignedDecimalLiteral, with the sign that was read before it:
    [Infinity], or digits with a point and an exponent as they come; one
    digit at least before or after the point. *)
Definition unsigned_literal (neg : bool) (s : string) : option number :=
  if (s =? "Infinity")%string then Some (S754_infinity neg)
  else
    let '(ip, ni, s2) := digits 0%Z 0 s in
    let '(m, nf, s3) :=
      match s2 with
      | String c r => if code c =? 46 then digits ip 0 r else (ip, 0, s2)
      | EmptyString => (ip, 0, s2)
      end in
    if ni + nf =? 0 then None
    else
      match s3 with
      | EmptyString => Some (decimal neg m (- Z.of_nat nf))
      | String c r =>
          if (code c =? 101) || (code c =? 69) then
            let '(eneg, r1) :=
              match r with
              | String c' r' =>
                  if code c' =? 45 then (true, r')
                  else if code c' =? 43 then (false, r')
                  else (false, r)
              | EmptyString => (false, r)
              end in
            match digits 0%Z 0 r1 with
            | (e, S _, EmptyString) =>
                Some (decimal neg m ((if eneg then - e else e) - Z.of_nat nf))
            | _ => None
            end
          else None
      end.

(** StringToNumber: the text without the white space around it is empty
    (zero), a binary, octal or hexadecimal integer without a sign, or a
    decimal with an optional sign; anything else is NaN. *)
Definition StringToNumber (s : string) : number :=
  let numeral (base : nat) (r : string) : number :=
    match based base 0%Z 0 r with
    | Some z => of_Z z
    | None => S754_nan
    end in
  let decimal_literal (neg : bool) (r : string) : number :=
    match unsigned_literal neg r with
    | Some x => x
    | None => S754_nan
    end in
  match trim s with
  | EmptyString => S754_zero false
  | String c r as t =>
      match r with
      | String c' r' =>
          if (code c =? 48) && ((code c' =? 120) || (code c' =? 88)) then numeral 16 r'
          else if (code c =? 48) && ((code c' =? 111) || (code c' =? 79)) then numeral 8 r'
          else if (code c =? 48) && ((code c' =? 98) || (code c' =? 66)) then numeral 2 r'
          else if code c =? 45 then decimal_literal true r
          else if code c =? 43 then decimal_literal false r
          else decimal_literal false t
      | EmptyString => decimal_literal false t
      end
  end.

(** ToNumber; an array goes through the text of its elements and an
    object through [[object Object]]. *)
Definition ToNumber (v : value) : number :=
  match v with
  | None => S754_nan
  | Some JNull => S754_zero false
  | Some (JBool true) => of_Z 1
  | Some (JBool false) => S754_zero false
  | Some (JNum x) => x
  | Some (JStr s) => StringToNumber s
  | Some (JArr items) => StringToNumber (json_toString (JArr items))
  | Some (JObj _) => S754_nan
  end.

(** ** Members that come with the type *)

(** [v.length]: the number of code units of a string, of elements of an
    array, the member of the name for an object. *)
Definition length_of (v : json) : value :=
  match v with
  | JStr s => Some (JNum (of_Z (Z.of_nat (length16 s))))
  | JArr items => Some (JNum (of_Z (Z.of_nat (List.length items))))
  | _ => get v "length"
  end.

(** What [v.link] is when it is written into a text: a string has the
    method String.prototype.link there, a function, and the text of a
    function that the engine provides is the engine's (V8 here). *)
Definition native_link : string := "function link() { [native code] }".

Definition link_text (v : json) : string :=
  match v with
  | JStr _ => native_link
  | _ => ToString (get v "link")
  end.

(** [v.link] is truthy. *)
Definition has_link (v : json) : bool :=
  match v with
  | JStr _ => true
  | _ => truthy (get v "link")
  end.

End JS.

Import JS.

(* ================================================================== *)
(** * The page and the fields of [ChatApp] *)
(* ================================================================== *)

(** The texts that a method writes into the page with [innerHTML] (the
    question, the texts of an error, the answer that showdown renders, the
    fields of a card) come from the user and from the server.  The model
    keeps each of them as the text that was written.  It stands for the
    page as long as these texts hold no markup, so that a selector
    ([.loading], [.ai-message], [a], ...) finds only the elements that the
    methods create: a statement about a text that goes through [innerHTML]
    and is looked up afterwards asks for a plain text ([plain]). *)

(** A child of [.answer-content]. *)
Inductive element : Type :=
| Placeholder                                   (* .placeholder, from the page as served *)
| UserMessage (message : string)                (* .user-message *)
| Loading (text : string)                       (* .loading *)
| AiMessage (markdown : option string)          (* .ai-message > .markdown-content; [Some t]: it shows makeHtml(t) *)
| ErrorBox (error : string) (details : option string).   (* .error *)

(** A child of [.reference-cards]. *)
Inductive card : Type :=
| CardLoading (text : string)                   (* .loading *)
| NoResults (text : string)                     (* .no-results *)
| SearchError (error details : string)          (* .error *)
| ReferenceCard (id : string) (link : option string) (title : string)
    (authors : option string) (content : string) (date : option string)
                                                (* .reference-card; [link]: the href written on its anchor *)
| ToolResultCard (tool_name : string) (result : json) (message : option string).
                                                (* .tool-result-card; its pre shows the text of [result], cut at 1000 *)

(** [EventSource.readyState]. *)
Inductive ready : Type := CONNECTING | OPEN | CLOSED.

(** An [EventSource]: the query of its URL and its state. *)
Record eventSource : Type := {
  request : list (string * string);
  readyState : ready
}.

Record app : Type := {
  messageInput : string;                        (* this.messageInput.value *)
  answerContent : list element;                 (* children of this.answerContent *)
  referenceCards : list card;                   (* children of this.referenceCards *)
  referencesVisible : bool;                     (* this.referencesSection has class visible *)
  currentAnswer : string;                       (* this.currentAnswer *)
  searchToggle : bool;                          (* this.searchToggle.checked (part_002) *)
  toolOptions : option (list (string * bool));  (* this.toolOptions: value and checked (main.js) *)
  progressVisible : bool;                       (* .progress-container has class visible *)
  progressBarWidth : string;                    (* .progress-bar style.width, as the text that set it *)
  progressText : string;                        (* .progress-text textContent *)
  timers : list (nat * card);                   (* setTimeout: delay in ms, card to append *)
  sources : list eventSource                    (* the event sources, in order of creation *)
}.

Definition with_messageInput (x : string) (st : app) : app :=
  {| messageInput := x; answerContent := answerContent st;
     referenceCards := referenceCards st; referencesVisible := referencesVisible st;
     currentAnswer := currentAnswer st; searchToggle := searchToggle st;
     toolOptions := toolOptions st; progressVisible := progressVisible st;
     progressBarWidth := progressBarWidth st; progressText := progressText st;
     timers := timers st; sources := sources st |}.

Definition with_answerContent (x : list element) (st : app) : app :=
  {| messageInput := messageInput st; answerContent := x;
     referenceCards := referenceCards st; referencesVisible := referencesVisible st;
     currentAnswer := currentAnswer st; searchToggle := searchToggle st;
     toolOptions := toolOptions st; progressVisible := progressVisible st;
     progressBarWidth := progressBarWidth st; progressText := progressText st;
     timers := timers st; sources := sources st |}.

Definition with_referenceCards (x : list card) (st : app) : app :=
  {| messageInput := messageInput st; answerContent := answerContent st;
     referenceCards := x; referencesVisible := referencesVisible st;
     currentAnswer := currentAnswer st; searchToggle := searchToggle st;
     toolOptions := toolOptions st; progressVisible := progressVisible st;
     progressBarWidth := progressBarWidth st; progressText := progressText st;
     timers := timers st; sources := sources st |}.

Definition with_referencesVisible (x : bool) (st : app) : app :=
  {| messageInput := messageInput st; answerContent := answerContent st;
     referenceCards := referenceCards st; referencesVisible := x;
     currentAnswer := currentAnswer st; searchToggle := searchToggle st;
     toolOptions := toolOptions st; progressVisible := progressVisible st;
     progressBarWidth := progressBarWidth st; progressText := progressText st;
     timers := timers st; sources := sources st |}.

Definition with_currentAnswer (x : string) (st : app) : app :=
  {| messageInput := messageInput st; answerContent := answerContent st;
     referenceCards := referenceCards st; referencesVisible := referencesVisible st;
     currentAnswer := x; searchToggle := searchToggle st;
     toolOptions := toolOptions st; progressVisible := progressVisible st;
     progressBarWidth := progressBarWidth st; progressText := progressText st;
     timers := timers st; sources := sources st |}.

Definition with_progressVisible (x : bool) (st : app) : app :=
  {| messageInput := messageInput st; answerContent := answerContent st;
     referenceCards := referenceCards st; referencesVisible := referencesVisible st;
     currentAnswer := currentAnswer st; searchToggle := searchToggle st;
     toolOptions := toolOptions st; progressVisible := x;
     progressBarWidth := progressBarWidth st; progressText := progressText st;
     timers := timers st; sources := sources st |}.

Definition with_progressBarWidth (x : string) (st : app) : app :=
  {| messageInput := messageInput st; answerContent := answerContent st;
     referenceCards := referenceCards st; referencesVisible := referencesVisible st;
     currentAnswer := currentAnswer st; searchToggle := searchToggle st;
     toolOptions := toolOptions st; progressVisible := progressVisible st;
     progressBarWidth := x; progressText := progressText st;
     timers := timers st; sources := sources st |}.

Definition with_progressText (x : string) (st : app) : app :=
  {| messageInput := messageInput st; answerContent := answerContent st;
     referenceCards := referenceCards st; referencesVisible := referencesVisible st;
     currentAnswer := currentAnswer st; searchToggle := searchToggle st;
     toolOptions := toolOptions st; progressVisible := progressVisible st;
     progressBarWidth := progressBarWidth st; progressText := x;
     timers := timers st; sources := sources st |}.

Definition with_timers (x : list (nat * card)) (st : app) : app :=
  {| messageInput := messageInput st; answerContent := answerContent st;
     referenceCards := referenceCards st; referencesVisible := referencesVisible st;
     currentAnswer := currentAnswer st; searchToggle := searchToggle st;
     toolOptions := toolOptions st; progressVisible := progressVisible st;
     progressBarWidth := progressBarWidth st; progressText := progressText st;
     timers := x; sources := sources st |}.

Definition with_sources (x : list eventSource) (st : app) : app :=
  {| messageInput := messageInput st; answerContent := answerContent st;
     referenceCards := referenceCards st; referencesVisible := referencesVisible st;
     currentAnswer := currentAnswer st; searchToggle := searchToggle st;
     toolOptions := toolOptions st; progressVisible := progressVisible st;
     progressBarWidth := progressBarWidth st; progressText := progressText st;
     timers := timers st; sources := x |}.

(** What a method that can throw ends with: the page it leaves, and the
    error when it throws. *)
Inductive exn : Type :=
| TypeError (message : string)
| SyntaxError (message : string)
| ReferenceError (message : string).

Inductive completion : Type :=
| Normal (st : app)
| Throw (e : exn) (st : app).

(** What a function that touches no page ends with: its value, or the
    error when it throws. *)
Inductive outcome (A : Type) : Type :=
| Returns (a : A)
| Throws (e : exn).

Arguments Returns {A} a.
Arguments Throws {A} e.

Definition page (c : completion) : app :=
  match c with
  | Normal st => st
  | Throw _ st => st
  end.

(** [error.message]; the wording is the engine's (V8 here). *)
Definition message_of (e : exn) : string :=
  match e with
  | TypeError m => m
  | SyntaxError m => m
  | ReferenceError m => m
  end.

Definition null_read (member : string) : exn :=
  TypeError ("Cannot read properties of null (reading '" ++ member ++ "')").

(** ** Selectors *)

Definition is_loading (e : element) : bool :=
  match e with Loading _ => true | _ => false end.

Definition is_placeholder (e : element) : bool :=
  match e with Placeholder => true | _ => false end.

Definition is_ai_message (e : element) : bool :=
  match e with AiMessage _ => true | _ => false end.

Definition is_card_loading (c : card) : bool :=
  match c with CardLoading _ => true | _ => false end.

Definition is_tool_result_card (c : card) : bool :=
  match c with ToolResultCard _ _ _ => true | _ => false end.

(** [querySelector(sel)] is not [null]. *)
Definition has {A : Type} (sel : A -> bool) (l : list A) : bool := existsb sel l.

(** [querySelector(sel).remove()]: the first match leaves. *)
Fixpoint remove_first {A : Type} (sel : A -> bool) (l : list A) : list A :=
  match l with
  | [] => []
  | x :: l' => if sel x then l' else x :: remove_first sel l'
  end.

(** The first match is replaced by [f] of it. *)
Fixpoint update_first {A : Type} (sel : A -> bool) (f : A -> A) (l : list A) : list A :=
  match l with
  | [] => []
  | x :: l' => if sel x then f x :: l' else x :: update_first sel f l'
  end.

(** [querySelector('.loading').textContent = t], in either pane. *)
Definition set_loading_text (t : string) (l : list element) : list element :=
  update_first is_loading (fun _ => Loading t) l.

Definition set_card_loading_text (t : string) (l : list card) : list card :=
  update_first is_card_loading (fun _ => CardLoading t) l.

(** [querySelector('.ai-message:last-child')] is not [null]: the last child
    of the pane is an answer block. *)
Definition ends_with_ai_message (l : list element) : bool :=
  match rev l with
  | x :: _ => is_ai_message x
  | [] => false
  end.

(** The last child is replaced by [e]. *)
Definition replace_last (e : element) (l : list element) : list element :=
  (removelast l ++ [e])%list.

(** ** The event sources *)

Definition readyState_of (i : nat) (st : app) : option ready :=
  match nth_error (sources st) i with
  | Some es => Some (readyState es)
  | None => None
  end.

Fixpoint set_ready (i : nat) (r : ready) (l : list eventSource) : list eventSource :=
  match l, i with
  | [], _ => []
  | es :: l', O => {| request := request es; readyState := r |} :: l'
  | es :: l', S i' => es :: set_ready i' r l'
  end.

(** [eventSource.close()] on the source number [i]. *)
Definition close (i : nat) (st : app) : app :=
  with_sources (set_ready i CLOSED (sources st)) st.

(** ** Texts of the page *)

Definition txt_thinking : string := "思考中...".
Definition txt_searching : string := "搜索中...".
Definition txt_parsing : string := "网页解读中...".
Definition txt_parsing_completed : string := "解读结束".
Definition txt_generating : string := "生成回答中...".
Definition txt_organizing : string := "正在整理信息...".
Definition txt_error : string := "发生错误".
Definition txt_no_results : string := "暂无相关搜索结果".
Definition txt_no_papers : string := "暂无相关论文".
Definition txt_no_title : string := "无标题".
Definition txt_no_content : string := "无内容".
Definition txt_unknown_authors : string := "未知作者".
Definition txt_unknown_date : string := "未知日期".
Definition txt_published : string := "发布时间：".
Definition txt_processing_error : string := "处理服务器响应时发生错误".
Definition txt_invalid_format : string := "无效的服务器响应格式".
Definition txt_invalid_data : string := "服务器返回了无效的数据格式".
Definition txt_connection_lost : string := "连接已断开，请重试".
Definition txt_connection_error : string := "连接出错，请重试".
Definition txt_error_prefix : string := "发生错误: ".

(* ================================================================== *)
(** * Methods that the three revisions share *)
(* ================================================================== *)

(** [truncateContent(content, maxLength = 300)] (main.js, lines 16-19 and
    442-445).  What is falsy gives the empty string.  A string or an array
    longer than [maxLength] is cut and gets three dots.  A number or a
    boolean has no length and comes back as it is, and so does an object
    whose member [length], as a number, is not above [maxLength]; an object
    with a greater one has no [slice] to call, and the call throws. *)
Definition truncateContent (content : value) (maxLength : nat) : outcome json :=
  if negb (truthy content) then Returns (JStr EmptyString)
  else
    match content with
    | Some (JStr s) =>
        if maxLength <? length16 s
        then Returns (JStr (slice16 maxLength s ++ "..."))
        else Returns (JStr s)
    | Some (JArr l) =>
        if maxLength <? List.length l
        then Returns (JStr (json_toString (JArr (firstn maxLength l)) ++ "..."))
        else Returns (JArr l)
    | Some v =>
        if less (of_Z (Z.of_nat maxLength)) (ToNumber (length_of v))
        then Throws (TypeError "content.slice is not a function")
        else Returns v
    | None => Returns (JStr EmptyString)
    end.

(** [showError(data)] (part_002 302-325, main.js 396-419 and 1005-1028).
    The status line leaves first; reading [data.error] throws on [null]; on
    a string (three callers pass one) it is [undefined] and the default
    text is shown. *)
Definition showError (data : json) (st : app) : completion :=
  let st1 := with_answerContent (remove_first is_loading (answerContent st)) st in
  match data with
  | JNull => Throw (null_read "error") st1
  | _ =>
      let errorDiv :=
        ErrorBox (or_else (get data "error") txt_error)
                 (if truthy (get data "details")
                  then Some (ToString (get data "details")) else None) in
      let l := answerContent st1 in
      Normal (with_answerContent
                (if ends_with_ai_message l then replace_last errorDiv l
                 else (l ++ [errorDiv])%list) st1)
  end.

(** [updateAnswer(data)] (part_002 254-300, main.js 348-394 and 957-1003). *)
Definition updateAnswer (data : json) (st : app) : completion :=
  match data with
  | JNull => Throw (null_read "status") st
  | _ =>
      if is_string (get data "status") "error" then showError data st
      else
        let st1 :=
          if has is_loading (answerContent st)
          then with_answerContent
                 (remove_first is_loading (answerContent st) ++ [AiMessage None])%list st
          else st in
        if truthy (get data "content") then
          let text := currentAnswer st1 ++ ToString (get data "content") in
          let st2 := with_currentAnswer text st1 in
          let l := answerContent st2 in
          Normal (if ends_with_ai_message l
                  then with_answerContent (replace_last (AiMessage (Some text)) l) st2
                  else st2)
        else Normal st1
  end.

(** The object literal [{error: e, details: d}]. *)
Definition error_object (e d : string) : json :=
  JObj [("error", JStr e); ("details", JStr d)].

(** The first part of [handleSendMessage], the same in the three revisions
    (part_002 22-45, main.js 56-79 and 482-505): [None] when the trimmed
    input is empty and the method returns at once; otherwise the message and
    the page with the input cleared, the question and a status line added
    and the answer buffer reset. *)
Definition begin_message (st : app) : option (string * app) :=
  let message := trim (messageInput st) in
  if (message =? EmptyString)%string then None
  else
    let st1 := with_messageInput EmptyString st in
    let old := answerContent st1 in
    let kept :=
      if has is_loading old || has is_placeholder old then [] else old in
    let st2 := with_answerContent (kept ++ [UserMessage message])%list st1 in
    let st3 := with_answerContent (answerContent st2 ++ [Loading txt_thinking])%list st2 in
    Some (message, with_currentAnswer EmptyString st3).

(** [new ChatApp()] (part_002 2-12, main.js 2-13 and 428-439) on a page
    that is served with the given children of the two panes: the answer
    buffer is empty, no tool is loaded yet and no source exists. *)
Definition constructor (answer : list element) (cards : list card) (toggle : bool) : app :=
  {| messageInput := EmptyString; answerContent := answer;
     referenceCards := cards; referencesVisible := false;
     currentAnswer := EmptyString; searchToggle := toggle;
     toolOptions := None; progressVisible := false;
     progressBarWidth := EmptyString; progressText := EmptyString;
     timers := []; sources := [] |}.

(** [loadAvailableTools()] (main.js 21-45 and 447-471) once the list of
    tools has arrived: one check box for each name, checked. *)
Definition loadAvailableTools (names : list string) (st : app) : app :=
  {| messageInput := messageInput st; answerContent := answerContent st;
     referenceCards := referenceCards st; referencesVisible := referencesVisible st;
     currentAnswer := currentAnswer st; searchToggle := searchToggle st;
     toolOptions := Some (map (fun n => (n, true)) names);
     progressVisible := progressVisible st;
     progressBarWidth := progressBarWidth st; progressText := progressText st;
     timers := timers st; sources := sources st |}.

(** A new [EventSource] joins the list; it starts connecting. *)
Definition new_EventSource (query : list (string * string)) (st : app) : app :=
  with_sources (sources st ++ [{| request := query; readyState := CONNECTING |}])%list st.

(** The [k]-th pending timer fires: its card is appended to the reference
    pane. *)
Definition timer_fires (k : nat) (st : app) : app :=
  match nth_error (timers st) k with
  | None => st
  | Some (_, c) =>
      with_referenceCards (referenceCards st ++ [c])%list
        (with_timers (firstn k (timers st) ++ skipn (S k) (timers st))%list st)
  end.

(** [results.forEach((result, index) => setTimeout(..., index * 100))]: one
    timer for each result; [make] is the card that the callback builds, or
    [None] when the callback throws and appends nothing. *)
Fixpoint schedule (make : nat -> json -> option card) (index : nat) (results : list json)
  : list (nat * card) :=
  match results with
  | [] => []
  | r :: rest =>
      match make index r with
      | Some c => (index * 100, c) :: schedule make (S index) rest
      | None => schedule make (S index) rest
      end
  end.

Definition nat_toString (n : nat) : string := Z_toString (Z.of_nat n).

(** ** Cards of the reference pane *)

(** [${this.truncateContent(c) || '无内容'}], or [None] when
    [truncateContent] throws. *)
Definition content_text (c : value) : option string :=
  match truncateContent c 300 with
  | Returns v => Some (or_else (Some v) txt_no_content)
  | Throws _ => None
  end.

(** [Array.isArray(a) ? a.join(', ') : (a || '未知作者')]. *)
Definition authors_text (a : value) : string :=
  match a with
  | Some (JArr items) => Array_join ", " items
  | _ => or_else a txt_unknown_authors
  end.

(** The card that [updateSearchResults] of main.js builds for a result
    (lines 315-336 and 756-777), or [None] when the callback throws:
    reading a member of [null] throws, and so may [truncateContent]. *)
Definition result_card (index : nat) (result : json) : option card :=
  match result with
  | JNull => None
  | _ =>
      if truthy (get result "isArxiv") then
        match content_text (if truthy (get result "abstract") then get result "abstract"
                            else get result "content") with
        | Some content =>
            Some (ReferenceCard ("result-" ++ nat_toString index)
                    (Some (link_text result))
                    (or_else (get result "title") txt_no_title)
                    (Some (authors_text (get result "authors")))
                    content
                    (Some (txt_published ++ or_else (get result "submitted") txt_unknown_date)))
        | None => None
        end
      else
        match content_text (get result "content") with
        | Some content =>
            Some (ReferenceCard ("result-" ++ nat_toString index)
                    (Some (link_text result))
                    (or_else (get result "title") txt_no_title)
                    None
                    content
                    (if truthy (get result "date")
                     then Some (txt_published ++ ToString (get result "date")) else None))
        | None => None
        end
  end.

(** [results.forEach(...)] on the value [data.results || []]: an array
    goes through; anything else that is truthy and has not the length 0 has
    no [forEach] and the call throws. *)
Definition not_a_function (what : string) : exn :=
  TypeError (what ++ " is not a function").

(** [results.length === 0]: the length is a Number and is zero. *)
Definition length_is_0 (v : json) : bool :=
  match length_of v with
  | Some (JNum (S754_zero _)) => true
  | _ => false
  end.

(** [updateSearchResults(data)] of main.js (lines 287-341 and 728-782).
    The pane is emptied before anything is read. *)
Definition updateSearchResults (data : json) (st : app) : completion :=
  let st1 := with_referenceCards [] st in
  match data with
  | JNull => Throw (null_read "status") st1
  | _ =>
      if is_string (get data "status") "error" then
        Normal (with_referencesVisible false
                  (with_referenceCards
                     [SearchError (ToString (get data "error"))
                        (or_else (get data "details") EmptyString)] st1))
      else
        let empty :=
          with_referencesVisible false
            (with_referenceCards [NoResults txt_no_results] st1) in
        if negb (truthy (get data "results")) then Normal empty
        else
          match get data "results" with
          | Some (JArr []) => Normal empty
          | Some (JArr results) =>
              let st2 := with_referencesVisible true st1 in
              Normal (with_timers (timers st2 ++ schedule result_card 0 results)%list st2)
          | Some results =>
              if length_is_0 results then Normal empty
              else Throw (not_a_function "results.forEach") (with_referencesVisible true st1)
          | None => Normal empty
          end
  end.

(* ================================================================== *)
(** * The browser: how events reach the client *)
(* ================================================================== *)

(** What happens to the page, one event at a time. *)
Inductive event : Type :=
| Send (input : string) (now : Z)        (* the user types [input] and sends it at time [now] *)
| Opens (i : nat)                        (* the connection of source [i] is established *)
| Frame (i : nat) (type data : string)   (* the server sends [event: type] with [data] on source [i] *)
| Fails (i : nat) (fatal : bool)         (* the connection of source [i] fails, for good or not *)
| TimerFires (k : nat).                  (* the [k]-th pending timer fires *)

Module Browser.
Section Client.

(** A revision of the client: the event types it adds a listener for, the
    listener, the [onerror] handler and [handleSendMessage]. *)
Variable eventTypes : list string.
Variable listener : nat -> string -> option string -> app -> app.
Variable onerror : nat -> app -> app.
Variable handleSendMessage : Z -> app -> app.

(** An event of type [type] is dispatched at the source [i].  Its
    listeners run in the order in which they were set: the one that
    [handleSendMessage] adds with [addEventListener(type, ...)], if [type]
    is among [eventTypes], and then, for the type [error], the handler
    [eventSource.onerror], which is the listener of that event type and is
    set after the others.  The type of an event is the name that the server
    gives its frame ([event: error]), so a frame named [error] is an event
    of type [error], as is the event without data by which the browser
    reports a failed connection: both reach the listener and [onerror]. *)
Definition dispatch (i : nat) (type : string) (data : option string) (st : app) : app :=
  let st1 :=
    if existsb (String.eqb type) eventTypes then listener i type data st else st in
  if (type =? "error")%string then onerror i st1 else st1.

(** A frame is dispatched only at an open source; its event carries the
    data of the frame. *)
Definition frame (i : nat) (type data : string) (st : app) : app :=
  match readyState_of i st with
  | Some OPEN => dispatch i type (Some data) st
  | _ => st
  end.

(** The connection fails: the source goes back to connecting, or is closed
    when the failure is fatal, and an event [error] without data is
    dispatched.  Nothing happens at a closed source. *)
Definition fails (i : nat) (fatal : bool) (st : app) : app :=
  match readyState_of i st with
  | Some CLOSED | None => st
  | Some _ =>
      dispatch i "error" None
        (with_sources (set_ready i (if fatal then CLOSED else CONNECTING) (sources st)) st)
  end.

Definition opens (i : nat) (st : app) : app :=
  match readyState_of i st with
  | Some CONNECTING => with_sources (set_ready i OPEN (sources st)) st
  | _ => st
  end.

Definition step (e : event) (st : app) : app :=
  match e with
  | Send input now => handleSendMessage now (with_messageInput input st)
  | Opens i => opens i st
  | Frame i type data => frame i type data st
  | Fails i fatal => fails i fatal st
  | TimerFires k => timer_fires k st
  end.

(** The events of a list, in the order of arrival. *)
Definition run (es : list event) (st : app) : app :=
  fold_left (fun s e => step e s) es st.

End Client.
End Browser.

(* ================================================================== *)
(** * main.js: what its two revisions share *)
(* ================================================================== *)

Module Main.

(** The checks at the head of [handleEventData] (lines 168-185 and 594-611):
    the payload must be there, not blank, parse, and parse to an object or
    an array. *)
Definition decode (data : option string) : option json :=
  match data with
  | None => None
  | Some s =>
      if (s =? EmptyString)%string || (trim s =? EmptyString)%string then None
      else
        match JSON_parse s with
        | None => None
        | Some d => if truthy (Some d) && typeof_object d then Some d else None
        end
  end.

(** The outer [catch] of [handleEventData] (lines 210-225 and 629-644). *)
Definition caught (c : completion) : app :=
  match c with
  | Normal st => st
  | Throw e st =>
      page (showError
              (match e with
               | SyntaxError _ => error_object txt_invalid_format txt_invalid_data
               | _ => error_object txt_processing_error (message_of e)
               end) st)
  end.

(** The listener that [handleSendMessage] adds for [eventType] on the
    source number [i] (lines 102-132 and 528-558); [handleEventData] is the
    one of the revision.  It throws nothing, so the [catch] of the listener
    has nothing to do. *)
Definition listener (handleEventData : string -> option string -> app -> app)
    (i : nat) (eventType : string) (data : option string) (st : app) : app :=
  match readyState_of i st with
  | Some CLOSED => st
  | _ =>
      match data with
      | None => st
      | Some EmptyString => st
      | Some _ =>
          let st1 := handleEventData eventType data st in
          if (eventType =? "complete")%string then close i st1 else st1
      end
  end.

(** [eventSource.onerror] (lines 135-153 and 561-579). *)
Definition onerror (i : nat) (st : app) : app :=
  match readyState_of i st with
  | None => st
  | Some CONNECTING => st
  | Some CLOSED =>
      if negb (currentAnswer st =? EmptyString)%string then st
      else page (showError (JStr txt_connection_lost) st)
  | Some OPEN => close i (page (showError (JStr txt_connection_error) st))
  end.

(** [handleSendMessage()] (lines 55-162 and 481-588); [now] is [Date.now()].
    When the list of tools has not been loaded [Array.from(this.toolOptions)]
    throws and the [catch] shows an error; no source is created. *)
Definition handleSendMessage (now : Z) (st : app) : app :=
  match begin_message st with
  | None => st
  | Some (message, st1) =>
      match toolOptions st1 with
      | None =>
          page (showError (JStr (txt_error_prefix ++ "undefined is not iterable")) st1)
      | Some options =>
          let selected_tools := map fst (filter snd options) in
          new_EventSource
            [("message", message); ("request_id", Z_toString now);
             ("selected_tools", join "," selected_tools)] st1
      end
  end.

End Main.

(* ================================================================== *)
(** * main.js, first revision (lines 1-425) *)
(* ================================================================== *)

Module MainA.

(** [updateStatus(data)] (lines 228-285). *)
Definition updateStatus (data : json) (st : app) : app :=
  let both (t : string) (s : app) :=
    with_answerContent (set_loading_text t (answerContent s))
      (with_referenceCards (set_card_loading_text t (referenceCards s)) s) in
  let status := get data "status" in
  if is_string status "searching" then
    with_answerContent (set_loading_text txt_searching (answerContent st))
      (with_referencesVisible true
         (with_referenceCards [CardLoading txt_searching] st))
  else if is_string status "parsing" then both txt_parsing st
  else if is_string status "parsing_completed" then both txt_parsing_completed st
  else if is_string status "generating" then
    with_answerContent
      (remove_first is_loading (answerContent st) ++ [Loading txt_generating])%list
      (with_referenceCards (remove_first is_card_loading (referenceCards st)) st)
  else st.

(** [updateSearchResult(data)] (lines 343-346): it returns at once. *)
Definition updateSearchResult (data : json) (st : app) : app := st.

(** [handleEventData(event)] (lines 164-226). *)
Definition handleEventData (type : string) (data : option string) (st : app) : app :=
  match Main.decode data with
  | None => st
  | Some d =>
      Main.caught
        (if (type =? "status")%string then Normal (updateStatus d st)
         else if (type =? "search_results")%string then updateSearchResults d st
         else if (type =? "search_result_update")%string then Normal (updateSearchResult d st)
         else if (type =? "answer")%string then updateAnswer d st
         else if (type =? "error")%string then showError d st
         else Normal st)
  end.

(** The event types that [handleSendMessage] listens to (line 101). *)
Definition eventTypes : list string :=
  ["status"; "search_results"; "search_result_update"; "answer"; "error"; "complete"].

Definition listener : nat -> string -> option string -> app -> app :=
  Main.listener handleEventData.

Definition onerror : nat -> app -> app := Main.onerror.

Definition handleSendMessage : Z -> app -> app := Main.handleSendMessage.

Definition step : event -> app -> app := Browser.step eventTypes listener onerror handleSendMessage.

Definition run : list event -> app -> app := Browser.run eventTypes listener onerror handleSendMessage.

End MainA.

(* ================================================================== *)
(** * main.js, second revision (lines 427-1033) *)
(* ================================================================== *)

Module MainB.

(** [Math.round(data.progress * 100)]. *)
Definition percent (progress : json) : number :=
  Math_round (mul (ToNumber (Some progress)) (of_Z 100)).

(** [`${progress}%`]. *)
Definition percent_text (p : number) : string :=
  Number_toString p ++ "%".

(** [progressBar.style.width = `${progress}%`]: the style takes a
    percentage that is not negative and ignores any other text ([NaN%],
    [Infinity%], a negative percentage). *)
Definition set_width (p : number) (st : app) : app :=
  match p with
  | S754_zero _ | S754_finite false _ _ => with_progressBarWidth (percent_text p) st
  | _ => st
  end.

(** [updateStatus(data)] (lines 647-726). *)
Definition updateStatus (data : json) (st : app) : app :=
  (* statusElement: the first .loading of the answer pane, created when there is none *)
  let st0 :=
    if has is_loading (answerContent st) then st
    else with_answerContent (answerContent st ++ [Loading EmptyString])%list st in
  let status_text (t : string) (s : app) :=
    with_answerContent (set_loading_text t (answerContent s)) s in
  let message := textContent_of (get data "message") in
  let status := get data "status" in
  if is_string status "searching" then
    with_progressVisible false
      (status_text txt_searching
         (with_referencesVisible true
            (with_referenceCards [CardLoading txt_searching] st0)))
  else if is_string status "fetch_start" then
    status_text message
      (with_referenceCards (set_card_loading_text message (referenceCards st0))
         (with_progressText "0%"
            (with_progressBarWidth "0%"
               (with_progressVisible true st0))))
  else if is_string status "fetch_progress" then
    let st1 :=
      if truthy (get data "progress") then
        match get data "progress" with
        | Some p => with_progressText (percent_text (percent p)) (set_width (percent p) st0)
        | None => st0
        end
      else st0 in
    status_text message
      (with_referenceCards (set_card_loading_text message (referenceCards st1)) st1)
  else if is_string status "fetch_completed" then
    status_text txt_organizing
      (with_referenceCards (remove_first is_card_loading (referenceCards st0)) st0)
  else if is_string status "generating" then
    status_text txt_generating
      (with_referenceCards (remove_first is_card_loading (referenceCards st0)) st0)
  else if is_string status "completed" then
    with_answerContent (remove_first is_loading (answerContent st0)) st0
  else st0.

(** The card of [handleSearchResults] (lines 871-887), or [None] when the
    callback throws. *)
Definition web_card (index : nat) (result : json) : option card :=
  match result with
  | JNull => None
  | _ =>
      match content_text (get result "content") with
      | Some content =>
          Some (ReferenceCard ("result-" ++ nat_toString index)
                  (Some (link_text result))
                  (or_else (get result "title") txt_no_title)
                  None
                  content
                  (if truthy (get result "date")
                   then Some (txt_published ++ ToString (get result "date")) else None))
      | None => None
      end
  end.

(** The card of [handleArxivResults] (lines 909-926), or [None] when the
    callback throws. *)
Definition paper_card (index : nat) (paper : json) : option card :=
  match paper with
  | JNull => None
  | _ =>
      match content_text (get paper "content") with
      | Some content =>
          Some (ReferenceCard ("paper-" ++ nat_toString index)
                  (Some (link_text paper))
                  (or_else (get paper "title") txt_no_title)
                  (Some (authors_text (get paper "authors")))
                  content
                  (Some (txt_published ++ or_else (get paper "submitted") txt_unknown_date)))
      | None => None
      end
  end.

(** [handleSearchResults(results)] (lines 856-892) and
    [handleArxivResults(papers)] (lines 894-931): they differ by the card
    and by the text shown when there is nothing. *)
Definition handleResults (make : nat -> json -> option card) (nothing : string)
    (results : json) (st : app) : app :=
  let st1 := with_referenceCards [] st in
  match results with
  | JArr (r :: rest) =>
      let st2 := with_referencesVisible true st1 in
      with_timers (timers st2 ++ schedule make 0 (r :: rest))%list st2
  | _ =>
      with_referencesVisible false (with_referenceCards [NoResults nothing] st1)
  end.

Definition handleSearchResults : json -> app -> app :=
  handleResults web_card txt_no_results.

Definition handleArxivResults : json -> app -> app :=
  handleResults paper_card txt_no_papers.

(** [handleToolResult(data)] (lines 784-854).  For a tool other than the
    two searches the text of the result is computed first;
    [Object.entries(item)] throws on an item [null] of an array. *)
Definition handleToolResult (data : json) (st : app) : completion :=
  if truthy (get data "tool_name") && truthy (get data "result") then
    match get data "result" with
    | None => Normal st
    | Some result =>
        if is_string (get data "tool_name") "search_web"
        then Normal (handleSearchResults result st)
        else if is_string (get data "tool_name") "search_arxiv"
        then Normal (handleArxivResults result st)
        else
          let throws :=
            match result with
            | JArr items => existsb (fun x => match x with JNull => true | _ => false end) items
            | _ => false
            end in
          if throws
          then Throw (TypeError "Cannot convert undefined or null to object") st
          else
            let resultElement :=
              ToolResultCard (ToString (get data "tool_name")) result
                (if truthy (get data "message")
                 then Some (ToString (get data "message")) else None) in
            let st1 :=
              if has is_tool_result_card (referenceCards st) then st
              else with_referenceCards [] st in
            Normal (with_referencesVisible true
                      (with_referenceCards (referenceCards st1 ++ [resultElement])%list st1))
    end
  else Normal st.

(** [card.querySelector('a')?.href]: the address of the anchor of a card,
    resolved by the browser against the address of the page.  [resolve] is
    that resolution. *)
Definition card_href (resolve : string -> string) (c : card) : option string :=
  match c with
  | ReferenceCard _ (Some h) _ _ _ _ => Some (resolve h)
  | _ => None
  end.

Definition href_is (resolve : string -> string) (link : json) (c : card) : bool :=
  match card_href resolve c, link with
  | Some h, JStr l => (h =? l)%string
  | _, _ => false
  end.

(** [content.textContent = this.truncateContent(data.result.content)] on
    the card found. *)
Definition set_paper_content (t : string) (c : card) : card :=
  match c with
  | ReferenceCard id link title authors _ date => ReferenceCard id link title authors t date
  | _ => c
  end.

(** [updateSearchResult(data)] (lines 933-955).  No listener and no case of
    [handleEventData] calls it in this revision.  The link of a result that
    is a string is a function, which is the address of no anchor. *)
Definition updateSearchResult (resolve : string -> string) (data : json) (st : app)
  : completion :=
  match data, get data "result" with
  | JNull, _ => Throw (null_read "result") st
  | _, Some result =>
      if truthy (Some result) && has_link result then
        let existingResult (link : json) := href_is resolve link in
        let added :=
          updateSearchResults
            (JObj [("status", JStr "success"); ("results", JArr [result]);
                   ("isInitialResults", JBool false)]) st in
        match result, get result "link" with
        | JStr _, _ | _, None => added
        | _, Some link =>
            if has (existingResult link) (referenceCards st) then
              match truncateContent (get result "content") 300 with
              | Returns v =>
                  Normal (with_referenceCards
                            (update_first (existingResult link)
                               (set_paper_content (textContent_of (Some v)))
                               (referenceCards st)) st)
              | Throws e => Throw e st
              end
            else added
        end
      else Normal st
  | _, None => Normal st
  end.

(** [handleEventData(event)] (lines 590-645); [type] is [event.type] and
    [data] is [event.data]. *)
Definition handleEventData (type : string) (data : option string) (st : app) : app :=
  match Main.decode data with
  | None => st
  | Some d =>
      Main.caught
        (if (type =? "status")%string then Normal (updateStatus d st)
         else if (type =? "tool_result")%string then handleToolResult d st
         else if (type =? "answer")%string then updateAnswer d st
         else if (type =? "error")%string then showError d st
         else Normal st)
  end.

(** The event types that [handleSendMessage] listens to (line 527). *)
Definition eventTypes : list string :=
  ["status"; "tool_result"; "answer"; "error"; "complete"].

Definition listener : nat -> string -> option string -> app -> app :=
  Main.listener handleEventData.

Definition onerror : nat -> app -> app := Main.onerror.

Definition handleSendMessage : Z -> app -> app := Main.handleSendMessage.

Definition step : event -> app -> app := Browser.step eventTypes listener onerror handleSendMessage.

Definition run : list event -> app -> app := Browser.run eventTypes listener onerror handleSendMessage.

End MainB.

(* ================================================================== *)
(** * src/unnamed/part_002, the oldest revision *)
(* ================================================================== *)

Module Part002.

(** [updateStatus(data)] (lines 130-195).  Reading [data.status] throws on
    [null], which this revision lets through. *)
Definition updateStatus (data : json) (st : app) : completion :=
  let both (t : string) (s : app) :=
    with_answerContent (set_loading_text t (answerContent s))
      (if searchToggle s
       then with_referenceCards (set_card_loading_text t (referenceCards s)) s
       else s) in
  match data with
  | JNull => Throw (null_read "status") st
  | _ =>
      let status := get data "status" in
      Normal
        (if is_string status "searching" then
           with_answerContent (set_loading_text txt_searching (answerContent st))
             (if searchToggle st
              then with_referenceCards (CardLoading txt_searching :: referenceCards st) st
              else st)
         else if is_string status "parsing" then both txt_parsing st
         else if is_string status "parsing_completed" then both txt_parsing_completed st
         else if is_string status "generating" then
           with_answerContent
             (remove_first is_loading (answerContent st) ++ [Loading txt_generating])%list
             (if searchToggle st
              then with_referenceCards (remove_first is_card_loading (referenceCards st)) st
              else st)
         else st)
  end.

(** The card of [updateSearchResults] (lines 223-242): an answer box has a
    title without a link; the content is not cut, so that nothing throws
    but the reading of a member of [null]. *)
Definition result_card (index : nat) (result : json) : option card :=
  match result with
  | JNull => None
  | _ =>
      Some (ReferenceCard ("result-" ++ nat_toString index)
              (if truthy (get result "isAnswerBox") then None
               else Some (link_text result))
              (or_else (get result "title") txt_no_title)
              None
              (or_else (get result "content") txt_no_content)
              None)
  end.

(** [updateSearchResults(data)] (lines 197-247). *)
Definition updateSearchResults (data : json) (st : app) : completion :=
  if negb (searchToggle st) then Normal st
  else
    match data with
    | JNull => Throw (null_read "status") st
    | _ =>
        if is_string (get data "status") "error" then
          Normal (with_referencesVisible false
                    (with_referenceCards
                       [SearchError (ToString (get data "error"))
                          (or_else (get data "details") EmptyString)] st))
        else
          let empty :=
            with_referencesVisible false
              (with_referenceCards [NoResults txt_no_results] st) in
          if negb (truthy (get data "results")) then Normal empty
          else
            match get data "results" with
            | Some (JArr []) => Normal empty
            | Some (JArr results) =>
                let st2 := with_referencesVisible true st in
                Normal (with_timers (timers st2 ++ schedule result_card 0 results)%list st2)
            | Some results =>
                if length_is_0 results then Normal empty
                else Throw (not_a_function "results.forEach") (with_referencesVisible true st)
            | None => Normal empty
            end
    end.

(** [updateSearchResult(data)] (lines 249-252): it returns at once. *)
Definition updateSearchResult (data : json) (st : app) : app := st.

(** [JSON.parse(event.data)] on the data of an event; an event without
    data has [undefined] there, which is no JSON text. *)
Definition parse_data (data : option string) : option json :=
  match data with
  | Some s => JSON_parse s
  | None => None
  end.

(** The SyntaxError of [JSON.parse].  Its message is the engine's and
    depends on the text; the one here stands for it. *)
Definition json_syntax_error : exn := SyntaxError "Unexpected token in JSON".

(** [handleEventData(event)] (lines 93-128): whatever is thrown, by
    [JSON.parse] or by a method, is shown as an error. *)
Definition handleEventData (type : string) (data : option string) (st : app) : app :=
  let body :=
    match parse_data data with
    | None => Throw json_syntax_error st
    | Some d =>
        if (type =? "status")%string then updateStatus d st
        else if (type =? "search_results")%string then
          if searchToggle st then updateSearchResults d st else Normal st
        else if (type =? "search_result_update")%string then
          Normal (if searchToggle st then updateSearchResult d st else st)
        else if (type =? "answer")%string then updateAnswer d st
        else if (type =? "error")%string then showError d st
        else Normal st
    end in
  match body with
  | Normal st' => st'
  | Throw e st' => page (showError (error_object txt_processing_error (message_of e)) st')
  end.

(** The event types that [handleSendMessage] listens to (line 57). *)
Definition eventTypes : list string :=
  ["status"; "search_results"; "search_result_update"; "answer"; "error"].

(** The listener of [eventType] on the source number [i] (lines 58-71).  It
    parses the data once more to see a status [completed].  Its [catch]
    names [data], which is declared in the [try] block only: what is caught
    there leaves the listener as a ReferenceError. *)
Definition listener (i : nat) (eventType : string) (data : option string) (st : app)
  : completion :=
  let st1 := handleEventData eventType data st in
  let escapes := Throw (ReferenceError "data is not defined") st1 in
  match parse_data data with
  | None => escapes
  | Some d =>
      if (eventType =? "status")%string then
        match d with
        | JNull => escapes
        | _ => if is_string (get d "status") "completed"
               then Normal (close i st1) else Normal st1
        end
      else Normal st1
  end.

(** [eventSource.onerror] (lines 74-82). *)
Definition onerror (i : nat) (st : app) : app :=
  match readyState_of i st with
  | None => st
  | Some CLOSED => st
  | Some _ => close i (page (showError (JStr txt_connection_error) st))
  end.

(** [handleSendMessage()] (lines 21-91). *)
Definition handleSendMessage (now : Z) (st : app) : app :=
  match begin_message st with
  | None => st
  | Some (message, st1) =>
      new_EventSource
        [("message", message);
         ("use_search", if searchToggle st1 then "true" else "false")] st1
  end.

(** What the browser sees of the listener: the page it leaves. *)
Definition listens (i : nat) (eventType : string) (data : option string) (st : app) : app :=
  page (listener i eventType data st).

Definition step : event -> app -> app := Browser.step eventTypes listens onerror handleSendMessage.

Definition run : list event -> app -> app := Browser.run eventTypes listens onerror handleSendMessage.

End Part002.

(* ================================================================== *)
(** * The vocabulary of the statements *)
(* ================================================================== *)

(** A payload is written with [q] around its names and its strings. *)
Definition q (s : string) : string := dquote ++ s ++ dquote.

Definition content_payload (text : string) : string :=
  "{" ++ q "content" ++ ":" ++ q text ++ "}".

Definition status_payload (status : string) : string :=
  "{" ++ q "status" ++ ":" ++ q status ++ "}".

(** A page with one question asked and its stream open, in the second
    revision of main.js. *)
Definition asked : app :=
  MainB.run [Send "q" 1%Z; Opens 0]
    (loadAvailableTools ["search_web"] (constructor [Placeholder] [] true)).

(** The answer buffer of [st'] is the one of [st] with some text added. *)
Definition extends (st st' : app) : Prop :=
  exists suffix, currentAnswer st' = currentAnswer st ++ suffix.

(** The payload is accepted by the checks of main.js and it carries the
    text [f] as its content, with no error status. *)
Definition carries (payload f : string) : Prop :=
  exists d, Main.decode (Some payload) = Some d
            /\ get d "content" = Some (JStr f)
            /\ is_string (get d "status") "error" = false.

(** [f1 + f2 + ... + fn]. *)
Definition concat_all (fs : list string) : string :=
  fold_right append EmptyString fs.

(** What ends a stream: an event [error] or [complete] in main.js, an event
    [error] or a status [completed] in part_002. *)
Definition ends_main (type data : string) : Prop :=
  type = "error" \/ type = "complete".

Definition ends_legacy (type data : string) : Prop :=
  type = "error"
  \/ (type = "status"
      /\ exists d, JSON_parse data = Some d
                   /\ is_string (get d "status") "completed" = true).

(** An event that a session hears beside its answer events while its
    stream [i] is open: any event but a message sent, an answer event, an
    event that ends the stream [i] and a failure of its connection. *)
Definition aside (ends : string -> string -> Prop) (i : nat) (e : event) : Prop :=
  match e with
  | Send _ _ => False
  | Frame j type data => type <> "answer" /\ (j = i -> ~ ends type data)
  | Fails j _ => j <> i
  | Opens _ | TimerFires _ => True
  end.

(** The events [es] of a session on the stream [i] bring the fragments
    [fs]: each event is an answer event of the stream that carries the next
    fragment, or an event aside. *)
Inductive hears (ends : string -> string -> Prop) (i : nat)
  : list event -> list string -> Prop :=
| hears_nothing : hears ends i [] []
| hears_fragment (payload f : string) (es : list event) (fs : list string) :
    carries payload f -> hears ends i es fs ->
    hears ends i (Frame i "answer" payload :: es) (f :: fs)
| hears_aside (e : event) (es : list event) (fs : list string) :
    aside ends i e -> hears ends i es fs -> hears ends i (e :: es) fs.

(** An event of the stream of the source [i]: a frame or a failure. *)
Definition on_source (i : nat) (e : event) : Prop :=
  (exists type data, e = Frame i type data) \/ (exists fatal, e = Fails i fatal).

(** The stream of the source [i] is over: the source is closed and no event
    of the stream changes anything any more. *)
Definition terminal (run : list event -> app -> app) (i : nat) (st : app) : Prop :=
  readyState_of i st = Some CLOSED
  /\ forall es, Forall (on_source i) es -> run es st = st.

(** Two questions asked one after the other; the stream of the first one
    is still open when the second one is sent. *)
Definition asked_twice : app :=
  MainB.run [Send "again" 2%Z; Opens 1] asked.

(** A page with one question asked and its stream open, in part_002. *)
Definition asked_legacy : app :=
  Part002.run [Send "q" 1%Z; Opens 0] (constructor [Placeholder] [] true).

(** [typeof d === 'object'] of a value that is not [null]: an object or
    an array. *)
Definition is_an_object (d : json) : bool :=
  match d with
  | JArr _ | JObj _ => true
  | _ => false
  end.

(** A malformed payload: empty or blank, or not a JSON text, or the text
    of a value that is neither an object nor an array ([null], a number, a
    string, a boolean).  The text of an array is not malformed: main.js
    takes it as it takes an object. *)
Definition malformed (s : string) : Prop :=
  trim s = EmptyString
  \/ JSON_parse s = None
  \/ exists d, JSON_parse s = Some d /\ is_an_object d = false.

(** The error block that [showError(d)] builds. *)
Definition errorDiv_of (d : json) : element :=
  ErrorBox (or_else (get d "error") txt_error)
           (if truthy (get d "details") then Some (ToString (get d "details")) else None).

(** A reference with the link [a] and the given content, and a page that
    holds it as its only reference. *)
Definition card_a (content : string) : card :=
  ReferenceCard "result-0" (Some "a") "T1" None content None.

Definition holding_a : app := with_referenceCards [card_a "old"] asked.

(** [{"result": {"link": "a", "content": "new"}}]. *)
Definition update_a : string :=
  "{" ++ q "result" ++ ":{" ++ q "link" ++ ":" ++ q "a" ++ ","
      ++ q "content" ++ ":" ++ q "new" ++ "}}".

(** The contents of the references whose anchor is written with the link
    [l], in the order of the pane. *)
Fixpoint contents_of (l : string) (cards : list card) : list string :=
  match cards with
  | [] => []
  | ReferenceCard _ (Some h) _ _ content _ :: rest =>
      if (h =? l)%string then content :: contents_of l rest else contents_of l rest
  | _ :: rest => contents_of l rest
  end.

(** [{"status": "fetch_progress", "progress": p}], [p] written as a number. *)
Definition progress_payload (p : string) : string :=
  "{" ++ q "status" ++ ":" ++ q "fetch_progress" ++ "," ++ q "progress" ++ ":" ++ p ++ "}".

(** A Number that the style takes as a percentage: finite and not
    negative. *)
Definition is_percentage (x : number) : bool :=
  match x with
  | S754_zero _ | S754_finite false _ _ => true
  | _ => false
  end.

(** [p] clamped to the interval from 0 to 1. *)
Definition clamp01 (p : number) : number :=
  if SFleb p (of_Z 0) then of_Z 0 else if SFleb (of_Z 1) p then of_Z 1 else p.



(** ** Further vocabulary *)

(** A text that is written into the page as it is: it has no [<], so that
    [innerHTML] makes no element of it, no backquote and no tilde, so that
    showdown makes no code block of it (a code block gets the name of its
    language as a class), and no backslash, so that a payload writes none of
    them as an escape. *)
Definition plain (s : string) : bool :=
  negb (existsb (fun n => (n =? 60) || (n =? 96) || (n =? 126) || (n =? 92)) (codes s)).

(** A value without an object in it: [null], a boolean, a number, a text,
    or an array of such values.  Its conversion to a text calls no method
    of an object. *)
Fixpoint flat (v : json) : bool :=
  match v with
  | JObj _ => false
  | JArr items =>
      (fix all (l : list json) : bool :=
         match l with
         | [] => true
         | x :: l' => flat x && all l'
         end) items
  | _ => true
  end.

(** A record: an object whose members are flat. *)
Definition record (v : json) : bool :=
  match v with
  | JObj members => forallb (fun m => flat (snd m)) members
  | _ => false
  end.

(** What a template writes of [v] is a plain text. *)
Definition writes_plain (v : value) : bool :=
  match v with
  | None => true
  | Some j => flat j && plain (json_toString j)
  end.

(** The texts of a child of the answer pane that went through [innerHTML]
    are plain. *)
Definition plain_element (e : element) : bool :=
  match e with
  | UserMessage message => plain message
  | AiMessage (Some markdown) => plain markdown
  | ErrorBox error details =>
      plain error && match details with Some d => plain d | None => true end
  | _ => true
  end.

Definition plain_pane (l : list element) : bool := forallb plain_element l.

(** An event brings plain texts only: the question that is sent, the
    payload of a frame. *)
Definition plain_event (e : event) : Prop :=
  match e with
  | Send input _ => plain input = true
  | Frame _ _ data => plain data = true
  | _ => True
  end.

(** Every character of the text is in the basic plane: one code unit. *)
Fixpoint basic_plane (s : string) : bool :=
  match s with
  | EmptyString => true
  | String c r => negb (is_lead4 (code c)) && basic_plane r
  end.

(** The number of status lines in the answer pane. *)
Definition status_lines (l : list element) : nat :=
  List.length (filter is_loading l).


(** The first pending timer fires, [n] times over. *)
Definition fire_all (n : nat) (st : app) : app :=
  Nat.iter n (timer_fires 0) st.

(** The query of a source asks a question: its first field is [message],
    and the message is not empty. *)
Definition asks (es : eventSource) : Prop :=
  exists m rest, request es = ("message", m) :: rest /\ m <> EmptyString.

(** No pending timer of [st] is cancelled in [st']. *)
Definition pending_kept (st st' : app) : Prop :=
  exists more, timers st' = (timers st ++ more)%list.


(** [{"tool_name": name, "result": result}], [result] written as JSON. *)
Definition tool_payload (name result : string) : string :=
  "{" ++ q "tool_name" ++ ":" ++ q name ++ "," ++ q "result" ++ ":" ++ result ++ "}".







(** The reference pane of [st'] and what the user chose for it are those of
    [st]: the cards, whether the pane is shown, the timers that are pending
    and the search toggle. *)
Definition same_pane (st st' : app) : Prop :=
  referenceCards st' = referenceCards st
  /\ referencesVisible st' = referencesVisible st
  /\ timers st' = timers st
  /\ searchToggle st' = searchToggle st.

(* ================================================================== *)
(** * Properties *)
(* ================================================================== *)

(** ** The model at work *)

Example JSON_parse_object :
  JSON_parse ("{" ++ q "content" ++ ": " ++ q "He" ++ ", " ++ q "n" ++ ":[1, -2.50e1,null, true]}")
  = Some (JObj [("content", JStr "He");
                ("n", JArr [JNum (of_Z 1); JNum (of_Z (-25)%Z); JNull; JBool true])]).
Proof. vm_compute. reflexivity. Qed.

Example JSON_parse_malformed :
  (JSON_parse "{", JSON_parse "null", JSON_parse "42", JSON_parse EmptyString,
   JSON_parse " [] ", JSON_parse "01")
  = (None, Some JNull, Some (JNum (of_Z 42)), None, Some (JArr []), None).
Proof. vm_compute. reflexivity. Qed.

Example coercions :
  (trim "  a b  ", trim (of_codes [9; 194; 160; 10]),
   ToString (Some (JArr [JNum (of_Z 1); JNull; JArr [JStr "a"; JBool false]])))
  = ("a b", EmptyString, "1,,a,false").
Proof. vm_compute. reflexivity. Qed.

(** Numbers are binary64: 0.285 * 100 is below 28.5, [Math.round] takes a
    half up, and a Number is written with the fewest digits that give it
    back. *)
Example numbers :
  let text (m p : Z) := Number_toString (decimal false m p) in
  let rounded (neg : bool) (m p : Z) := Number_toString (Math_round (decimal neg m p)) in
  (Number_toString (mul (decimal false 285%Z (-3)%Z) (of_Z 100)),
   [rounded false 25%Z (-1)%Z; rounded true 25%Z (-1)%Z; rounded true 4%Z (-1)%Z],
   [text 375%Z (-3)%Z; text 1%Z 21%Z; text 1%Z (-7)%Z; text 9007199254740993%Z 0%Z;
    text 1%Z 400%Z; text 1%Z (-400)%Z; text 12345%Z 17%Z])
  = ("28.499999999999996", ["3"; "-2"; "0"],
     ["0.375"; "1e+21"; "1e-7"; "9007199254740992"; "Infinity"; "0";
      "1.2345e+21"]).
Proof. vm_compute. reflexivity. Qed.

(** ToNumber of a text, of an array and of an object. *)
Example ToNumber_of_texts :
  map (fun v => Number_toString (ToNumber (Some v)))
    [JStr " 12 "; JStr ".5"; JStr "0x10"; JStr "-0x10"; JStr "1e3"; JStr "abc";
     JStr EmptyString; JStr "-Infinity"; JArr [JStr "7"]; JArr []; JObj []; JNull]
  = ["12"; "0.5"; "16"; "NaN"; "1000"; "NaN"; "0"; "-Infinity"; "7"; "0"; "NaN"; "0"].
Proof. vm_compute. reflexivity. Qed.

(** Texts are measured in UTF-16 code units: a character of the basic
    plane is one unit, whatever the number of its bytes, and a character
    beyond it is two. *)
Example code_units :
  (length16 "abc", length16 "中文字", length16 "a😀b",
   slice16 2 "中文字", slice16 3 "a😀b", codes (slice16 2 "a😀b"))
  = (3, 3, 4, "中文", "a😀", [97; 237; 160; 189]).
Proof. vm_compute. reflexivity. Qed.

(** Scenario A of the specification, the search results coming as the
    result of the tool [search_web]; the card of the result is appended
    when its timer fires. *)
Example scenario_A :
  let results :=
    "{" ++ q "tool_name" ++ ":" ++ q "search_web" ++ "," ++ q "result" ++ ":[{"
        ++ q "link" ++ ":" ++ q "a" ++ "," ++ q "title" ++ ":" ++ q "T1" ++ "}]}" in
  let st :=
    MainB.run
      [Frame 0 "status" (status_payload "searching");
       Frame 0 "tool_result" results;
       TimerFires 0;
       Frame 0 "answer" (content_payload "He");
       Frame 0 "answer" (content_payload "llo");
       Frame 0 "complete" "{}"] asked in
  currentAnswer st = "Hello"
  /\ answerContent st = [UserMessage "q"; AiMessage (Some "Hello")]
  /\ referenceCards st
     = [ReferenceCard "result-0" (Some "a") "T1" None txt_no_content None]
  /\ readyState_of 0 st = Some CLOSED.
Proof. vm_compute. repeat split. Qed.

(** ** Strings and lists *)

Lemma append_empty_r (s : string) : s ++ EmptyString = s.
Proof. induction s as [|c s IH]; simpl; [reflexivity | now rewrite IH]. Qed.

Lemma append_assoc (a b c : string) : (a ++ b) ++ c = a ++ (b ++ c).
Proof. induction a as [|x a IH]; simpl; [reflexivity | now rewrite IH]. Qed.

Lemma eqb_empty (s : string) : (s =? EmptyString)%string = true -> s = EmptyString.
Proof. now intros H; apply String.eqb_eq in H. Qed.

Lemma trim_empty : trim EmptyString = EmptyString.
Proof. reflexivity. Qed.

(** [truncateContent] of a text. *)
Lemma truncateContent_string (c : string) (n : nat) :
  truncateContent (Some (JStr c)) n
  = Returns (JStr (if n <? length16 c then slice16 n c ++ "..." else c)).
Proof.
  unfold truncateContent. destruct c as [|a c].
  - cbn. now destruct (n <? 0).
  - cbn [truthy String.eqb negb]. now destruct (n <? _).
Qed.

(** ** What a method leaves alone *)

Ltac fields :=
  cbn [page messageInput answerContent referenceCards referencesVisible
       currentAnswer searchToggle toolOptions progressVisible progressBarWidth
       progressText timers sources
       with_messageInput with_answerContent with_referenceCards
       with_referencesVisible with_currentAnswer with_progressVisible
       with_progressBarWidth with_progressText with_timers with_sources
       new_EventSource close] in *.

(** Every test of a method is decided one way or the other. *)
Ltac branches :=
  repeat match goal with
         | |- context [match ?x with _ => _ end] => destruct x eqn:?
         end; fields.

Lemma showError_normal (data : json) (st : app) :
  data <> JNull -> exists st', showError data st = Normal st'.
Proof. intros H. destruct data; try congruence; eexists; reflexivity. Qed.

Lemma showError_currentAnswer (data : json) (st : app) :
  currentAnswer (page (showError data st)) = currentAnswer st.
Proof. unfold showError. branches; reflexivity. Qed.

Lemma showError_sources (data : json) (st : app) :
  sources (page (showError data st)) = sources st.
Proof. unfold showError. branches; reflexivity. Qed.

Lemma showError_referenceCards (data : json) (st : app) :
  referenceCards (page (showError data st)) = referenceCards st.
Proof. unfold showError. branches; reflexivity. Qed.

Lemma updateAnswer_sources (data : json) (st : app) :
  sources (page (updateAnswer data st)) = sources st.
Proof.
  unfold updateAnswer.
  destruct data; fields; try reflexivity;
    (destruct (is_string _ "error"); [apply showError_sources | branches; reflexivity]).
Qed.

Lemma updateAnswer_referenceCards (data : json) (st : app) :
  referenceCards (page (updateAnswer data st)) = referenceCards st.
Proof.
  unfold updateAnswer.
  destruct data; fields; try reflexivity;
    (destruct (is_string _ "error"); [apply showError_referenceCards | branches; reflexivity]).
Qed.

(** The answer buffer only grows under [updateAnswer]. *)
Lemma updateAnswer_extends (data : json) (st : app) :
  exists suffix,
    currentAnswer (page (updateAnswer data st)) = currentAnswer st ++ suffix.
Proof.
  unfold updateAnswer.
  destruct data; fields; try (exists EmptyString; now rewrite append_empty_r);
    (destruct (is_string _ "error");
     [ exists EmptyString; rewrite append_empty_r; apply showError_currentAnswer | ]);
    destruct (truthy _);
    try (exists EmptyString; rewrite append_empty_r; branches; reflexivity);
    eexists; branches; reflexivity.
Qed.

(** An answer event that carries the text [f] appends it. *)
Lemma updateAnswer_fragment (data : json) (f : string) (st : app) :
  data <> JNull ->
  get data "content" = Some (JStr f) ->
  is_string (get data "status") "error" = false ->
  currentAnswer (page (updateAnswer data st)) = currentAnswer st ++ f.
Proof.
  intros Hn Hc Hs. unfold updateAnswer.
  destruct data; try congruence; rewrite Hs, Hc;
    (destruct f as [|c f];
     [ cbn [truthy String.eqb negb]; rewrite append_empty_r; branches; reflexivity
     | cbn [truthy String.eqb negb ToString json_toString]; branches; reflexivity ]).
Qed.

Lemma extends_refl (st : app) : extends st st.
Proof. exists EmptyString. now rewrite append_empty_r. Qed.

Lemma extends_same (st st' : app) :
  currentAnswer st' = currentAnswer st -> extends st st'.
Proof. intros H. exists EmptyString. now rewrite append_empty_r. Qed.

Lemma extends_trans (a b c : app) : extends a b -> extends b c -> extends a c.
Proof.
  intros [x Hx] [y Hy]. exists (x ++ y). now rewrite Hy, Hx, append_assoc.
Qed.

Lemma updateSearchResults_currentAnswer (data : json) (st : app) :
  currentAnswer (page (updateSearchResults data st)) = currentAnswer st.
Proof. unfold updateSearchResults. branches; reflexivity. Qed.

Lemma updateSearchResults_sources (data : json) (st : app) :
  sources (page (updateSearchResults data st)) = sources st.
Proof. unfold updateSearchResults. branches; reflexivity. Qed.

Lemma caught_currentAnswer (c : completion) :
  currentAnswer (Main.caught c) = currentAnswer (page c).
Proof. destruct c; simpl; [reflexivity | apply showError_currentAnswer]. Qed.

Lemma caught_sources (c : completion) :
  sources (Main.caught c) = sources (page c).
Proof. destruct c; simpl; [reflexivity | apply showError_sources]. Qed.

Lemma decode_accepts (s : string) (d : json) :
  Main.decode (Some s) = Some d ->
  s <> EmptyString /\ JSON_parse s = Some d /\ d <> JNull.
Proof.
  unfold Main.decode. intros H.
  destruct (s =? EmptyString)%string eqn:E; [discriminate|].
  cbn [orb] in H. destruct (trim s =? EmptyString)%string; [discriminate|].
  destruct (JSON_parse s) as [d'|]; [|discriminate].
  destruct (truthy (Some d') && typeof_object d') eqn:T; [|discriminate].
  injection H as <-. repeat split.
  - intros ->. discriminate.
  - intros ->. discriminate.
Qed.

(** Facts about the revision [MainB]. *)

Lemma MainB_updateStatus_currentAnswer (data : json) (st : app) :
  currentAnswer (MainB.updateStatus data st) = currentAnswer st.
Proof. unfold MainB.updateStatus, MainB.set_width. branches; reflexivity. Qed.

Lemma MainB_updateStatus_sources (data : json) (st : app) :
  sources (MainB.updateStatus data st) = sources st.
Proof. unfold MainB.updateStatus, MainB.set_width. branches; reflexivity. Qed.

Lemma MainB_handleToolResult_currentAnswer (data : json) (st : app) :
  currentAnswer (page (MainB.handleToolResult data st)) = currentAnswer st.
Proof.
  unfold MainB.handleToolResult, MainB.handleSearchResults, MainB.handleArxivResults,
    MainB.handleResults.
  branches; reflexivity.
Qed.

Lemma MainB_handleToolResult_sources (data : json) (st : app) :
  sources (page (MainB.handleToolResult data st)) = sources st.
Proof.
  unfold MainB.handleToolResult, MainB.handleSearchResults, MainB.handleArxivResults,
    MainB.handleResults.
  branches; reflexivity.
Qed.

Lemma MainB_handleEventData_extends (type : string) (data : option string) (st : app) :
  extends st (MainB.handleEventData type data st).
Proof.
  unfold MainB.handleEventData, extends.
  destruct (Main.decode data) as [d|]; [|apply extends_refl].
  rewrite caught_currentAnswer.
  repeat match goal with
         | |- context [if ?b then _ else _] => destruct b
         end; cbn [page].
  - apply extends_same, MainB_updateStatus_currentAnswer.
  - apply extends_same, MainB_handleToolResult_currentAnswer.
  - apply updateAnswer_extends.
  - apply extends_same, showError_currentAnswer.
  - apply extends_refl.
Qed.

Lemma MainB_handleEventData_sources (type : string) (data : option string) (st : app) :
  sources (MainB.handleEventData type data st) = sources st.
Proof.
  unfold MainB.handleEventData.
  destruct (Main.decode data) as [d|]; [|reflexivity].
  rewrite caught_sources.
  repeat match goal with
         | |- context [if ?b then _ else _] => destruct b
         end; cbn [page].
  - apply MainB_updateStatus_sources.
  - apply MainB_handleToolResult_sources.
  - apply updateAnswer_sources.
  - apply showError_sources.
  - reflexivity.
Qed.



(** Facts about the revision [MainA]. *)

Lemma MainA_updateStatus_currentAnswer (data : json) (st : app) :
  currentAnswer (MainA.updateStatus data st) = currentAnswer st.
Proof. unfold MainA.updateStatus. branches; reflexivity. Qed.

Lemma MainA_updateStatus_sources (data : json) (st : app) :
  sources (MainA.updateStatus data st) = sources st.
Proof. unfold MainA.updateStatus. branches; reflexivity. Qed.

Lemma MainA_handleEventData_extends (type : string) (data : option string) (st : app) :
  extends st (MainA.handleEventData type data st).
Proof.
  unfold MainA.handleEventData, extends.
  destruct (Main.decode data) as [d|]; [|apply extends_refl].
  rewrite caught_currentAnswer.
  repeat match goal with
         | |- context [if ?b then _ else _] => destruct b
         end; cbn [page MainA.updateSearchResult].
  - apply extends_same, MainA_updateStatus_currentAnswer.
  - apply extends_same, updateSearchResults_currentAnswer.
  - apply extends_refl.
  - apply updateAnswer_extends.
  - apply extends_same, showError_currentAnswer.
  - apply extends_refl.
Qed.

Lemma MainA_handleEventData_sources (type : string) (data : option string) (st : app) :
  sources (MainA.handleEventData type data st) = sources st.
Proof.
  unfold MainA.handleEventData.
  destruct (Main.decode data) as [d|]; [|reflexivity].
  rewrite caught_sources.
  repeat match goal with
         | |- context [if ?b then _ else _] => destruct b
         end; cbn [page MainA.updateSearchResult].
  - apply MainA_updateStatus_sources.
  - apply updateSearchResults_sources.
  - reflexivity.
  - apply updateAnswer_sources.
  - apply showError_sources.
  - reflexivity.
Qed.



(** Facts about the revision [Part002]. *)

Lemma Part002_updateStatus_currentAnswer (data : json) (st : app) :
  currentAnswer (page (Part002.updateStatus data st)) = currentAnswer st.
Proof. unfold Part002.updateStatus. branches; reflexivity. Qed.

Lemma Part002_updateStatus_sources (data : json) (st : app) :
  sources (page (Part002.updateStatus data st)) = sources st.
Proof. unfold Part002.updateStatus. branches; reflexivity. Qed.

Lemma Part002_updateSearchResults_currentAnswer (data : json) (st : app) :
  currentAnswer (page (Part002.updateSearchResults data st)) = currentAnswer st.
Proof. unfold Part002.updateSearchResults. branches; reflexivity. Qed.

Lemma Part002_updateSearchResults_sources (data : json) (st : app) :
  sources (page (Part002.updateSearchResults data st)) = sources st.
Proof. unfold Part002.updateSearchResults. branches; reflexivity. Qed.

(** The body of [handleEventData] and its [catch]. *)
Lemma Part002_catch_currentAnswer (c : completion) :
  currentAnswer
    match c with
    | Normal st' => st'
    | Throw e st' => page (showError (error_object txt_processing_error (message_of e)) st')
    end = currentAnswer (page c).
Proof. destruct c; cbn [page]; [reflexivity | apply showError_currentAnswer]. Qed.

Lemma Part002_catch_sources (c : completion) :
  sources
    match c with
    | Normal st' => st'
    | Throw e st' => page (showError (error_object txt_processing_error (message_of e)) st')
    end = sources (page c).
Proof. destruct c; cbn [page]; [reflexivity | apply showError_sources]. Qed.

Lemma Part002_handleEventData_extends (type : string) (data : option string) (st : app) :
  extends st (Part002.handleEventData type data st).
Proof.
  unfold Part002.handleEventData, extends.
  rewrite Part002_catch_currentAnswer.
  destruct (Part002.parse_data data) as [d|]; [|apply extends_refl].
  repeat match goal with
         | |- context [if ?b then _ else _] => destruct b
         end; cbn [page Part002.updateSearchResult]; try apply extends_refl.
  - apply extends_same, Part002_updateStatus_currentAnswer.
  - apply extends_same, Part002_updateSearchResults_currentAnswer.
  - apply updateAnswer_extends.
  - apply extends_same, showError_currentAnswer.
Qed.

Lemma Part002_handleEventData_sources (type : string) (data : option string) (st : app) :
  sources (Part002.handleEventData type data st) = sources st.
Proof.
  unfold Part002.handleEventData.
  rewrite Part002_catch_sources.
  destruct (Part002.parse_data data) as [d|]; [|reflexivity].
  repeat match goal with
         | |- context [if ?b then _ else _] => destruct b
         end; cbn [page Part002.updateSearchResult]; try reflexivity.
  - apply Part002_updateStatus_sources.
  - apply Part002_updateSearchResults_sources.
  - apply updateAnswer_sources.
  - apply showError_sources.
Qed.



(** ** The event sources *)

Lemma set_ready_length (i : nat) (r : ready) (l : list eventSource) :
  List.length (set_ready i r l) = List.length l.
Proof.
  revert i; induction l as [|es l IH]; intros [|i]; simpl; auto.
Qed.

Lemma set_ready_same (i : nat) (r : ready) (l : list eventSource) :
  i < List.length l ->
  option_map readyState (nth_error (set_ready i r l) i) = Some r.
Proof.
  revert i; induction l as [|es l IH]; intros [|i] H; simpl in *; try lia.
  - reflexivity.
  - apply IH. lia.
Qed.

Lemma set_ready_other (i j : nat) (r : ready) (l : list eventSource) :
  i <> j -> nth_error (set_ready i r l) j = nth_error l j.
Proof.
  revert i j; induction l as [|es l IH]; intros [|i] [|j] H; simpl; auto; try congruence.
Qed.

Lemma readyState_of_sources (i : nat) (st st' : app) :
  sources st' = sources st -> readyState_of i st' = readyState_of i st.
Proof. unfold readyState_of. now intros ->. Qed.

Lemma readyState_of_some (i : nat) (st : app) (r : ready) :
  readyState_of i st = Some r -> i < List.length (sources st).
Proof.
  unfold readyState_of. destruct (nth_error (sources st) i) eqn:E; [|discriminate].
  intros _. apply nth_error_Some. congruence.
Qed.

Lemma close_closed (i : nat) (st : app) (r : ready) :
  readyState_of i st = Some r -> readyState_of i (close i st) = Some CLOSED.
Proof.
  intros H. apply readyState_of_some in H.
  unfold readyState_of, close. fields.
  pose proof (set_ready_same i CLOSED (sources st) H) as E.
  destruct (nth_error (set_ready i CLOSED (sources st)) i); simpl in E; congruence.
Qed.

Lemma close_currentAnswer (i : nat) (st : app) :
  currentAnswer (close i st) = currentAnswer st.
Proof. reflexivity. Qed.

(** ** The browser, for any revision *)

Section BrowserFacts.

Variable eventTypes : list string.
Variable listener : nat -> string -> option string -> app -> app.
Variable onerror : nat -> app -> app.
Variable handleSendMessage : Z -> app -> app.

Let step := Browser.step eventTypes listener onerror handleSendMessage.

(** Nothing is dispatched at a closed source. *)
Lemma frame_closed (i : nat) (type data : string) (st : app) :
  readyState_of i st = Some CLOSED -> step (Frame i type data) st = st.
Proof.
  intros H. unfold step, Browser.step, Browser.frame. now rewrite H.
Qed.

Lemma fails_closed (i : nat) (fatal : bool) (st : app) :
  readyState_of i st = Some CLOSED -> step (Fails i fatal) st = st.
Proof.
  intros H. unfold step, Browser.step, Browser.fails. now rewrite H.
Qed.

Lemma run_closed (i : nat) (st : app) (es : list event) :
  readyState_of i st = Some CLOSED ->
  Forall (on_source i) es ->
  Browser.run eventTypes listener onerror handleSendMessage es st = st.
Proof.
  intros H F. induction F as [|e es He _ IH]; [reflexivity|].
  unfold Browser.run in *. cbn [fold_left].
  destruct He as [(type & data & ->) | (fatal & ->)].
  - fold step. now rewrite frame_closed.
  - fold step. now rewrite fails_closed.
Qed.

Hypothesis listener_extends : forall i t d st, extends st (listener i t d st).
Hypothesis onerror_keeps : forall i st, currentAnswer (onerror i st) = currentAnswer st.

Lemma dispatch_extends (i : nat) (type : string) (data : option string) (st : app) :
  extends st (Browser.dispatch eventTypes listener onerror i type data st).
Proof.
  unfold Browser.dispatch.
  assert (E : extends st (if existsb (String.eqb type) eventTypes
                          then listener i type data st else st)).
  { destruct (existsb _ _); [apply listener_extends | apply extends_refl]. }
  destruct (type =? "error")%string; [|exact E].
  eapply extends_trans; [exact E|]. apply extends_same, onerror_keeps.
Qed.

(** Whatever happens but a message sent, the answer buffer only grows. *)
Lemma step_extends (e : event) (st : app) :
  (forall input now, e <> Send input now) -> extends st (step e st).
Proof.
  intros H. destruct e as [input now|i|i type data|i fatal|k]; cbn.
  - now destruct (H input now).
  - unfold Browser.opens. branches; now apply extends_same.
  - unfold Browser.frame. destruct (readyState_of i st) as [[]|];
      try apply extends_refl. apply dispatch_extends.
  - unfold Browser.fails. destruct (readyState_of i st) as [[]|];
      try apply extends_refl;
      (eapply extends_trans; [|apply dispatch_extends]); now apply extends_same.
  - unfold timer_fires. branches; now apply extends_same.
Qed.

End BrowserFacts.

(** ** The listeners of main.js *)

Section MainFacts.

Variable handleEventData : string -> option string -> app -> app.
Hypothesis handle_extends : forall t d st, extends st (handleEventData t d st).
Hypothesis handle_sources : forall t d st, sources (handleEventData t d st) = sources st.

Lemma listener_extends (i : nat) (t : string) (d : option string) (st : app) :
  extends st (Main.listener handleEventData i t d st).
Proof.
  unfold Main.listener.
  destruct (readyState_of i st) as [[]|]; try apply extends_refl;
    (destruct d as [[|c s]|]; try apply extends_refl;
     destruct (t =? "complete")%string; try apply handle_extends;
     destruct (handle_extends t (Some (String c s)) st) as [x Hx]; exists x; exact Hx).
Qed.

End MainFacts.

Lemma onerror_currentAnswer (i : nat) (st : app) :
  currentAnswer (Main.onerror i st) = currentAnswer st.
Proof.
  unfold Main.onerror.
  destruct (readyState_of i st) as [[]|]; try reflexivity.
  destruct (negb _); [reflexivity | apply showError_currentAnswer].
Qed.

Lemma Part002_listens_extends (i : nat) (t : string) (d : option string) (st : app) :
  extends st (Part002.listens i t d st).
Proof.
  unfold Part002.listens, Part002.listener.
  pose proof (Part002_handleEventData_extends t d st) as E.
  branches; exact E.
Qed.

Lemma Part002_onerror_currentAnswer (i : nat) (st : app) :
  currentAnswer (Part002.onerror i st) = currentAnswer st.
Proof.
  unfold Part002.onerror.
  destruct (readyState_of i st) as [[]|]; try reflexivity;
    cbn [close currentAnswer with_sources]; apply showError_currentAnswer.
Qed.

(** ** Sending a message *)

Lemma begin_message_blank (st : app) :
  trim (messageInput st) = EmptyString -> begin_message st = None.
Proof. intros H. unfold begin_message. now rewrite H. Qed.

Lemma begin_message_resets (st st1 : app) (message : string) :
  begin_message st = Some (message, st1) ->
  currentAnswer st1 = EmptyString /\ sources st1 = sources st
  /\ message = trim (messageInput st) /\ message <> EmptyString.
Proof.
  unfold begin_message.
  destruct (trim (messageInput st) =? EmptyString)%string eqn:E; [discriminate|].
  intros H. injection H as <- <-. repeat split.
  intros H. rewrite H in E. discriminate.
Qed.

Lemma begin_message_page (st : app) :
  trim (messageInput st) <> EmptyString ->
  begin_message st =
  Some (trim (messageInput st),
        with_currentAnswer EmptyString
          (with_answerContent
             ((if has is_loading (answerContent st) || has is_placeholder (answerContent st)
               then [] else answerContent st)
              ++ [UserMessage (trim (messageInput st)); Loading txt_thinking])%list
             (with_messageInput EmptyString st))).
Proof.
  intros H. unfold begin_message.
  destruct (trim (messageInput st) =? EmptyString)%string eqn:E.
  - now apply eqb_empty in E.
  - fields. now rewrite <- app_assoc.
Qed.

(** ** An answer event, in each revision *)

(** The tests between two literal strings are decided. *)
Ltac literals :=
  repeat match goal with
         | |- context [String.eqb ?a ?b] =>
             let v := eval vm_compute in (String.eqb a b) in
             change (String.eqb a b) with v
         | |- context [existsb ?f ?l] =>
             let v := eval vm_compute in (existsb f l) in
             change (existsb f l) with v
         end;
  cbv iota.

Lemma MainB_answer_frame (i : nat) (s : string) (d : json) (st : app) :
  readyState_of i st = Some OPEN ->
  Main.decode (Some s) = Some d ->
  MainB.step (Frame i "answer" s) st = Main.caught (updateAnswer d st).
Proof.
  intros Ho Hd. destruct (decode_accepts _ _ Hd) as (Hne & _ & _).
  unfold MainB.step, Browser.step, Browser.frame. rewrite Ho.
  unfold Browser.dispatch, MainB.listener, Main.listener, MainB.eventTypes. rewrite Ho.
  destruct s as [|c s]; [congruence|].
  unfold MainB.handleEventData. rewrite Hd. literals. reflexivity.
Qed.

Lemma MainA_answer_frame (i : nat) (s : string) (d : json) (st : app) :
  readyState_of i st = Some OPEN ->
  Main.decode (Some s) = Some d ->
  MainA.step (Frame i "answer" s) st = Main.caught (updateAnswer d st).
Proof.
  intros Ho Hd. destruct (decode_accepts _ _ Hd) as (Hne & _ & _).
  unfold MainA.step, Browser.step, Browser.frame. rewrite Ho.
  unfold Browser.dispatch, MainA.listener, Main.listener, MainA.eventTypes. rewrite Ho.
  destruct s as [|c s]; [congruence|].
  unfold MainA.handleEventData. rewrite Hd. literals. reflexivity.
Qed.

Lemma updateAnswer_normal (d : json) (st : app) :
  d <> JNull -> exists st', updateAnswer d st = Normal st'.
Proof.
  intros Hn. unfold updateAnswer.
  destruct d; try congruence;
    (destruct (is_string _ "error");
     [ apply showError_normal; discriminate
     | destruct (truthy _); eexists; reflexivity ]).
Qed.

Lemma Part002_answer_data (s : string) (d : json) (st : app) :
  JSON_parse s = Some d -> d <> JNull ->
  Part002.handleEventData "answer" (Some s) st = Main.caught (updateAnswer d st).
Proof.
  intros Hp Hn. unfold Part002.handleEventData, Part002.parse_data. rewrite Hp. literals.
  destruct (updateAnswer_normal d st Hn) as [st' ->]. reflexivity.
Qed.

Lemma Part002_answer_frame (i : nat) (s : string) (d : json) (st : app) :
  readyState_of i st = Some OPEN ->
  Main.decode (Some s) = Some d ->
  Part002.step (Frame i "answer" s) st = Main.caught (updateAnswer d st).
Proof.
  intros Ho Hd. destruct (decode_accepts _ _ Hd) as (Hne & Hp & Hn).
  unfold Part002.step, Browser.step, Browser.frame. rewrite Ho.
  unfold Browser.dispatch, Part002.listens, Part002.listener, Part002.eventTypes.
  rewrite (Part002_answer_data _ _ _ Hp Hn).
  unfold Part002.parse_data. rewrite Hp. literals. reflexivity.
Qed.

Lemma caught_updateAnswer_fragment (d : json) (f : string) (st : app) :
  d <> JNull ->
  get d "content" = Some (JStr f) ->
  is_string (get d "status") "error" = false ->
  currentAnswer (Main.caught (updateAnswer d st)) = currentAnswer st ++ f
  /\ sources (Main.caught (updateAnswer d st)) = sources st.
Proof.
  intros Hn Hc Hs. rewrite caught_currentAnswer, caught_sources. split.
  - now apply updateAnswer_fragment.
  - apply updateAnswer_sources.
Qed.

Lemma send_resets (handle : Z -> app -> app) (input : string) (now : Z) (st : app) :
  (forall st0 message st1, begin_message st0 = Some (message, st1) ->
     currentAnswer (handle now st0) = currentAnswer st1) ->
  trim input <> EmptyString ->
  currentAnswer (handle now (with_messageInput input st)) = EmptyString.
Proof.
  intros H Hn.
  destruct (begin_message (with_messageInput input st)) as [[message st1]|] eqn:E.
  - rewrite (H _ _ _ E). now apply begin_message_resets in E.
  - unfold begin_message in E. cbn [messageInput with_messageInput] in E.
    destruct (trim input =? EmptyString)%string eqn:T; [|discriminate].
    now apply eqb_empty in T.
Qed.

Lemma Main_send_answer (now : Z) (st0 : app) (message : string) (st1 : app) :
  begin_message st0 = Some (message, st1) ->
  currentAnswer (Main.handleSendMessage now st0) = currentAnswer st1.
Proof.
  intros E. unfold Main.handleSendMessage. rewrite E.
  destruct (toolOptions st1); [reflexivity | apply showError_currentAnswer].
Qed.

Lemma Part002_send_answer (now : Z) (st0 : app) (message : string) (st1 : app) :
  begin_message st0 = Some (message, st1) ->
  currentAnswer (Part002.handleSendMessage now st0) = currentAnswer st1.
Proof. intros E. unfold Part002.handleSendMessage. now rewrite E. Qed.


(** ** What a session hears *)

Lemma other_source (i j : nat) (st st' : app) :
  j <> i ->
  sources st' = sources st \/ sources st' = set_ready j CLOSED (sources st) ->
  readyState_of i st' = readyState_of i st.
Proof.
  intros N [E | E]; unfold readyState_of; rewrite E; [reflexivity|].
  now rewrite set_ready_other.
Qed.

Section Session.

Variable eventTypes : list string.
Variable listener : nat -> string -> option string -> app -> app.
Variable onerror : nat -> app -> app.
Variable handleSendMessage : Z -> app -> app.
Variable ends : string -> string -> Prop.

Let step := Browser.step eventTypes listener onerror handleSendMessage.

Hypothesis listener_keeps :
  forall j t d st, t <> "answer" -> currentAnswer (listener j t d st) = currentAnswer st.
Hypothesis onerror_keeps : forall j st, currentAnswer (onerror j st) = currentAnswer st.
Hypothesis listener_sources :
  forall j t d st,
    sources (listener j t d st) = sources st
    \/ sources (listener j t d st) = set_ready j CLOSED (sources st).
Hypothesis onerror_sources :
  forall j st,
    sources (onerror j st) = sources st
    \/ sources (onerror j st) = set_ready j CLOSED (sources st).
Hypothesis listener_open :
  forall j t d st, ~ ends t d -> sources (listener j t (Some d) st) = sources st.
Hypothesis error_ends : forall d, ends "error" d.
Hypothesis answer_frame :
  forall i s d st,
    readyState_of i st = Some OPEN -> Main.decode (Some s) = Some d ->
    step (Frame i "answer" s) st = Main.caught (updateAnswer d st).

Lemma dispatch_keeps (j : nat) (t : string) (d : option string) (st : app) :
  t <> "answer" ->
  currentAnswer (Browser.dispatch eventTypes listener onerror j t d st) = currentAnswer st.
Proof.
  intros H. unfold Browser.dispatch.
  assert (E : currentAnswer (if existsb (String.eqb t) eventTypes
                             then listener j t d st else st) = currentAnswer st).
  { destruct (existsb _ _); [now apply listener_keeps | reflexivity]. }
  destruct (t =? "error")%string; [now rewrite onerror_keeps | exact E].
Qed.

(** No event but a message sent and an answer event changes the buffer. *)
Lemma step_keeps (e : event) (st : app) :
  (forall input now, e <> Send input now) ->
  (forall j payload, e <> Frame j "answer" payload) ->
  currentAnswer (step e st) = currentAnswer st.
Proof.
  intros Hs Ha. destruct e as [input now|j|j type data|j fatal|k]; cbn.
  - now destruct (Hs input now).
  - unfold Browser.opens. branches; reflexivity.
  - unfold Browser.frame. destruct (readyState_of j st) as [[]|]; try reflexivity.
    apply dispatch_keeps. intros ->. now apply (Ha j data).
  - unfold Browser.fails. destruct (readyState_of j st) as [[]|]; try reflexivity;
      (rewrite dispatch_keeps; [reflexivity | discriminate]).
  - unfold timer_fires. branches; reflexivity.
Qed.

Lemma dispatch_other (i j : nat) (t : string) (d : option string) (st : app) :
  j <> i ->
  readyState_of i (Browser.dispatch eventTypes listener onerror j t d st)
  = readyState_of i st.
Proof.
  intros N. unfold Browser.dispatch.
  assert (E : readyState_of i (if existsb (String.eqb t) eventTypes
                               then listener j t d st else st) = readyState_of i st).
  { destruct (existsb _ _); [|reflexivity].
    apply (other_source i j); auto. }
  destruct (t =? "error")%string; [|exact E].
  rewrite <- E. apply (other_source i j); auto.
Qed.

(** An event aside leaves the stream open. *)
Lemma step_open (i : nat) (e : event) (st : app) :
  aside ends i e ->
  readyState_of i st = Some OPEN ->
  readyState_of i (step e st) = Some OPEN.
Proof.
  intros A Ho. destruct e as [input now|j|j type data|j fatal|k]; cbn in *.
  - contradiction.
  - unfold Browser.opens. destruct (readyState_of j st) as [[]|] eqn:E; auto.
    destruct (Nat.eq_dec j i) as [-> | N]; [congruence|].
    rewrite <- Ho. unfold readyState_of. fields. now rewrite set_ready_other.
  - destruct A as [Ht He].
    unfold Browser.frame. destruct (readyState_of j st) as [[]|] eqn:E; auto.
    destruct (Nat.eq_dec j i) as [-> | N].
    + specialize (He eq_refl). unfold Browser.dispatch.
      destruct (type =? "error")%string eqn:T.
      { apply String.eqb_eq in T. subst type. destruct (He (error_ends data)). }
      destruct (existsb _ _); [|exact Ho].
      unfold readyState_of. rewrite (listener_open i type data st He). exact Ho.
    + now rewrite dispatch_other.
  - unfold Browser.fails. destruct (readyState_of j st) as [[]|] eqn:E; auto;
      (rewrite dispatch_other by exact A; rewrite <- Ho; unfold readyState_of; fields;
       now rewrite set_ready_other).
  - unfold timer_fires. branches; exact Ho.
Qed.

(** The buffer after the events of a session. *)
Lemma run_hears (i : nat) (es : list event) (fs : list string) :
  hears ends i es fs ->
  forall st,
    readyState_of i st = Some OPEN ->
    currentAnswer (Browser.run eventTypes listener onerror handleSendMessage es st)
    = currentAnswer st ++ concat_all fs
    /\ readyState_of i (Browser.run eventTypes listener onerror handleSendMessage es st)
       = Some OPEN.
Proof.
  unfold Browser.run.
  induction 1 as [|payload f es fs (d & Hd & Hc & Hs) _ IH|e es fs A _ IH];
    intros st Ho; cbn [fold_left concat_all fold_right].
  - now rewrite append_empty_r.
  - pose proof (answer_frame i payload d st Ho Hd) as Hf. unfold step in Hf.
    rewrite Hf.
    destruct (decode_accepts _ _ Hd) as (_ & _ & Hn).
    destruct (caught_updateAnswer_fragment d f st Hn Hc Hs) as [Ha Hsrc].
    destruct (IH (Main.caught (updateAnswer d st))) as [E O].
    { now rewrite (readyState_of_sources _ _ _ Hsrc). }
    split; [|exact O]. fold (concat_all fs). now rewrite E, Ha, append_assoc.
  - destruct (IH (step e st) (step_open i e st A Ho)) as [E O].
    unfold step in E, O.
    split; [|exact O]. rewrite E. f_equal.
    apply step_keeps.
    + intros input now ->. exact A.
    + intros j payload ->. now destruct A as [A _].
Qed.

End Session.

(** The sources after a listener. *)

Lemma Main_listener_sources
    (handle : string -> option string -> app -> app) :
  (forall t d st, sources (handle t d st) = sources st) ->
  forall i t d st,
    sources (Main.listener handle i t d st) = sources st
    \/ sources (Main.listener handle i t d st) = set_ready i CLOSED (sources st).
Proof.
  intros Hh i t d st. unfold Main.listener.
  destruct (readyState_of i st) as [[]|]; auto;
    (destruct d as [[|c s]|]; auto; destruct (t =? "complete")%string; fields;
     rewrite Hh; auto).
Qed.

Lemma Main_onerror_sources (i : nat) (st : app) :
  sources (Main.onerror i st) = sources st
  \/ sources (Main.onerror i st) = set_ready i CLOSED (sources st).
Proof.
  unfold Main.onerror.
  destruct (readyState_of i st) as [[]|]; auto; try (destruct (negb _); auto); fields;
    rewrite showError_sources; auto.
Qed.

Lemma Part002_listens_sources (i : nat) (t : string) (d : option string) (st : app) :
  sources (Part002.listens i t d st) = sources st
  \/ sources (Part002.listens i t d st) = set_ready i CLOSED (sources st).
Proof.
  unfold Part002.listens, Part002.listener.
  pose proof (Part002_handleEventData_sources t d st) as E.
  branches; rewrite ?E; auto.
Qed.

Lemma Part002_onerror_sources (i : nat) (st : app) :
  sources (Part002.onerror i st) = sources st
  \/ sources (Part002.onerror i st) = set_ready i CLOSED (sources st).
Proof.
  unfold Part002.onerror.
  destruct (readyState_of i st) as [[]|]; auto; fields; rewrite showError_sources; auto.
Qed.

(** The session in each revision. *)

Lemma MainB_handleEventData_keeps (type : string) (data : option string) (st : app) :
  type <> "answer" ->
  currentAnswer (MainB.handleEventData type data st) = currentAnswer st.
Proof.
  intros H. unfold MainB.handleEventData.
  destruct (Main.decode data) as [d|]; [|reflexivity].
  rewrite caught_currentAnswer.
  destruct (type =? "answer")%string eqn:A; [apply String.eqb_eq in A; contradiction|].
  destruct (type =? "status")%string; [apply MainB_updateStatus_currentAnswer|].
  destruct (type =? "tool_result")%string; [apply MainB_handleToolResult_currentAnswer|].
  destruct (type =? "error")%string; [apply showError_currentAnswer | reflexivity].
Qed.

Lemma MainA_handleEventData_keeps (type : string) (data : option string) (st : app) :
  type <> "answer" ->
  currentAnswer (MainA.handleEventData type data st) = currentAnswer st.
Proof.
  intros H. unfold MainA.handleEventData.
  destruct (Main.decode data) as [d|]; [|reflexivity].
  rewrite caught_currentAnswer.
  destruct (type =? "answer")%string eqn:A; [apply String.eqb_eq in A; contradiction|].
  destruct (type =? "status")%string; [apply MainA_updateStatus_currentAnswer|].
  destruct (type =? "search_results")%string; [apply updateSearchResults_currentAnswer|].
  destruct (type =? "search_result_update")%string; [reflexivity|].
  destruct (type =? "error")%string; [apply showError_currentAnswer | reflexivity].
Qed.

Lemma Part002_handleEventData_keeps (type : string) (data : option string) (st : app) :
  type <> "answer" ->
  currentAnswer (Part002.handleEventData type data st) = currentAnswer st.
Proof.
  intros H. unfold Part002.handleEventData.
  rewrite Part002_catch_currentAnswer.
  destruct (Part002.parse_data data) as [d|]; [|reflexivity].
  destruct (type =? "answer")%string eqn:A; [apply String.eqb_eq in A; contradiction|].
  destruct (type =? "status")%string; [apply Part002_updateStatus_currentAnswer|].
  destruct (type =? "search_results")%string.
  { destruct (searchToggle st); [apply Part002_updateSearchResults_currentAnswer|reflexivity]. }
  destruct (type =? "search_result_update")%string.
  { now destruct (searchToggle st). }
  destruct (type =? "error")%string; [apply showError_currentAnswer | reflexivity].
Qed.

Lemma Main_listener_keeps (handle : string -> option string -> app -> app) :
  (forall t d st, t <> "answer" -> currentAnswer (handle t d st) = currentAnswer st) ->
  forall j t d st,
    t <> "answer" -> currentAnswer (Main.listener handle j t d st) = currentAnswer st.
Proof.
  intros Hh j t d st Ht. unfold Main.listener.
  destruct (readyState_of j st) as [[]|]; try reflexivity;
    (destruct d as [[|c s]|]; try reflexivity;
     destruct (t =? "complete")%string; fields; now apply Hh).
Qed.

Lemma Main_listener_open (handle : string -> option string -> app -> app) :
  (forall t d st, sources (handle t d st) = sources st) ->
  forall j t d st,
    ~ ends_main t d -> sources (Main.listener handle j t (Some d) st) = sources st.
Proof.
  intros Hh j t d st He. unfold Main.listener.
  destruct (t =? "complete")%string eqn:C.
  { apply String.eqb_eq in C. destruct He. now right. }
  destruct (readyState_of j st) as [[]|]; try reflexivity;
    (destruct d as [|c s]; [reflexivity | apply Hh]).
Qed.

Lemma Part002_listens_keeps (j : nat) (t : string) (d : option string) (st : app) :
  t <> "answer" -> currentAnswer (Part002.listens j t d st) = currentAnswer st.
Proof.
  intros Ht. unfold Part002.listens, Part002.listener.
  pose proof (Part002_handleEventData_keeps t d st Ht) as E.
  branches; exact E.
Qed.

Lemma Part002_listens_open (j : nat) (t d : string) (st : app) :
  ~ ends_legacy t d -> sources (Part002.listens j t (Some d) st) = sources st.
Proof.
  intros He. unfold Part002.listens, Part002.listener, Part002.parse_data.
  pose proof (Part002_handleEventData_sources t (Some d) st) as E.
  destruct (JSON_parse d) as [v|] eqn:P; [|exact E].
  destruct (t =? "status")%string eqn:T; [|exact E].
  apply String.eqb_eq in T.
  destruct v; try exact E;
    (destruct (is_string _ "completed") eqn:C; [|exact E];
     destruct He; right; split; [exact T|]; eexists; split; [exact P | exact C]).
Qed.

Lemma opens_connecting (k : nat) (st : app) :
  readyState_of k st = Some CONNECTING ->
  readyState_of k (Browser.opens k st) = Some OPEN
  /\ currentAnswer (Browser.opens k st) = currentAnswer st.
Proof.
  intros H. unfold Browser.opens. rewrite H. split; [|reflexivity].
  pose proof (readyState_of_some _ _ _ H) as L.
  pose proof (set_ready_same k OPEN (sources st) L) as E.
  unfold readyState_of. fields.
  destruct (nth_error (set_ready k OPEN (sources st)) k); simpl in E; congruence.
Qed.

Lemma new_EventSource_connecting (query : list (string * string)) (st : app) :
  readyState_of (List.length (sources st)) (new_EventSource query st) = Some CONNECTING.
Proof.
  unfold readyState_of, new_EventSource. fields.
  now rewrite nth_error_app2, Nat.sub_diag by lia.
Qed.

(** A question that is sent starts a stream with an empty buffer. *)
Lemma Main_send_starts (input : string) (now : Z) (st : app) :
  toolOptions st <> None ->
  trim input <> EmptyString ->
  let st' := Main.handleSendMessage now (with_messageInput input st) in
  currentAnswer st' = EmptyString
  /\ readyState_of (List.length (sources st)) st' = Some CONNECTING.
Proof.
  intros Ht Hn st'. subst st'. unfold Main.handleSendMessage.
  rewrite begin_message_page by exact Hn. fields.
  destruct (toolOptions st) as [options|]; [|congruence].
  split; [reflexivity|].
  apply (new_EventSource_connecting _
           (with_currentAnswer EmptyString
              (with_answerContent _ (with_messageInput EmptyString
                                       (with_messageInput input st))))).
Qed.

Lemma Part002_send_starts (input : string) (now : Z) (st : app) :
  trim input <> EmptyString ->
  let st' := Part002.handleSendMessage now (with_messageInput input st) in
  currentAnswer st' = EmptyString
  /\ readyState_of (List.length (sources st)) st' = Some CONNECTING.
Proof.
  intros Hn st'. subst st'. unfold Part002.handleSendMessage.
  rewrite begin_message_page by exact Hn. fields.
  split; [reflexivity|].
  apply (new_EventSource_connecting _
           (with_currentAnswer EmptyString
              (with_answerContent _ (with_messageInput EmptyString
                                       (with_messageInput input st))))).
Qed.

(* ================================================================== *)
(** * The claims *)
(* ================================================================== *)

(** C1.  In each revision, the answer buffer of a session is the
    concatenation of the fragments that its answer events have brought, in
    the order of arrival.  While the stream of the session is open, the
    answer events that carry the fragments f1 .. fn, with any events aside
    between them (status events, results of tools, search results, events of
    unknown types, timers, events of other streams), add f1 + f2 + ... + fn
    to the buffer and nothing else.  A question that is sent (not blank,
    and with the tools loaded in main.js) starts the session with an empty
    buffer: once its stream i is open, the buffer is f1 + ... + fn after
    such events, and empty as long as no fragment has come.  The buffer is
    empty in a new client; a message sent empties it; no other event takes
    anything away from it, and no event other than a message sent and an
    answer event changes it at all. *)
Theorem answer_buffer_is_the_concatenation
    (st : app) (i : nat) (es : list event) (fs : list string) :
  (readyState_of i st = Some OPEN ->
   (hears ends_main i es fs ->
    currentAnswer (MainB.run es st) = currentAnswer st ++ concat_all fs
    /\ currentAnswer (MainA.run es st) = currentAnswer st ++ concat_all fs)
   /\ (hears ends_legacy i es fs ->
       currentAnswer (Part002.run es st) = currentAnswer st ++ concat_all fs))
  /\ (forall input now,
        trim input <> EmptyString ->
        i = List.length (sources st) ->
        (toolOptions st <> None -> hears ends_main i es fs ->
         currentAnswer (MainB.run (Send input now :: Opens i :: es) st) = concat_all fs
         /\ currentAnswer (MainA.run (Send input now :: Opens i :: es) st) = concat_all fs)
        /\ (hears ends_legacy i es fs ->
            currentAnswer (Part002.run (Send input now :: Opens i :: es) st)
            = concat_all fs))
  /\ (forall answer cards toggle,
        currentAnswer (constructor answer cards toggle) = EmptyString)
  /\ (forall input now,
        trim input <> EmptyString ->
        currentAnswer (MainB.step (Send input now) st) = EmptyString
        /\ currentAnswer (MainA.step (Send input now) st) = EmptyString
        /\ currentAnswer (Part002.step (Send input now) st) = EmptyString)
  /\ (forall e,
        (forall input now, e <> Send input now) ->
        (extends st (MainB.step e st)
         /\ extends st (MainA.step e st)
         /\ extends st (Part002.step e st))
        /\ ((forall j payload, e <> Frame j "answer" payload) ->
            currentAnswer (MainB.step e st) = currentAnswer st
            /\ currentAnswer (MainA.step e st) = currentAnswer st
            /\ currentAnswer (Part002.step e st) = currentAnswer st)).
Proof.
  assert (B : forall s, readyState_of i s = Some OPEN -> hears ends_main i es fs ->
                        currentAnswer (MainB.run es s) = currentAnswer s ++ concat_all fs).
  { intros s Ho H.
    eapply proj1.
    apply (run_hears MainB.eventTypes MainB.listener MainB.onerror MainB.handleSendMessage
             ends_main) with (i := i); auto using onerror_currentAnswer, Main_onerror_sources,
             MainB_answer_frame.
    - apply Main_listener_keeps, MainB_handleEventData_keeps.
    - apply Main_listener_sources, MainB_handleEventData_sources.
    - apply Main_listener_open, MainB_handleEventData_sources.
    - now left. }
  assert (A : forall s, readyState_of i s = Some OPEN -> hears ends_main i es fs ->
                        currentAnswer (MainA.run es s) = currentAnswer s ++ concat_all fs).
  { intros s Ho H.
    eapply proj1.
    apply (run_hears MainA.eventTypes MainA.listener MainA.onerror MainA.handleSendMessage
             ends_main) with (i := i); auto using onerror_currentAnswer, Main_onerror_sources,
             MainA_answer_frame.
    - apply Main_listener_keeps, MainA_handleEventData_keeps.
    - apply Main_listener_sources, MainA_handleEventData_sources.
    - apply Main_listener_open, MainA_handleEventData_sources.
    - now left. }
  assert (P : forall s, readyState_of i s = Some OPEN -> hears ends_legacy i es fs ->
                        currentAnswer (Part002.run es s) = currentAnswer s ++ concat_all fs).
  { intros s Ho H.
    eapply proj1.
    apply (run_hears Part002.eventTypes Part002.listens Part002.onerror
             Part002.handleSendMessage ends_legacy) with (i := i);
      auto using Part002_onerror_currentAnswer, Part002_onerror_sources,
        Part002_listens_keeps, Part002_listens_sources, Part002_listens_open,
        Part002_answer_frame.
    now left. }
  split; [|split; [|split; [|split]]].
  - intros Ho. split; [intros H; split; auto | auto].
  - intros input now Hn ->. split.
    + intros Ht H.
      destruct (Main_send_starts input now st Ht Hn) as [E C].
      destruct (opens_connecting _ _ C) as [O K].
      unfold MainB.run, MainA.run, Browser.run. cbn [fold_left].
      split.
      * change (Browser.step MainB.eventTypes MainB.listener MainB.onerror
                  MainB.handleSendMessage (Send input now) st)
          with (Main.handleSendMessage now (with_messageInput input st)).
        change (Browser.step MainB.eventTypes MainB.listener MainB.onerror
                  MainB.handleSendMessage
                  (Opens (List.length (sources st))) ?s)
          with (Browser.opens (List.length (sources st)) s).
        pose proof (B _ O H) as R. unfold MainB.run, Browser.run in R.
        rewrite R, K, E. reflexivity.
      * change (Browser.step MainA.eventTypes MainA.listener MainA.onerror
                  MainA.handleSendMessage (Send input now) st)
          with (Main.handleSendMessage now (with_messageInput input st)).
        pose proof (A _ O H) as R. unfold MainA.run, Browser.run in R.
        cbn [Browser.step]. rewrite R, K, E. reflexivity.
    + intros H.
      destruct (Part002_send_starts input now st Hn) as [E C].
      destruct (opens_connecting _ _ C) as [O K].
      unfold Part002.run, Browser.run. cbn [fold_left Browser.step].
      pose proof (P _ O H) as R. unfold Part002.run, Browser.run in R.
      rewrite R, K, E. reflexivity.
  - reflexivity.
  - intros input now Hn. repeat split.
    + apply (send_resets Main.handleSendMessage); eauto using Main_send_answer.
    + apply (send_resets Main.handleSendMessage); eauto using Main_send_answer.
    + apply (send_resets Part002.handleSendMessage); eauto using Part002_send_answer.
  - intros e He. split.
    + repeat split.
      * apply step_extends; auto using onerror_currentAnswer.
        apply listener_extends. apply MainB_handleEventData_extends.
      * apply step_extends; auto using onerror_currentAnswer.
        apply listener_extends. apply MainA_handleEventData_extends.
      * apply step_extends;
          auto using Part002_onerror_currentAnswer, Part002_listens_extends.
    + intros Ha. repeat split.
      * apply step_keeps; auto using onerror_currentAnswer.
        apply Main_listener_keeps, MainB_handleEventData_keeps.
      * apply step_keeps; auto using onerror_currentAnswer.
        apply Main_listener_keeps, MainA_handleEventData_keeps.
      * apply step_keeps;
          auto using Part002_onerror_currentAnswer, Part002_listens_keeps.
Qed.

Lemma answer_buffer_is_the_concatenation_witness :
  currentAnswer
    (MainB.run [Frame 0 "status" (status_payload "searching");
                Frame 0 "answer" (content_payload "He");
                Frame 0 "status" (status_payload "generating");
                Frame 0 "tool_result" (tool_payload "search_web" "[]");
                TimerFires 0;
                Frame 0 "answer" (content_payload "llo")] asked)
  = "Hello".
Proof.
  refine (proj1 (proj1 (proj1 (answer_buffer_is_the_concatenation asked 0 _ ["He"; "llo"])
                          _) _)).
  - vm_compute. reflexivity.
  - apply hears_aside; [split; [discriminate | intros _ [H | H]; discriminate H]|].
    apply hears_fragment.
    { exists (JObj [("content", JStr "He")]). vm_compute. repeat split. }
    apply hears_aside; [split; [discriminate | intros _ [H | H]; discriminate H]|].
    apply hears_aside; [split; [discriminate | intros _ [H | H]; discriminate H]|].
    apply hears_aside; [exact I|].
    apply hears_fragment.
    { exists (JObj [("content", JStr "llo")]). vm_compute. repeat split. }
    apply hears_nothing.
Defined.

(** C9.  When the input is empty once trimmed, [handleSendMessage] returns
    the page as it is, in each revision: no request goes out, no source is
    created, and the answer buffer, the reference pane and everything shown
    stay as they are. *)
Theorem blank_input_is_a_no_op (st : app) (now : Z) :
  trim (messageInput st) = EmptyString ->
  MainB.handleSendMessage now st = st
  /\ MainA.handleSendMessage now st = st
  /\ Part002.handleSendMessage now st = st.
Proof.
  intros H. apply begin_message_blank in H.
  unfold MainB.handleSendMessage, MainA.handleSendMessage, Main.handleSendMessage,
    Part002.handleSendMessage.
  rewrite H. auto.
Qed.

Lemma blank_input_is_a_no_op_witness :
  MainB.step (Send "  " 2%Z) asked = with_messageInput "  " asked.
Proof.
  exact (proj1 (blank_input_is_a_no_op (with_messageInput "  " asked) 2%Z
                  ltac:(vm_compute; reflexivity))).
Defined.



(** ** A stream that is closed *)

Lemma closed_is_terminal (eventTypes : list string)
    (listener : nat -> string -> option string -> app -> app)
    (onerror : nat -> app -> app) (handleSendMessage : Z -> app -> app)
    (i : nat) (st : app) :
  readyState_of i st = Some CLOSED ->
  terminal (Browser.run eventTypes listener onerror handleSendMessage) i st.
Proof. intros H. split; [exact H|]. intros es F. now apply (run_closed _ _ _ _ i). Qed.







(** ** Streams of earlier questions *)

Lemma readyState_of_app (i : nat) (st : app) (extra : list eventSource) :
  i < List.length (sources st) ->
  readyState_of i (with_sources (sources st ++ extra)%list st) = readyState_of i st.
Proof.
  intros H. unfold readyState_of. cbn [sources with_sources].
  now rewrite nth_error_app1.
Qed.

Lemma Main_send_keeps_sources (now : Z) (st : app) (j : nat) :
  j < List.length (sources st) ->
  readyState_of j (Main.handleSendMessage now st) = readyState_of j st.
Proof.
  intros H. unfold Main.handleSendMessage.
  destruct (begin_message st) as [[message st1]|] eqn:E; [|reflexivity].
  apply begin_message_resets in E. destruct E as (_ & Es & _).
  destruct (toolOptions st1).
  - unfold new_EventSource. rewrite readyState_of_app by (rewrite Es; exact H).
    now apply readyState_of_sources.
  - apply readyState_of_sources. now rewrite showError_sources.
Qed.

Lemma Part002_send_keeps_sources (now : Z) (st : app) (j : nat) :
  j < List.length (sources st) ->
  readyState_of j (Part002.handleSendMessage now st) = readyState_of j st.
Proof.
  intros H. unfold Part002.handleSendMessage.
  destruct (begin_message st) as [[message st1]|] eqn:E; [|reflexivity].
  apply begin_message_resets in E. destruct E as (_ & Es & _).
  unfold new_EventSource. rewrite readyState_of_app by (rewrite Es; exact H).
  now apply readyState_of_sources.
Qed.

(** In main.js a frame does the same to the page whatever open source it
    comes on, unless it is one that closes its source. *)
Lemma Main_frame_any_source (eventTypes : list string)
    (handle : string -> option string -> app -> app) (handleSendMessage : Z -> app -> app)
    (i j : nat) (type data : string) (st : app) :
  readyState_of i st = Some OPEN -> readyState_of j st = Some OPEN ->
  type <> "complete" -> type <> "error" ->
  Browser.step eventTypes (Main.listener handle) Main.onerror handleSendMessage
    (Frame i type data) st
  = Browser.step eventTypes (Main.listener handle) Main.onerror handleSendMessage
      (Frame j type data) st.
Proof.
  intros Hi Hj Hc He.
  apply String.eqb_neq in Hc. apply String.eqb_neq in He.
  unfold Browser.step, Browser.frame, Browser.dispatch, Main.listener.
  now rewrite Hi, Hj, Hc, He.
Qed.

(** C3, as the code has it.  No revision gives a session an identity or
    compares one: an event of an earlier stream changes nothing if the
    source of that stream is closed, which is all that is tested.  Sending
    a message leaves the sources of the earlier streams in the state they
    are in, and in main.js a frame that does not close its source does the
    same to the page on whatever open source it arrives, the newest or an
    earlier one. *)
Theorem closed_stream_is_ignored (st : app) (i : nat) :
  readyState_of i st = Some CLOSED ->
  (forall type data,
     MainB.step (Frame i type data) st = st
     /\ MainA.step (Frame i type data) st = st
     /\ Part002.step (Frame i type data) st = st)
  /\ (forall (st0 : app) (input : string) (now : Z) (j : nat),
        j < List.length (sources st0) ->
        readyState_of j (MainB.step (Send input now) st0) = readyState_of j st0
        /\ readyState_of j (MainA.step (Send input now) st0) = readyState_of j st0
        /\ readyState_of j (Part002.step (Send input now) st0) = readyState_of j st0)
  /\ (forall (st0 : app) (j k : nat) (type data : string),
        readyState_of j st0 = Some OPEN -> readyState_of k st0 = Some OPEN ->
        type <> "complete" -> type <> "error" ->
        MainB.step (Frame j type data) st0 = MainB.step (Frame k type data) st0
        /\ MainA.step (Frame j type data) st0 = MainA.step (Frame k type data) st0).
Proof.
  intros Hc. split; [|split].
  - intros type data. repeat split; now apply frame_closed.
  - intros st0 input now j Hj. cbn [MainB.step MainA.step Part002.step Browser.step].
    repeat split.
    + now rewrite Main_send_keeps_sources.
    + now rewrite Main_send_keeps_sources.
    + now rewrite Part002_send_keeps_sources.
  - intros st0 j k type data Hj Hk H1 H2. split; now apply Main_frame_any_source.
Qed.

Lemma closed_stream_is_ignored_witness :
  let st := MainB.step (Frame 0 "complete" "{}") asked_twice in
  MainB.step (Frame 0 "answer" (content_payload "x")) st = st.
Proof.
  refine (proj1 (proj1 (closed_stream_is_ignored
                          (MainB.step (Frame 0 "complete" "{}") asked_twice) 0 _)
                   "answer" (content_payload "x"))).
  vm_compute. reflexivity.
Defined.

(** C3, as it is written, fails: a second question has been sent, the
    stream of the first one is still open, and an answer event of that
    first stream is appended to the answer buffer of the second question. *)
Lemma superseded_stream_is_still_heard :
  List.length (sources asked_twice) = 2
  /\ readyState_of 0 asked_twice = Some OPEN
  /\ currentAnswer asked_twice = EmptyString
  /\ currentAnswer (MainB.step (Frame 0 "answer" (content_payload "x")) asked_twice) = "x"
  /\ MainB.step (Frame 0 "answer" (content_payload "x")) asked_twice <> asked_twice.
Proof.
  split; [|split; [|split; [|split]]]; try (vm_compute; reflexivity).
  intros H. apply (f_equal currentAnswer) in H. revert H. vm_compute. discriminate.
Qed.

(** ** Payloads that are not objects *)

Lemma decode_malformed (s : string) : malformed s -> Main.decode (Some s) = None.
Proof.
  unfold Main.decode. intros [H | [H | (d & H & O)]].
  - rewrite H. cbn [String.eqb]. now rewrite orb_true_r.
  - rewrite H. now destruct (_ || _).
  - rewrite H. destruct (_ || _); [reflexivity|].
    destruct d; try discriminate; cbn [typeof_object truthy andb];
      try reflexivity; now rewrite andb_false_r.
Qed.

(** C4, as the code has it.  In the two revisions of main.js
    [handleEventData] returns the page as it is, whatever the event type,
    when the payload is malformed: empty or blank, not a JSON text, or the
    text of a value that is neither an object nor an array; the four
    payloads of the specification are such.  (The text of an array, such as
    [[42]], is not malformed: it passes the checks.)  In part_002 there is
    no such check: [handleEventData] catches what [JSON.parse] throws and
    shows it as an error of processing, with the message of the engine as
    its details.  In no revision does [handleEventData] throw: what its
    methods throw is caught in it. *)
Theorem malformed_payload_is_dropped (s : string) (type : string) (st : app) :
  malformed s ->
  (MainB.handleEventData type (Some s) st = st
   /\ MainA.handleEventData type (Some s) st = st)
  /\ (malformed EmptyString /\ malformed "{" /\ malformed "null" /\ malformed "42")
  /\ (JSON_parse s = None ->
      exists details,
        Part002.handleEventData type (Some s) st
        = page (showError (error_object txt_processing_error details) st)).
Proof.
  intros H. apply decode_malformed in H. split; [|split].
  - unfold MainB.handleEventData, MainA.handleEventData. rewrite H. auto.
  - repeat split.
    + left. reflexivity.
    + right; left. reflexivity.
    + right; right. exists JNull. split; reflexivity.
    + right; right. exists (JNum (of_Z 42)). split; reflexivity.
  - intros P. eexists.
    unfold Part002.handleEventData, Part002.parse_data. rewrite P. reflexivity.
Qed.

Lemma malformed_payload_is_dropped_witness :
  MainB.handleEventData "answer" (Some "{") asked = asked
  /\ MainB.handleEventData "status" (Some "null") asked = asked
  /\ MainA.handleEventData "error" (Some "42") asked = asked
  /\ MainA.handleEventData "answer" (Some EmptyString) asked = asked.
Proof.
  split; [|split; [|split]].
  - refine (proj1 (proj1 (malformed_payload_is_dropped "{" "answer" asked _))).
    right; left. reflexivity.
  - refine (proj1 (proj1 (malformed_payload_is_dropped "null" "status" asked _))).
    right; right. exists JNull. split; reflexivity.
  - refine (proj2 (proj1 (malformed_payload_is_dropped "42" "error" asked _))).
    right; right. exists (JNum (of_Z 42)). split; reflexivity.
  - refine (proj2 (proj1 (malformed_payload_is_dropped EmptyString "answer" asked _))).
    left. reflexivity.
Defined.

(** C4, as it is written, fails in part_002: the payload that does not
    parse takes the status line away and puts an error in its place, and so
    do the empty payload and, for a status event, the payload [null]; the
    payload [42] of an answer event starts an answer block. *)
Lemma legacy_dispatcher_shows_malformed_payloads :
  answerContent asked_legacy = [UserMessage "q"; Loading txt_thinking]
  /\ (exists details,
        answerContent (Part002.handleEventData "answer" (Some "{") asked_legacy)
        = [UserMessage "q"; ErrorBox txt_processing_error (Some details)])
  /\ (exists details,
        answerContent (Part002.handleEventData "answer" (Some EmptyString) asked_legacy)
        = [UserMessage "q"; ErrorBox txt_processing_error (Some details)])
  /\ (exists details,
        answerContent (Part002.handleEventData "status" (Some "null") asked_legacy)
        = [UserMessage "q"; ErrorBox txt_processing_error (Some details)])
  /\ answerContent (Part002.handleEventData "answer" (Some "42") asked_legacy)
     = [UserMessage "q"; AiMessage None]
  /\ Part002.handleEventData "answer" (Some "{") asked_legacy <> asked_legacy.
Proof.
  split; [vm_compute; reflexivity|].
  split; [eexists; vm_compute; reflexivity|].
  split; [eexists; vm_compute; reflexivity|].
  split; [eexists; vm_compute; reflexivity|].
  split; [vm_compute; reflexivity|].
  intros H. apply (f_equal answerContent) in H. revert H. vm_compute. discriminate.
Qed.

(** ** An error event *)

Lemma remove_first_snoc {A : Type} (sel : A -> bool) (l : list A) (x : A) :
  sel x = false -> (remove_first sel (l ++ [x]) = remove_first sel l ++ [x])%list.
Proof.
  intros H. induction l as [|y l IH]; simpl.
  - now rewrite H.
  - destruct (sel y); [reflexivity | now rewrite IH].
Qed.

Lemma ends_with_ai_message_snoc (l : list element) (x : element) :
  ends_with_ai_message (l ++ [x]) = is_ai_message x.
Proof. unfold ends_with_ai_message. now rewrite rev_unit. Qed.

Lemma showError_answerContent (d : json) (st : app) :
  d <> JNull ->
  exists front st',
    showError d st = Normal st'
    /\ answerContent st' = (front ++ [errorDiv_of d])%list.
Proof.
  intros Hn. unfold showError, errorDiv_of, replace_last.
  destruct d; try congruence; fields;
    destruct (ends_with_ai_message _); eexists; eexists; split; reflexivity.
Qed.

(** A string shown by [showError]: the default text, after what is there. *)
Lemma showError_string (text : string) (st : app) (front : list element) (x : element) :
  answerContent st = (front ++ [x])%list ->
  is_loading x = false -> is_ai_message x = false ->
  answerContent (page (showError (JStr text) st))
  = (remove_first is_loading front ++ [x; ErrorBox txt_error None])%list.
Proof.
  intros E L A. unfold showError. fields. rewrite E.
  rewrite remove_first_snoc by exact L.
  rewrite ends_with_ai_message_snoc, A.
  now rewrite <- app_assoc.
Qed.






(** The methods themselves have no test of a failed session: called one
    after the other, without the event source in between, the second one
    appends its text.  That a later event is ignored is the work of the
    closed source. *)
Example methods_do_not_guard :
  let failed :=
    MainB.handleEventData "error" (Some ("{" ++ q "error" ++ ":" ++ q "timeout" ++ "}"))
      asked in
  currentAnswer (MainB.handleEventData "answer" (Some (content_payload "x")) failed) = "x".
Proof. vm_compute. reflexivity. Qed.

(** Scenario B of the specification. *)
Example scenario_B :
  let st :=
    MainB.run
      [Frame 0 "status" (status_payload "searching");
       Frame 0 "error" ("{" ++ q "error" ++ ":" ++ q "timeout" ++ "}");
       Frame 0 "answer" (content_payload "x")] asked in
  answerContent st
  = [UserMessage "q"; ErrorBox "timeout" None; ErrorBox txt_error None]
  /\ currentAnswer st = EmptyString
  /\ readyState_of 0 st = Some CLOSED.
Proof. vm_compute. repeat split. Qed.

(** ** The update of one search result *)

Lemma MainB_update_frame (i : nat) (data : string) (st : app) :
  MainB.step (Frame i "search_result_update" data) st = st.
Proof.
  unfold MainB.step, Browser.step, Browser.frame, Browser.dispatch, MainB.eventTypes.
  literals. now destruct (readyState_of i st) as [[]|].
Qed.

Lemma MainB_update_data (data : option string) (st : app) :
  MainB.handleEventData "search_result_update" data st = st.
Proof.
  unfold MainB.handleEventData. literals. now destruct (Main.decode data).
Qed.

Lemma MainA_update_data (data : option string) (st : app) :
  MainA.handleEventData "search_result_update" data st = st.
Proof.
  unfold MainA.handleEventData. literals. now destruct (Main.decode data).
Qed.

Lemma MainA_update_frame (i : nat) (data : string) (st : app) :
  MainA.step (Frame i "search_result_update" data) st = st.
Proof.
  unfold MainA.step, Browser.step, Browser.frame, Browser.dispatch, MainA.eventTypes,
    MainA.listener, Main.listener.
  literals. rewrite MainA_update_data.
  destruct (readyState_of i st) as [[]|]; try reflexivity. now destruct data.
Qed.

Lemma Part002_update_frame (i : nat) (data : string) (d : json) (st : app) :
  JSON_parse data = Some d ->
  Part002.step (Frame i "search_result_update" data) st = st.
Proof.
  intros Hp.
  unfold Part002.step, Browser.step, Browser.frame, Browser.dispatch, Part002.eventTypes,
    Part002.listens, Part002.listener, Part002.handleEventData, Part002.parse_data,
    Part002.updateSearchResult.
  rewrite Hp. literals.
  destruct (readyState_of i st) as [[]|]; try reflexivity. now destruct (searchToggle st).
Qed.

Lemma update_first_length {A : Type} (sel : A -> bool) (f : A -> A) (l : list A) :
  List.length (update_first sel f l) = List.length l.
Proof. induction l as [|x l IH]; simpl; [reflexivity|]. destruct (sel x); simpl; auto. Qed.

(** [updateSearchResult] of the second revision, which nothing calls: when
    a card of the pane has an anchor whose resolved address is the link of
    the result, and the content of the result is a text, the first such
    card gets that text, cut at 300 code units and followed by three dots
    when it is longer, and the pane keeps its cards in their places. *)
Lemma updateSearchResult_in_place
    (resolve : string -> string) (data result : json) (link content : string)
    (st : app) :
  get data "result" = Some result ->
  get result "link" = Some (JStr link) -> link <> EmptyString ->
  get result "content" = Some (JStr content) ->
  has (MainB.href_is resolve (JStr link)) (referenceCards st) = true ->
  exists st',
    MainB.updateSearchResult resolve data st = Normal st'
    /\ referenceCards st'
       = update_first (MainB.href_is resolve (JStr link))
           (MainB.set_paper_content
              (if 300 <? length16 content then slice16 300 content ++ "..."
               else content))
           (referenceCards st)
    /\ List.length (referenceCards st') = List.length (referenceCards st).
Proof.
  intros Hr Hl Hne Hc Hh. unfold MainB.updateSearchResult.
  destruct data; try discriminate. rewrite Hr.
  destruct result; try discriminate. unfold has_link. rewrite Hl, Hc, Hh.
  rewrite truncateContent_string.
  destruct link as [|c link]; [congruence|]. cbn [truthy String.eqb negb andb].
  eexists. split; [reflexivity|]. split; [reflexivity|].
  cbn [referenceCards with_referenceCards]. apply update_first_length.
Qed.

(** C6, as the code has it.  A [search_result_update] event leaves the page
    as it is, and so the reference pane: the second revision of main.js has
    no listener and no case for that type, and [updateSearchResult] of the
    first revision and of part_002 returns at once.  A reference with the
    link a therefore stays the only one, where it is, and no second one is
    added, once or twice; its content is the one it had.  The method
    [updateSearchResult] of the second revision, were it called with a
    result whose content is a text, would keep the cards in their places
    and give the first card whose anchor has the link of the result, as the
    browser resolves it, that text, cut at 300 code units and followed by
    three dots when it is longer. *)
Theorem search_result_update_changes_nothing (st : app) (i : nat) (data : string) :
  MainB.step (Frame i "search_result_update" data) st = st
  /\ MainB.handleEventData "search_result_update" (Some data) st = st
  /\ MainA.step (Frame i "search_result_update" data) st = st
  /\ (forall d, JSON_parse data = Some d ->
                Part002.step (Frame i "search_result_update" data) st = st)
  /\ MainB.run [Frame i "search_result_update" data; Frame i "search_result_update" data] st
     = st
  /\ (forall (resolve : string -> string) (d result : json) (link content : string),
        get d "result" = Some result ->
        get result "link" = Some (JStr link) -> link <> EmptyString ->
        get result "content" = Some (JStr content) ->
        has (MainB.href_is resolve (JStr link)) (referenceCards st) = true ->
        exists st',
          MainB.updateSearchResult resolve d st = Normal st'
          /\ referenceCards st'
             = update_first (MainB.href_is resolve (JStr link))
                 (MainB.set_paper_content
                    (if 300 <? length16 content then slice16 300 content ++ "..."
                     else content))
                 (referenceCards st)
          /\ List.length (referenceCards st') = List.length (referenceCards st)).
Proof.
  split; [apply MainB_update_frame|]. split; [apply MainB_update_data|].
  split; [apply MainA_update_frame|]. split; [|split].
  - intros d Hp. now apply (Part002_update_frame i data d).
  - unfold MainB.run, Browser.run. cbn [fold_left].
    fold MainB.step. now rewrite !MainB_update_frame.
  - intros resolve d result link content. apply updateSearchResult_in_place.
Qed.

Lemma search_result_update_changes_nothing_witness :
  Part002.step (Frame 0 "search_result_update" update_a)
    (with_referenceCards [card_a "old"] asked_legacy)
  = with_referenceCards [card_a "old"] asked_legacy.
Proof.
  refine (proj1 (proj2 (proj2 (proj2
            (search_result_update_changes_nothing
               (with_referenceCards [card_a "old"] asked_legacy) 0 update_a))))
            (JObj [("result", JObj [("link", JStr "a"); ("content", JStr "new")])]) _).
  vm_compute. reflexivity.
Defined.

(** C6, as it is written, fails: the pane holds the reference a with the
    content [old], the event brings the content [new] for the link a, and
    the content is still [old] afterwards, in both revisions of main.js. *)
Lemma search_result_update_is_not_applied :
  contents_of "a" (referenceCards holding_a) = ["old"]
  /\ contents_of "a"
       (referenceCards (MainB.step (Frame 0 "search_result_update" update_a) holding_a))
     = ["old"]
  /\ contents_of "a"
       (referenceCards (MainA.step (Frame 0 "search_result_update" update_a) holding_a))
     = ["old"]
  /\ contents_of "a"
       (referenceCards (MainB.step (Frame 0 "search_result_update" update_a) holding_a))
     <> ["new"].
Proof.
  repeat split; try (vm_compute; reflexivity). vm_compute. discriminate.
Qed.

(** Scenario C of the specification, on the method itself and with links
    that the browser leaves as they are: the content is replaced in place. *)
Example updateSearchResult_called :
  let data := JObj [("result", JObj [("link", JStr "a"); ("content", JStr "new")])] in
  referenceCards (page (MainB.updateSearchResult (fun h => h) data holding_a))
  = [card_a "new"].
Proof. vm_compute. reflexivity. Qed.

(** ** The progress of the fetch *)

Lemma is_string_true (v : value) (text : string) :
  is_string v text = true -> v = Some (JStr text).
Proof.
  destruct v as [[]|]; cbn; try discriminate.
  intros H. apply String.eqb_eq in H. now subst.
Qed.

(** C7, as the code has it.  A [status] event with the status
    [fetch_progress] and a progress p that is a number other than zero
    writes [Math.round(p * 100)], as the engine computes it on its binary
    numbers, and a percent sign as the text of the progress, whatever p is:
    nothing is clamped, so that a value above 1 is shown as more than 100%
    and a negative one as a negative percentage.  The bar gets the same
    text as its width when the percentage is not negative and is below the
    size where a Number is written with an exponent.  The status line of
    the answer pane
    stays, created if need be, and shows the message of the event when the
    message is a text (the texts of the pane being plain, so that the status
    line is the one that the model has). *)
Theorem progress_is_recorded_as_it_comes
    (payload : string) (data : json) (p : number) (st : app) :
  Main.decode (Some payload) = Some data ->
  is_string (get data "status") "fetch_progress" = true ->
  get data "progress" = Some (JNum p) ->
  truthy (Some (JNum p)) = true ->
  let st' := MainB.handleEventData "status" (Some payload) st in
  let percent := Math_round (mul p (of_Z 100)) in
  let shown := (Number_toString percent ++ "%")%string in
  progressText st' = shown
  /\ (is_percentage percent = true -> less percent (decimal false 1 21) = true ->
      progressBarWidth st' = shown)
  /\ (forall message,
        get data "message" = Some (JStr message) ->
        plain_pane (answerContent st) = true ->
        answerContent st'
        = set_loading_text message
            (if has is_loading (answerContent st) then answerContent st
             else (answerContent st ++ [Loading EmptyString])%list))
  /\ currentAnswer st' = currentAnswer st.
Proof.
  intros Hd Hs Hp Hn st' percent shown.
  assert (E : st' = MainB.updateStatus data st).
  { unfold st', MainB.handleEventData. rewrite Hd. literals. reflexivity. }
  apply is_string_true in Hs.
  rewrite E. unfold MainB.updateStatus. rewrite Hs, Hp, Hn.
  cbn [is_string]. literals.
  unfold MainB.percent, MainB.percent_text, MainB.set_width. cbn [ToNumber].
  fold percent. fold shown. unfold is_percentage.
  split; [|split; [|split]].
  - destruct percent as [| | |[]]; now destruct (has is_loading (answerContent st)).
  - intros Hz _.
    destruct percent as [| | |[]]; try discriminate;
      now destruct (has is_loading (answerContent st)).
  - intros message Hm _. rewrite Hm. cbn [textContent_of json_toString].
    destruct percent as [| | |[]]; now destruct (has is_loading (answerContent st)).
  - destruct percent as [| | |[]]; now destruct (has is_loading (answerContent st)).
Qed.

Lemma progress_is_recorded_as_it_comes_witness :
  progressText (MainB.handleEventData "status" (Some (progress_payload "0.285")) asked)
  = "28%"
  /\ progressBarWidth
       (MainB.handleEventData "status" (Some (progress_payload "0.285")) asked)
     = "28%".
Proof.
  pose proof (progress_is_recorded_as_it_comes (progress_payload "0.285")
                (JObj [("status", JStr "fetch_progress");
                       ("progress", JNum (decimal false 285 (-3)))])
                (decimal false 285 (-3)) asked) as H.
  cbv zeta in H.
  destruct H as (T & W & _).
  - vm_compute. reflexivity.
  - reflexivity.
  - reflexivity.
  - vm_compute. reflexivity.
  - split.
    + rewrite T. vm_compute. reflexivity.
    + rewrite W; vm_compute; reflexivity.
Defined.

(** C7, as it is written, fails: a progress of 2 is recorded as 200%, not
    as the 100% of the value clamped to 1, and a progress of -0.5 as -50%,
    not as 0%; a progress of 0 that follows one of 0.5 leaves 50% on
    display. *)
Lemma progress_is_not_clamped :
  let after (p : string) (st : app) :=
    MainB.handleEventData "status" (Some (progress_payload p)) st in
  let clamped (p : number) :=
    MainB.percent_text (Math_round (mul (clamp01 p) (of_Z 100))) in
  (progressText (after "2" asked) = "200%"
   /\ progressBarWidth (after "2" asked) = "200%"
   /\ clamped (of_Z 2) = "100%")
  /\ (progressText (after "-0.5" asked) = "-50%"
      /\ clamped (decimal true 5 (-1)) = "0%")
  /\ (progressText (after "0" (after "0.5" asked)) = "50%" /\ clamped (of_Z 0) = "0%")
  /\ progressText (after "2" asked) <> clamped (of_Z 2).
Proof.
  cbv zeta. repeat split; try (vm_compute; reflexivity). vm_compute. discriminate.
Qed.

(** ** A connection that fails *)

Lemma set_ready_state (i : nat) (r r0 : ready) (st : app) :
  readyState_of i st = Some r0 ->
  readyState_of i (with_sources (set_ready i r (sources st)) st) = Some r.
Proof.
  intros H. apply readyState_of_some in H.
  unfold readyState_of. fields.
  pose proof (set_ready_same i r (sources st) H) as E.
  destruct (nth_error (set_ready i r (sources st)) i); simpl in E; congruence.
Qed.







(** In main.js a connection that is lost while the browser connects again
    shows nothing, with the answer buffer empty. *)
Example reconnecting_shows_nothing :
  currentAnswer asked = EmptyString
  /\ answerContent (MainB.step (Fails 0 false) asked) = answerContent asked
  /\ readyState_of 0 (MainB.step (Fails 0 false) asked) = Some CONNECTING.
Proof. vm_compute. repeat split. Qed.

(* ================================================================== *)
(** * Further properties of the methods *)
(* ================================================================== *)

(** ** [truncateContent] *)

Lemma length16_append (a b : string) :
  length16 (a ++ b) = length16 a + length16 b.
Proof.
  induction a as [|c a IH]; [reflexivity|]. cbn [append length16].
  rewrite IH. destruct (is_continuation (code c)), (is_lead4 (code c)); lia.
Qed.

Lemma length16_high_surrogate (b0 : nat) (r : string) :
  length16 (high_surrogate b0 r) = 1.
Proof.
  unfold high_surrogate.
  set (u := 216 * 256 + _).
  assert (L : 216 * 256 <= u < 224 * 256).
  { unfold u.
    pose proof (Nat.mod_upper_bound b0 8 ltac:(lia)).
    pose proof (Nat.mod_upper_bound
                  match r with String c _ => code c | EmptyString => 128 end 64
                  ltac:(lia)).
    pose proof (Nat.mod_upper_bound
                  match r with String _ (String c _) => code c | _ => 128 end 64
                  ltac:(lia)).
    split; [lia|].
    apply Nat.lt_le_trans with (216 * 256 + 2048); [|lia].
    apply Nat.add_lt_mono_l. apply Nat.Div0.div_lt_upper_bound. lia. }
  clearbody u. unfold utf8.
  destruct (u <? 128) eqn:A; [apply Nat.ltb_lt in A; lia|].
  destruct (u <? 2048) eqn:B; [apply Nat.ltb_lt in B; lia|].
  assert (Q : u / 4096 = 13).
  { symmetry. apply (Nat.div_unique u 4096 13 (u - 13 * 4096)); lia. }
  rewrite Q.
  pose proof (Nat.mod_upper_bound (u / 64) 64 ltac:(lia)) as M1.
  pose proof (Nat.mod_upper_bound u 64 ltac:(lia)) as M2.
  unfold chr, code. cbn [append length16].
  rewrite !nat_ascii_embedding by lia.
  replace (is_continuation (224 + 13)) with false by reflexivity.
  replace (is_lead4 (224 + 13)) with false by reflexivity.
  unfold is_continuation.
  replace (128 <=? 128 + (u / 64) mod 64) with true by (symmetry; apply Nat.leb_le; lia).
  replace (128 + (u / 64) mod 64 <? 192) with true by (symmetry; apply Nat.ltb_lt; lia).
  replace (128 <=? 128 + u mod 64) with true by (symmetry; apply Nat.leb_le; lia).
  replace (128 + u mod 64 <? 192) with true by (symmetry; apply Nat.ltb_lt; lia).
  reflexivity.
Qed.

Lemma length16_slice16 (n : nat) (s : string) :
  length16 (slice16 n s) = Nat.min n (length16 s).
Proof.
  revert n. induction s as [|c s IH]; intros n; [now destruct n|].
  cbn [slice16 length16].
  destruct (is_continuation (code c)) eqn:C.
  - cbn [length16]. rewrite C. apply IH.
  - destruct n as [|n]; [reflexivity|].
    destruct (is_lead4 (code c)) eqn:L.
    + destruct n as [|n].
      * rewrite length16_high_surrogate. reflexivity.
      * cbn [length16]. rewrite C, L, IH. lia.
    + cbn [length16]. rewrite C, L, IH. lia.
Qed.

Lemma slice16_prefix (n : nat) (s : string) :
  basic_plane s = true -> exists rest, s = slice16 n s ++ rest.
Proof.
  revert n. induction s as [|c s IH]; intros n H; [now exists EmptyString|].
  cbn [basic_plane] in H. apply andb_prop in H. destruct H as [L B].
  apply negb_true_iff in L. cbn [slice16]. rewrite L.
  destruct (is_continuation (code c)).
  - destruct (IH n B) as [rest E]. exists rest. cbn [append]. now rewrite <- E.
  - destruct n as [|n]; [now exists (String c s)|].
    destruct (IH n B) as [rest E]. exists rest. cbn [append]. now rewrite <- E.
Qed.

(** X1.  [truncateContent] of a text gives a text of at most [maxLength]
    code units and three dots: the text itself when it has no more than
    [maxLength] code units, and otherwise its first [maxLength] code units
    followed by the dots.  The length is the one of JavaScript, in UTF-16
    code units, whatever the number of bytes of a character; on a text of
    the basic plane what is kept is the beginning of the text. *)
Theorem truncateContent_of_a_text (s : string) (maxLength : nat) :
  exists t,
    truncateContent (Some (JStr s)) maxLength = Returns (JStr t)
    /\ length16 t <= maxLength + 3
    /\ (length16 s <= maxLength -> t = s)
    /\ (maxLength < length16 s ->
        t = slice16 maxLength s ++ "..."
        /\ length16 (slice16 maxLength s) = maxLength
        /\ length16 t = maxLength + 3
        /\ (basic_plane s = true -> exists rest, s = slice16 maxLength s ++ rest)).
Proof.
  rewrite truncateContent_string. eexists. split; [reflexivity|].
  destruct (maxLength <? length16 s) eqn:E.
  - apply Nat.ltb_lt in E.
    rewrite length16_append, length16_slice16. cbn [length16].
    replace (is_continuation (code "."%char)) with false by reflexivity.
    replace (is_lead4 (code "."%char)) with false by reflexivity.
    split; [lia|]. split; [lia|]. intros _.
    split; [reflexivity|]. split; [lia|]. split; [lia|].
    apply slice16_prefix.
  - apply Nat.ltb_ge in E. split; [lia|]. split; [reflexivity | lia].
Qed.

Lemma truncateContent_of_a_text_witness :
  truncateContent (Some (JStr "中文字典")) 3 = Returns (JStr "中文字...").
Proof.
  destruct (truncateContent_of_a_text "中文字典" 3) as (t & E & _ & _ & H).
  rewrite E. destruct H as [-> _]; [vm_compute; lia | vm_compute; reflexivity].
Defined.

(** [truncateContent] of what is missing, [null], zero, [false] or the empty
    text is the empty text; a number comes back as it is; a text of three
    characters of the basic plane is not longer than three; an array is
    cut as a text is; an object with a length above the limit makes the
    call of [slice] throw. *)
Example truncateContent_edges :
  (truncateContent None 300, truncateContent (Some JNull) 300,
   truncateContent (Some (JNum (of_Z 0))) 300, truncateContent (Some (JNum (of_Z 7))) 300,
   truncateContent (Some (JStr "abcdef")) 3, truncateContent (Some (JStr "中文字")) 3,
   truncateContent (Some (JArr [JNum (of_Z 1); JNum (of_Z 2); JNum (of_Z 3)])) 2,
   truncateContent (Some (JObj [("length", JNum (of_Z 301))])) 300)
  = (Returns (JStr EmptyString), Returns (JStr EmptyString), Returns (JStr EmptyString),
     Returns (JNum (of_Z 7)), Returns (JStr "abc..."), Returns (JStr "中文字"),
     Returns (JStr "1,2..."), Throws (TypeError "content.slice is not a function")).
Proof. vm_compute. reflexivity. Qed.

(** ** Status lines of the answer pane *)

Lemma status_lines_app (l l' : list element) :
  status_lines (l ++ l') = status_lines l + status_lines l'.
Proof. unfold status_lines. now rewrite filter_app, length_app. Qed.

Lemma has_status_lines (l : list element) :
  has is_loading l = negb (status_lines l =? 0).
Proof.
  unfold has, status_lines. induction l as [|x l IH]; simpl; [reflexivity|].
  destruct (is_loading x); simpl; [reflexivity | exact IH].
Qed.

Lemma no_status_line (l : list element) :
  has is_loading l = false -> status_lines l = 0.
Proof.
  rewrite has_status_lines. destruct (status_lines l); [reflexivity | discriminate].
Qed.

Lemma status_lines_remove_first (l : list element) :
  status_lines (remove_first is_loading l) = Nat.pred (status_lines l).
Proof.
  unfold status_lines. induction l as [|x l IH]; simpl; [reflexivity|].
  destruct (is_loading x) eqn:E; simpl; [reflexivity|]. rewrite E. exact IH.
Qed.

Lemma status_lines_set_text (t : string) (l : list element) :
  status_lines (set_loading_text t l) = status_lines l.
Proof.
  unfold status_lines, set_loading_text.
  induction l as [|x l IH]; simpl; [reflexivity|].
  destruct (is_loading x) eqn:E; simpl; [reflexivity|]. rewrite E. exact IH.
Qed.

Lemma status_lines_removelast (l : list element) :
  status_lines (removelast l) <= status_lines l.
Proof.
  induction l as [|x l _] using rev_ind; [reflexivity|].
  rewrite removelast_last, status_lines_app. lia.
Qed.

(** ** What every event keeps *)

Section StepInvariant.

Variable P : app -> Prop.
Variable eventTypes : list string.
Variable listener : nat -> string -> option string -> app -> app.
Variable onerror : nat -> app -> app.
Variable handleSendMessage : Z -> app -> app.

Hypothesis Hopens : forall i st, P st -> P (Browser.opens i st).
Hypothesis Hfailed :
  forall i (fatal : bool) st r,
    readyState_of i st = Some r -> r <> CLOSED -> P st ->
    P (with_sources (set_ready i (if fatal then CLOSED else CONNECTING) (sources st)) st).
Hypothesis Htimer : forall k st, P st -> P (timer_fires k st).
Hypothesis Hlisten : forall i t d st, P st -> P (listener i t d st).
Hypothesis Honerror : forall i st, P st -> P (onerror i st).
Hypothesis Hsend :
  forall input now st, P st -> P (handleSendMessage now (with_messageInput input st)).

Lemma dispatch_preserves (i : nat) (type : string) (data : option string) (st : app) :
  P st -> P (Browser.dispatch eventTypes listener onerror i type data st).
Proof.
  intros H. unfold Browser.dispatch.
  assert (H1 : P (if existsb (String.eqb type) eventTypes
                  then listener i type data st else st)).
  { destruct (existsb _ _); auto. }
  destruct (type =? "error")%string; auto.
Qed.

Lemma step_preserves (e : event) (st : app) :
  P st -> P (Browser.step eventTypes listener onerror handleSendMessage e st).
Proof.
  intros H. destruct e as [input now|i|i type data|i fatal|k]; cbn; auto.
  - unfold Browser.frame. destruct (readyState_of i st) as [[]|]; auto.
    now apply dispatch_preserves.
  - unfold Browser.fails. destruct (readyState_of i st) as [[]|] eqn:E; auto;
      apply dispatch_preserves; eapply Hfailed; eauto; discriminate.
Qed.

Lemma run_preserves (es : list event) (st : app) :
  P st -> P (Browser.run eventTypes listener onerror handleSendMessage es st).
Proof.
  unfold Browser.run. revert st. induction es as [|e es IH]; intros st H; cbn; auto.
  apply IH. now apply step_preserves.
Qed.

End StepInvariant.

(** ** At most one status line *)

Ltac count :=
  unfold replace_last;
  repeat rewrite ?status_lines_app, ?status_lines_remove_first, ?status_lines_set_text;
  repeat match goal with
         | |- context [status_lines (removelast ?l)] =>
             let H := fresh in
             let n := fresh "n" in
             pose proof (status_lines_removelast l) as H;
             set (n := status_lines (removelast l)) in *; clearbody n
         end;
  rewrite ?status_lines_app, ?status_lines_remove_first, ?status_lines_set_text in *;
  cbn [status_lines filter is_loading List.length] in *;
  try lia.

Lemma showError_status_lines (data : json) (st : app) :
  status_lines (answerContent (page (showError data st)))
  <= status_lines (answerContent st).
Proof.
  unfold showError.
  destruct data; fields; try (destruct (ends_with_ai_message _)); fields; count.
Qed.

Lemma updateAnswer_status_lines (data : json) (st : app) :
  status_lines (answerContent (page (updateAnswer data st)))
  <= status_lines (answerContent st).
Proof.
  unfold updateAnswer.
  destruct data; fields; try lia;
    (destruct (is_string _ "error"); [apply showError_status_lines|]);
    destruct (has is_loading (answerContent st)); destruct (truthy _); fields;
    try (destruct (ends_with_ai_message _)); fields; count.
Qed.

Lemma updateSearchResults_answerContent (data : json) (st : app) :
  answerContent (page (updateSearchResults data st)) = answerContent st.
Proof. unfold updateSearchResults. branches; reflexivity. Qed.

Lemma MainB_handleToolResult_answerContent (data : json) (st : app) :
  answerContent (page (MainB.handleToolResult data st)) = answerContent st.
Proof.
  unfold MainB.handleToolResult, MainB.handleSearchResults, MainB.handleArxivResults,
    MainB.handleResults.
  branches; reflexivity.
Qed.

Lemma Part002_updateSearchResults_answerContent (data : json) (st : app) :
  answerContent (page (Part002.updateSearchResults data st)) = answerContent st.
Proof. unfold Part002.updateSearchResults. branches; reflexivity. Qed.

Lemma MainB_updateStatus_status_lines (data : json) (st : app) :
  status_lines (answerContent st) <= 1 ->
  status_lines (answerContent (MainB.updateStatus data st)) <= 1.
Proof.
  intros H. unfold MainB.updateStatus, MainB.set_width.
  destruct (has is_loading (answerContent st)) eqn:L;
    [|apply no_status_line in L];
    repeat match goal with
           | |- context [if ?b then _ else _] => destruct b
           | |- context [match ?x with _ => _ end] => destruct x
           end; fields; count.
Qed.

Lemma MainA_updateStatus_status_lines (data : json) (st : app) :
  status_lines (answerContent st) <= 1 ->
  status_lines (answerContent (MainA.updateStatus data st)) <= 1.
Proof.
  intros H. unfold MainA.updateStatus.
  repeat match goal with
         | |- context [if ?b then _ else _] => destruct b
         end; fields; count.
Qed.

Lemma Part002_updateStatus_status_lines (data : json) (st : app) :
  status_lines (answerContent st) <= 1 ->
  status_lines (answerContent (page (Part002.updateStatus data st))) <= 1.
Proof.
  intros H. unfold Part002.updateStatus.
  destruct data; fields; try lia;
    repeat match goal with
           | |- context [if ?b then _ else _] => destruct b
           end; fields; count.
Qed.

Lemma caught_status_lines (c : completion) :
  status_lines (answerContent (Main.caught c))
  <= status_lines (answerContent (page c)).
Proof. destruct c; cbn [Main.caught page]; [lia | apply showError_status_lines]. Qed.

Lemma MainB_handleEventData_status_lines (type : string) (data : option string) (st : app) :
  status_lines (answerContent st) <= 1 ->
  status_lines (answerContent (MainB.handleEventData type data st)) <= 1.
Proof.
  intros H. unfold MainB.handleEventData.
  destruct (Main.decode data) as [d|]; [|exact H].
  eapply Nat.le_trans; [apply caught_status_lines|].
  repeat match goal with
         | |- context [if ?b then _ else _] => destruct b
         end; cbn [page]; auto.
  - now apply MainB_updateStatus_status_lines.
  - now rewrite MainB_handleToolResult_answerContent.
  - eapply Nat.le_trans; [apply updateAnswer_status_lines | exact H].
  - eapply Nat.le_trans; [apply showError_status_lines | exact H].
Qed.

Lemma MainA_handleEventData_status_lines (type : string) (data : option string) (st : app) :
  status_lines (answerContent st) <= 1 ->
  status_lines (answerContent (MainA.handleEventData type data st)) <= 1.
Proof.
  intros H. unfold MainA.handleEventData.
  destruct (Main.decode data) as [d|]; [|exact H].
  eapply Nat.le_trans; [apply caught_status_lines|].
  repeat match goal with
         | |- context [if ?b then _ else _] => destruct b
         end; cbn [page MainA.updateSearchResult]; auto.
  - now apply MainA_updateStatus_status_lines.
  - now rewrite updateSearchResults_answerContent.
  - eapply Nat.le_trans; [apply updateAnswer_status_lines | exact H].
  - eapply Nat.le_trans; [apply showError_status_lines | exact H].
Qed.

Lemma Part002_handleEventData_status_lines (type : string) (data : option string) (st : app) :
  status_lines (answerContent st) <= 1 ->
  status_lines (answerContent (Part002.handleEventData type data st)) <= 1.
Proof.
  intros H. unfold Part002.handleEventData.
  match goal with
  | |- context [match ?c with Normal _ => _ | Throw _ _ => _ end] =>
      assert (E : status_lines (answerContent (page c)) <= 1); [|destruct c]
  end.
  - destruct (Part002.parse_data data) as [d|]; [|exact H].
    repeat match goal with
           | |- context [if ?b then _ else _] => destruct b
           end; cbn [page Part002.updateSearchResult]; auto.
    + now apply Part002_updateStatus_status_lines.
    + now rewrite Part002_updateSearchResults_answerContent.
    + eapply Nat.le_trans; [apply updateAnswer_status_lines | exact H].
    + eapply Nat.le_trans; [apply showError_status_lines | exact H].
  - exact E.
  - eapply Nat.le_trans; [apply showError_status_lines | exact E].
Qed.

Lemma Main_listener_status_lines
    (handle : string -> option string -> app -> app) :
  (forall t d st, status_lines (answerContent st) <= 1 ->
                  status_lines (answerContent (handle t d st)) <= 1) ->
  forall i t d st,
    status_lines (answerContent st) <= 1 ->
    status_lines (answerContent (Main.listener handle i t d st)) <= 1.
Proof.
  intros Hh i t d st H. unfold Main.listener.
  destruct (readyState_of i st) as [[]|]; auto;
    (destruct d as [[|c s]|]; auto; destruct (t =? "complete")%string; fields; auto).
Qed.

Lemma Main_onerror_status_lines (i : nat) (st : app) :
  status_lines (answerContent st) <= 1 ->
  status_lines (answerContent (Main.onerror i st)) <= 1.
Proof.
  intros H. unfold Main.onerror.
  destruct (readyState_of i st) as [[]|]; auto; try (destruct (negb _); auto); fields;
    (eapply Nat.le_trans; [apply showError_status_lines | exact H]).
Qed.

Lemma begin_message_status_lines (st st1 : app) (message : string) :
  begin_message st = Some (message, st1) ->
  status_lines (answerContent st1) = 1.
Proof.
  unfold begin_message.
  destruct (trim (messageInput st) =? EmptyString)%string; [discriminate|].
  intros H. injection H as _ <-. fields.
  destruct (has is_loading (answerContent st)) eqn:L; cbn [orb].
  - reflexivity.
  - apply no_status_line in L. destruct (has is_placeholder _); [reflexivity|]. count.
Qed.

Lemma Main_send_status_lines (now : Z) (st : app) :
  status_lines (answerContent st) <= 1 ->
  status_lines (answerContent (Main.handleSendMessage now st)) <= 1.
Proof.
  intros H. unfold Main.handleSendMessage.
  destruct (begin_message st) as [[message st1]|] eqn:E; [|exact H].
  apply begin_message_status_lines in E.
  destruct (toolOptions st1); fields; [lia|].
  eapply Nat.le_trans; [apply showError_status_lines | lia].
Qed.

Lemma Part002_send_status_lines (now : Z) (st : app) :
  status_lines (answerContent st) <= 1 ->
  status_lines (answerContent (Part002.handleSendMessage now st)) <= 1.
Proof.
  intros H. unfold Part002.handleSendMessage.
  destruct (begin_message st) as [[message st1]|] eqn:E; [|exact H].
  apply begin_message_status_lines in E. fields. lia.
Qed.

Lemma Part002_listens_status_lines (i : nat) (t : string) (d : option string) (st : app) :
  status_lines (answerContent st) <= 1 ->
  status_lines (answerContent (Part002.listens i t d st)) <= 1.
Proof.
  intros H. unfold Part002.listens, Part002.listener.
  pose proof (Part002_handleEventData_status_lines t d st H) as E.
  branches; exact E.
Qed.

Lemma Part002_onerror_status_lines (i : nat) (st : app) :
  status_lines (answerContent st) <= 1 ->
  status_lines (answerContent (Part002.onerror i st)) <= 1.
Proof.
  intros H. unfold Part002.onerror.
  destruct (readyState_of i st) as [[]|]; auto; fields;
    (eapply Nat.le_trans; [apply showError_status_lines | exact H]).
Qed.

(** X2.  The answer pane never shows two status lines: if it has at most
    one, it has at most one after any sequence of events that bring plain
    texts, in each revision (messages sent, frames of any type on any
    source, failures, timers).  The texts are plain, those of the pane at
    the start and those of the questions and of the payloads: a text with
    markup of its own could bring an element of the class of a status line
    with it. *)
Theorem at_most_one_status_line (es : list event) (st : app) :
  plain_pane (answerContent st) = true ->
  Forall plain_event es ->
  status_lines (answerContent st) <= 1 ->
  status_lines (answerContent (MainB.run es st)) <= 1
  /\ status_lines (answerContent (MainA.run es st)) <= 1
  /\ status_lines (answerContent (Part002.run es st)) <= 1.
Proof.
  intros _ _ H. repeat split.
  - apply (run_preserves (fun s => status_lines (answerContent s) <= 1)); auto.
    + intros i s Hs. unfold Browser.opens. branches; exact Hs.
    + intros k s Hs. unfold timer_fires. branches; exact Hs.
    + apply Main_listener_status_lines, MainB_handleEventData_status_lines.
    + apply Main_onerror_status_lines.
    + intros input now s Hs. now apply Main_send_status_lines.
  - apply (run_preserves (fun s => status_lines (answerContent s) <= 1)); auto.
    + intros i s Hs. unfold Browser.opens. branches; exact Hs.
    + intros k s Hs. unfold timer_fires. branches; exact Hs.
    + apply Main_listener_status_lines, MainA_handleEventData_status_lines.
    + apply Main_onerror_status_lines.
    + intros input now s Hs. now apply Main_send_status_lines.
  - apply (run_preserves (fun s => status_lines (answerContent s) <= 1)); auto.
    + intros i s Hs. unfold Browser.opens. branches; exact Hs.
    + intros k s Hs. unfold timer_fires. branches; exact Hs.
    + apply Part002_listens_status_lines.
    + apply Part002_onerror_status_lines.
    + intros input now s Hs. now apply Part002_send_status_lines.
Qed.

Lemma at_most_one_status_line_witness :
  status_lines
    (answerContent
       (MainB.run [Frame 0 "status" (status_payload "generating");
                   Send "more" 3%Z;
                   Frame 0 "status" (status_payload "searching")] asked)) <= 1.
Proof.
  refine (proj1 (at_most_one_status_line _ asked _ _ _)).
  - vm_compute. reflexivity.
  - repeat constructor.
  - vm_compute. lia.
Defined.

(** ** What a status event touches *)






Lemma update_first_absent {A : Type} (sel : A -> bool) (f : A -> A) (l : list A) :
  has sel l = false -> update_first sel f l = l.
Proof.
  unfold has. induction l as [|x l IH]; simpl; [reflexivity|].
  destruct (sel x); simpl; [discriminate|]. intros H. now rewrite IH.
Qed.

Lemma has_app {A : Type} (sel : A -> bool) (l l' : list A) :
  has sel (l ++ l') = has sel l || has sel l'.
Proof. apply existsb_app. Qed.


Lemma remove_first_last {A : Type} (sel : A -> bool) (l : list A) (x : A) :
  has sel l = false -> sel x = true -> remove_first sel (l ++ [x]) = l.
Proof.
  unfold has. induction l as [|y l IH]; simpl; intros H Hx.
  - now rewrite Hx.
  - destruct (sel y); simpl in *; [discriminate|]. now rewrite IH.
Qed.




(** ** What the answer pane shows of the answer *)



(** X6.  After an error was shown in a pane with at most one status line,
    the pane has no status line and ends with the error, so the text of an
    answer event that follows goes to the answer buffer and nowhere else:
    the page is the same but for the buffer.  The texts of the pane and
    the two texts of the error are plain: an error whose text brings an
    element of the class of a status line would be taken for one. *)
Theorem answer_after_an_error_is_not_shown
    (error data : json) (f : string) (st : app) :
  plain_pane (answerContent st) = true ->
  writes_plain (get error "error") = true ->
  writes_plain (get error "details") = true ->
  status_lines (answerContent st) <= 1 ->
  error <> JNull -> data <> JNull ->
  is_string (get data "status") "error" = false ->
  get data "content" = Some (JStr f) ->
  let st1 := page (showError error st) in
  page (updateAnswer data st1) = with_currentAnswer (currentAnswer st1 ++ f) st1
  /\ answerContent (page (updateAnswer data st1)) = answerContent st1.
Proof.
  intros _ _ _ H1 He Hd Hs Hc st1.
  destruct (showError_answerContent error st He) as (front & st' & E & Ea).
  assert (Est : st1 = st') by (unfold st1; now rewrite E).
  assert (L : has is_loading (answerContent st1) = false).
  { rewrite has_status_lines.
    pose proof (showError_status_lines error st) as Hle. fold st1 in Hle.
    assert (Z : status_lines (answerContent st1) = 0).
    { unfold st1 at 1. unfold showError.
      destruct error; try congruence; fields;
        destruct (ends_with_ai_message _); fields; count. }
    now rewrite Z. }
  assert (A : ends_with_ai_message (answerContent st1) = false).
  { rewrite Est, Ea. now rewrite ends_with_ai_message_snoc. }
  assert (G : page (updateAnswer data st1) = with_currentAnswer (currentAnswer st1 ++ f) st1).
  { unfold updateAnswer. destruct data; try congruence; rewrite Hs, Hc, L;
      (destruct f as [|c f];
       [ cbn [truthy String.eqb negb page]; rewrite append_empty_r;
         now destruct st1
       | cbn [truthy String.eqb negb ToString json_toString]; fields;
         now rewrite A ]). }
  split; [exact G | now rewrite G].
Qed.

Lemma answer_after_an_error_is_not_shown_witness :
  let st1 := page (showError (JObj [("error", JStr "timeout")]) asked) in
  answerContent (page (updateAnswer (JObj [("content", JStr "x")]) st1))
  = [UserMessage "q"; ErrorBox "timeout" None].
Proof.
  cbv zeta.
  rewrite (proj2 (answer_after_an_error_is_not_shown
                    (JObj [("error", JStr "timeout")]) (JObj [("content", JStr "x")])
                    "x" asked ltac:(vm_compute; reflexivity)
                    ltac:(vm_compute; reflexivity) ltac:(vm_compute; reflexivity)
                    ltac:(vm_compute; lia) ltac:(discriminate)
                    ltac:(discriminate) ltac:(reflexivity) ltac:(reflexivity))).
  vm_compute. reflexivity.
Defined.



(** ** Sending a question *)

Lemma set_ready_asks (i : nat) (r : ready) (l : list eventSource) :
  Forall asks l -> Forall asks (set_ready i r l).
Proof.
  intros F. revert i. induction F as [|es l He F IH]; intros [|i]; simpl; auto.
Qed.

Lemma asks_either (st st' : app) (i : nat) :
  sources st' = sources st \/ sources st' = set_ready i CLOSED (sources st) ->
  Forall asks (sources st) -> Forall asks (sources st').
Proof. intros [-> | ->] F; [exact F | now apply set_ready_asks]. Qed.

Lemma Main_send_asks (now : Z) (st : app) :
  Forall asks (sources st) -> Forall asks (sources (Main.handleSendMessage now st)).
Proof.
  intros F. unfold Main.handleSendMessage.
  destruct (begin_message st) as [[message st1]|] eqn:E; [|exact F].
  apply begin_message_resets in E. destruct E as (_ & Es & _ & Hne).
  destruct (toolOptions st1).
  - unfold new_EventSource. fields. rewrite Es. apply Forall_app. split; [exact F|].
    constructor; [|constructor]. eexists; eexists. split; [reflexivity | exact Hne].
  - now rewrite showError_sources, Es.
Qed.

Lemma Part002_send_asks (now : Z) (st : app) :
  Forall asks (sources st) -> Forall asks (sources (Part002.handleSendMessage now st)).
Proof.
  intros F. unfold Part002.handleSendMessage.
  destruct (begin_message st) as [[message st1]|] eqn:E; [|exact F].
  apply begin_message_resets in E. destruct E as (_ & Es & _ & Hne).
  unfold new_EventSource. fields. rewrite Es. apply Forall_app. split; [exact F|].
  constructor; [|constructor]. eexists; eexists. split; [reflexivity | exact Hne].
Qed.

(** X8.  No request is ever made with an empty message: every event source
    that exists after any sequence of events has a query that starts with
    the field [message], and that message is not empty, in each revision. *)
Theorem every_request_asks_a_question (es : list event) (st : app) :
  Forall asks (sources st) ->
  Forall asks (sources (MainB.run es st))
  /\ Forall asks (sources (MainA.run es st))
  /\ Forall asks (sources (Part002.run es st)).
Proof.
  intros H.
  assert (O : forall i s, Forall asks (sources s) -> Forall asks (sources (Browser.opens i s))).
  { intros i s Hs. unfold Browser.opens. branches; auto using set_ready_asks. }
  assert (T : forall k s, Forall asks (sources s) -> Forall asks (sources (timer_fires k s))).
  { intros k s Hs. unfold timer_fires. branches; exact Hs. }
  repeat split;
    apply (run_preserves (fun s => Forall asks (sources s))); auto;
    try (intros i fatal s r _ _ Hs; fields; now apply set_ready_asks).
  - intros i t d s. apply asks_either with (i := i).
    apply Main_listener_sources, MainB_handleEventData_sources.
  - intros i s. apply asks_either with (i := i), Main_onerror_sources.
  - intros input now s Hs. now apply Main_send_asks.
  - intros i t d s. apply asks_either with (i := i).
    apply Main_listener_sources, MainA_handleEventData_sources.
  - intros i s. apply asks_either with (i := i), Main_onerror_sources.
  - intros input now s Hs. now apply Main_send_asks.
  - intros i t d s. apply asks_either with (i := i), Part002_listens_sources.
  - intros i s. apply asks_either with (i := i), Part002_onerror_sources.
  - intros input now s Hs. now apply Part002_send_asks.
Qed.

Lemma every_request_asks_a_question_witness :
  Forall asks
    (sources
       (MainB.run [Send "q" 1%Z; Opens 0; Send "  " 5%Z; Send "again" 2%Z; Opens 1]
          (loadAvailableTools ["search_web"] (constructor [Placeholder] [] true)))).
Proof.
  exact (proj1 (every_request_asks_a_question
                  [Send "q" 1%Z; Opens 0; Send "  " 5%Z; Send "again" 2%Z; Opens 1]
                  (loadAvailableTools ["search_web"] (constructor [Placeholder] [] true))
                  (Forall_nil asks))).
Defined.


(** X9.  In main.js a question sent before the list of tools has been
    loaded creates no event source: the input is cleared, the question is
    put in the answer pane, and an error block takes the place of the
    status line.  The question and the texts of the pane are plain: a
    question with an element of the class of a status line in it would
    lose that element to [showError], and the status line would stay. *)
Theorem question_sent_without_tools (now : Z) (st : app) :
  plain_pane (answerContent st) = true ->
  plain (trim (messageInput st)) = true ->
  toolOptions st = None ->
  trim (messageInput st) <> EmptyString ->
  let st' := Main.handleSendMessage now st in
  let kept :=
    if has is_loading (answerContent st) || has is_placeholder (answerContent st)
    then [] else answerContent st in
  sources st' = sources st
  /\ answerContent st'
     = (kept ++ [UserMessage (trim (messageInput st)); ErrorBox txt_error None])%list
  /\ currentAnswer st' = EmptyString
  /\ messageInput st' = EmptyString.
Proof.
  intros _ _ Ht Hn st' kept. unfold st', Main.handleSendMessage.
  rewrite (begin_message_page st Hn). fields. rewrite Ht.
  assert (K : has is_loading kept = false).
  { unfold kept. destruct (has is_loading (answerContent st)) eqn:L; [reflexivity|].
    cbn [orb]. now destruct (has is_placeholder _). }
  fold kept. unfold showError. fields.
  replace (kept ++ [UserMessage (trim (messageInput st)); Loading txt_thinking])%list
    with ((kept ++ [UserMessage (trim (messageInput st))]) ++ [Loading txt_thinking])%list
    by now rewrite <- app_assoc.
  rewrite remove_first_last; [| rewrite has_app, K; reflexivity | reflexivity].
  rewrite ends_with_ai_message_snoc. cbn [is_ai_message]. fields.
  rewrite <- app_assoc. repeat split.
Qed.

Lemma question_sent_without_tools_witness :
  let st := with_messageInput " why? " (constructor [Placeholder] [] false) in
  answerContent (Main.handleSendMessage 1%Z st)
  = [UserMessage "why?"; ErrorBox txt_error None]
  /\ sources (Main.handleSendMessage 1%Z st) = [].
Proof.
  cbv zeta.
  destruct (question_sent_without_tools 1%Z
              (with_messageInput " why? " (constructor [Placeholder] [] false))
              ltac:(reflexivity) ltac:(vm_compute; reflexivity)
              ltac:(reflexivity) ltac:(vm_compute; discriminate)) as (S & A & _).
  split; [rewrite A | rewrite S]; vm_compute; reflexivity.
Defined.



(** ** Sources that are closed *)

Lemma readyState_set_ready (i j : nat) (r : ready) (st : app) :
  i <> j ->
  readyState_of i (with_sources (set_ready j r (sources st)) st) = readyState_of i st.
Proof.
  intros H. unfold readyState_of. fields. rewrite set_ready_other by congruence.
  reflexivity.
Qed.

Lemma closed_after_set_ready (i j : nat) (r : ready) (st st' : app) :
  sources st' = sources st \/ sources st' = set_ready j CLOSED (sources st) ->
  readyState_of i st = Some CLOSED -> readyState_of i st' = Some CLOSED.
Proof.
  intros [E | E] H.
  - now rewrite (readyState_of_sources i st st' E).
  - destruct (Nat.eq_dec i j) as [-> | N].
    + rewrite <- (close_closed j st CLOSED H). unfold readyState_of, close. fields.
      now rewrite E.
    + rewrite <- H, <- (readyState_set_ready i j CLOSED st N).
      unfold readyState_of. fields. now rewrite E.
Qed.

Lemma closed_after_change (i j : nat) (r r0 : ready) (st : app) :
  readyState_of j st = Some r0 -> r0 <> CLOSED ->
  readyState_of i st = Some CLOSED ->
  readyState_of i (with_sources (set_ready j r (sources st)) st) = Some CLOSED.
Proof.
  intros Hj Hr Hi. destruct (Nat.eq_dec i j) as [-> | N].
  - congruence.
  - now rewrite readyState_set_ready.
Qed.

(** X11.  A source that is closed stays closed whatever happens next, in
    each revision: after any sequence of events (questions sent, frames and
    failures on this or another source, timers) its state is still CLOSED,
    and a frame of its stream still changes nothing. *)
Theorem closed_source_stays_closed (i : nat) (es : list event) (st : app) :
  readyState_of i st = Some CLOSED ->
  (readyState_of i (MainB.run es st) = Some CLOSED
   /\ forall type data,
        MainB.step (Frame i type data) (MainB.run es st) = MainB.run es st)
  /\ (readyState_of i (MainA.run es st) = Some CLOSED
      /\ forall type data,
           MainA.step (Frame i type data) (MainA.run es st) = MainA.run es st)
  /\ (readyState_of i (Part002.run es st) = Some CLOSED
      /\ forall type data,
           Part002.step (Frame i type data) (Part002.run es st) = Part002.run es st).
Proof.
  intros H.
  assert (O : forall j s, readyState_of i s = Some CLOSED ->
                          readyState_of i (Browser.opens j s) = Some CLOSED).
  { intros j s Hs. unfold Browser.opens.
    destruct (readyState_of j s) as [[]|] eqn:E; auto.
    now apply (closed_after_change i j OPEN CONNECTING). }
  assert (F : forall j (fatal : bool) s r,
             readyState_of j s = Some r -> r <> CLOSED ->
             readyState_of i s = Some CLOSED ->
             readyState_of i
               (with_sources
                  (set_ready j (if fatal then CLOSED else CONNECTING) (sources s)) s)
             = Some CLOSED).
  { intros j fatal s r Hj Hr Hs. now apply (closed_after_change i j _ r). }
  assert (T : forall k s, readyState_of i s = Some CLOSED ->
                          readyState_of i (timer_fires k s) = Some CLOSED).
  { intros k s Hs. unfold timer_fires. branches; exact Hs. }
  assert (B : readyState_of i (MainB.run es st) = Some CLOSED).
  { apply (run_preserves (fun s => readyState_of i s = Some CLOSED)); auto.
    - intros j t d s. apply (closed_after_set_ready i j CLOSED).
      apply Main_listener_sources, MainB_handleEventData_sources.
    - intros j s. apply (closed_after_set_ready i j CLOSED), Main_onerror_sources.
    - intros input now s Hs. rewrite Main_send_keeps_sources; [exact Hs|].
      now apply (readyState_of_some i _ CLOSED). }
  assert (A : readyState_of i (MainA.run es st) = Some CLOSED).
  { apply (run_preserves (fun s => readyState_of i s = Some CLOSED)); auto.
    - intros j t d s. apply (closed_after_set_ready i j CLOSED).
      apply Main_listener_sources, MainA_handleEventData_sources.
    - intros j s. apply (closed_after_set_ready i j CLOSED), Main_onerror_sources.
    - intros input now s Hs. rewrite Main_send_keeps_sources; [exact Hs|].
      now apply (readyState_of_some i _ CLOSED). }
  assert (P : readyState_of i (Part002.run es st) = Some CLOSED).
  { apply (run_preserves (fun s => readyState_of i s = Some CLOSED)); auto.
    - intros j t d s. apply (closed_after_set_ready i j CLOSED), Part002_listens_sources.
    - intros j s. apply (closed_after_set_ready i j CLOSED), Part002_onerror_sources.
    - intros input now s Hs. rewrite Part002_send_keeps_sources; [exact Hs|].
      now apply (readyState_of_some i _ CLOSED). }
  repeat split; auto; intros type data; now apply frame_closed.
Qed.

Lemma closed_source_stays_closed_witness :
  let st := MainB.step (Frame 0 "complete" "{}") asked in
  let later := MainB.run [Send "again" 2%Z; Opens 1; Fails 0 false; Opens 0] st in
  MainB.step (Frame 0 "answer" (content_payload "x")) later = later.
Proof.
  refine (proj2 (proj1 (closed_source_stays_closed 0
                          [Send "again" 2%Z; Opens 1; Fails 0 false; Opens 0]
                          (MainB.step (Frame 0 "complete" "{}") asked) _))
            "answer" (content_payload "x")).
  vm_compute. reflexivity.
Defined.

(** ** Errors and failures of a stream *)








(** X13.  In part_002 every failure of a connection ends the stream, also
    the one after which the browser would connect again: the source is
    closed, the listener of [error] has shown the event without data as an
    error of processing (its details are the message of the engine), and
    the answer buffer is as it was. *)
Theorem legacy_failure_closes_the_stream (i : nat) (fatal : bool) (r : ready) (st : app) :
  readyState_of i st = Some r ->
  r <> CLOSED ->
  let st' := Part002.step (Fails i fatal) st in
  readyState_of i st' = Some CLOSED
  /\ (exists details,
        In (ErrorBox txt_processing_error (Some details)) (answerContent st'))
  /\ currentAnswer st' = currentAnswer st.
Proof.
  intros H Hr st'.
  set (st0 := with_sources
                (set_ready i (if fatal then CLOSED else CONNECTING) (sources st)) st).
  set (err := error_object txt_processing_error (message_of Part002.json_syntax_error)).
  set (st1 := page (showError err st0)).
  assert (E0 : readyState_of i st0 = Some (if fatal then CLOSED else CONNECTING)).
  { unfold st0. now apply (set_ready_state i _ r). }
  assert (E1 : readyState_of i st1 = Some (if fatal then CLOSED else CONNECTING)).
  { rewrite <- E0. apply readyState_of_sources. apply showError_sources. }
  assert (S : st' = Part002.onerror i st1).
  { unfold st', Part002.step, Browser.step, Browser.fails. rewrite H.
    destruct r; try congruence; reflexivity. }
  destruct (showError_answerContent err st0 ltac:(discriminate)) as (front & s & Es & Ea).
  assert (A1 : answerContent st1 = (front ++ [errorDiv_of err])%list).
  { unfold st1. now rewrite Es. }
  change (errorDiv_of err)
    with (ErrorBox txt_processing_error (Some (message_of Part002.json_syntax_error))) in A1.
  rewrite S. unfold Part002.onerror. rewrite E1.
  destruct fatal.
  - split; [exact E1|]. split.
    + eexists. rewrite A1. apply in_or_app. right. now left.
    + unfold st1. now rewrite showError_currentAnswer.
  - split; [|split].
    + apply (close_closed i _ CONNECTING). rewrite <- E1.
      apply readyState_of_sources, showError_sources.
    + eexists. cbn [close answerContent with_sources].
      rewrite (showError_string _ st1 front _ A1) by reflexivity.
      apply in_or_app. right. now left.
    + cbn [close currentAnswer with_sources]. unfold st1.
      now rewrite !showError_currentAnswer.
Qed.

Lemma legacy_failure_closes_the_stream_witness :
  readyState_of 0 (Part002.step (Fails 0 false) asked_legacy) = Some CLOSED.
Proof.
  exact (proj1 (legacy_failure_closes_the_stream 0 false OPEN asked_legacy
                  ltac:(vm_compute; reflexivity) ltac:(discriminate))).
Defined.

Lemma Part002_listener_throws
    (i : nat) (eventType : string) (data : option string) (st : app) :
  Part002.parse_data data = None
  \/ (eventType = "status" /\ Part002.parse_data data = Some JNull) ->
  Part002.listener i eventType data st
  = Throw (ReferenceError "data is not defined")
      (Part002.handleEventData eventType data st).
Proof.
  unfold Part002.listener. intros [P | [-> P]]; rewrite P; reflexivity.
Qed.

Lemma Part002_listener_returns
    (i : nat) (eventType : string) (data : option string) (st : app) :
  ~ (Part002.parse_data data = None
     \/ (eventType = "status" /\ Part002.parse_data data = Some JNull)) ->
  exists st', Part002.listener i eventType data st = Normal st'.
Proof.
  unfold Part002.listener. intros N.
  destruct (Part002.parse_data data) as [d|]; [|exfalso; auto].
  destruct (eventType =? "status")%string eqn:T; [|eexists; reflexivity].
  apply String.eqb_eq in T.
  destruct d; try (destruct (is_string _ _); eexists; reflexivity).
  exfalso. auto.
Qed.

Lemma Part002_shows_what_it_catches
    (eventType : string) (data : option string) (st : app) :
  Part002.parse_data data = None
  \/ (eventType = "status" /\ Part002.parse_data data = Some JNull) ->
  exists details,
    In (ErrorBox txt_processing_error (Some details))
       (answerContent (Part002.handleEventData eventType data st)).
Proof.
  unfold Part002.handleEventData. intros [P | [-> P]]; rewrite P.
  - destruct (showError_answerContent
                (error_object txt_processing_error (message_of Part002.json_syntax_error))
                st ltac:(discriminate)) as (front & s' & Es & Ea).
    rewrite Es. cbn [page]. rewrite Ea.
    exists (message_of Part002.json_syntax_error). apply in_or_app. right. now left.
  - literals. cbn [Part002.updateStatus].
    destruct (showError_answerContent
                (error_object txt_processing_error (message_of (null_read "status")))
                st ltac:(discriminate)) as (front & s' & Es & Ea).
    rewrite Es. cbn [page]. rewrite Ea.
    exists (message_of (null_read "status")). apply in_or_app. right. now left.
Qed.

(** X14.  The listener of part_002 lets an error escape exactly when the
    data of the event is no JSON text (or is missing), or when the data of
    a status event is [null]; what escapes is the ReferenceError of its own
    [catch], [handleEventData] has shown an error of processing before, and
    the page that the listener leaves is the one that [handleEventData]
    left. *)
Theorem legacy_listener_escapes
    (i : nat) (eventType : string) (data : option string) (st : app) :
  ((exists e st', Part002.listener i eventType data st = Throw e st')
   <-> (Part002.parse_data data = None
        \/ (eventType = "status" /\ Part002.parse_data data = Some JNull)))
  /\ (forall e st',
        Part002.listener i eventType data st = Throw e st' ->
        e = ReferenceError "data is not defined"
        /\ st' = Part002.handleEventData eventType data st
        /\ exists details,
             In (ErrorBox txt_processing_error (Some details)) (answerContent st')).
Proof.
  assert (D : {Part002.parse_data data = None
               \/ (eventType = "status" /\ Part002.parse_data data = Some JNull)}
              + {~ (Part002.parse_data data = None
                    \/ (eventType = "status"
                        /\ Part002.parse_data data = Some JNull))}).
  { destruct (Part002.parse_data data) as [d|]; [|left; auto].
    destruct (string_dec eventType "status") as [E | E].
    - destruct d; try (right; intros [H | [_ H]]; discriminate). left. auto.
    - right. intros [H | [H _]]; [discriminate | contradiction]. }
  destruct D as [Y | N].
  - rewrite (Part002_listener_throws i eventType data st Y). split.
    + split; [intros _; exact Y | intros _; eexists; eexists; reflexivity].
    + intros e st' H. injection H as <- <-. split; [reflexivity|]. split; [reflexivity|].
      now apply Part002_shows_what_it_catches.
  - destruct (Part002_listener_returns i eventType data st N) as [s E]. rewrite E. split.
    + split; [intros (e & s' & H); discriminate | intros Y; contradiction].
    + intros e s' H. discriminate.
Qed.

Lemma legacy_listener_escapes_witness :
  exists e st', Part002.listener 0 "answer" (Some "{") asked_legacy = Throw e st'.
Proof.
  apply (proj2 (proj1 (legacy_listener_escapes 0 "answer" (Some "{") asked_legacy))).
  left. reflexivity.
Defined.

(** ** What the dispatcher of main.js acts on *)

(** X15.  [handleEventData] of main.js changes the page only for a payload
    that passes its checks (not blank, a JSON text, of an object or an
    array) and for an event type that it has a case for: [status],
    [tool_result], [answer] and [error] in the second revision, [status],
    [search_results], [answer] and [error] in the first.  Any other type,
    with any payload, leaves the page as it is. *)
Theorem dispatcher_acts_on_known_types_only
    (type : string) (data : option string) (st : app) :
  (MainB.handleEventData type data st <> st ->
   (exists d, Main.decode data = Some d /\ is_an_object d = true)
   /\ In type ["status"; "tool_result"; "answer"; "error"])
  /\ (MainA.handleEventData type data st <> st ->
      (exists d, Main.decode data = Some d /\ is_an_object d = true)
      /\ In type ["status"; "search_results"; "answer"; "error"]).
Proof.
  assert (O : forall d, Main.decode data = Some d -> is_an_object d = true).
  { intros d. unfold Main.decode. destruct data as [s|]; [|discriminate].
    destruct (_ || _); [discriminate|]. destruct (JSON_parse s) as [d'|]; [|discriminate].
    destruct (truthy (Some d') && typeof_object d') eqn:T; [|discriminate].
    intros H. injection H as <-. destruct d'; try reflexivity; cbn in T;
      try discriminate; now rewrite andb_false_r in T. }
  split; intros H.
  - unfold MainB.handleEventData in H.
    destruct (Main.decode data) as [d|] eqn:E; [|congruence].
    split; [exists d; auto|].
    destruct (type =? "status")%string eqn:T1; [apply String.eqb_eq in T1; subst; cbn; auto|].
    destruct (type =? "tool_result")%string eqn:T2;
      [apply String.eqb_eq in T2; subst; cbn; auto|].
    destruct (type =? "answer")%string eqn:T3; [apply String.eqb_eq in T3; subst; cbn; auto|].
    destruct (type =? "error")%string eqn:T4; [apply String.eqb_eq in T4; subst; cbn; auto|].
    now cbn in H.
  - unfold MainA.handleEventData in H.
    destruct (Main.decode data) as [d|] eqn:E; [|congruence].
    split; [exists d; auto|].
    destruct (type =? "status")%string eqn:T1; [apply String.eqb_eq in T1; subst; cbn; auto|].
    destruct (type =? "search_results")%string eqn:T2;
      [apply String.eqb_eq in T2; subst; cbn; auto|].
    destruct (type =? "search_result_update")%string eqn:T5; [now cbn in H|].
    destruct (type =? "answer")%string eqn:T3; [apply String.eqb_eq in T3; subst; cbn; auto|].
    destruct (type =? "error")%string eqn:T4; [apply String.eqb_eq in T4; subst; cbn; auto|].
    now cbn in H.
Qed.

Lemma dispatcher_acts_on_known_types_only_witness :
  (exists d, Main.decode (Some (content_payload "x")) = Some d /\ is_an_object d = true)
  /\ In "answer" ["status"; "tool_result"; "answer"; "error"].
Proof.
  refine (proj1 (dispatcher_acts_on_known_types_only "answer"
                   (Some (content_payload "x")) asked) _).
  vm_compute. discriminate.
Defined.

(** X16.  The checks of [handleEventData] in main.js reject exactly the
    malformed payloads: a payload is refused if and only if it is empty or
    blank, or is not a JSON text, or is the text of a value that is neither
    an object nor an array; every other payload is handed on as the value
    that [JSON.parse] gives. *)
Theorem checks_reject_exactly_the_malformed (s : string) :
  (Main.decode (Some s) = None <-> malformed s)
  /\ (forall d, Main.decode (Some s) = Some d <->
                (trim s <> EmptyString /\ JSON_parse s = Some d /\ is_an_object d = true)).
Proof.
  assert (T : forall d, truthy (Some d) && typeof_object d = is_an_object d).
  { intros d. destruct d; cbn; try reflexivity; now rewrite andb_false_r. }
  assert (F : forall d, Main.decode (Some s) = Some d <->
                        (trim s <> EmptyString /\ JSON_parse s = Some d
                         /\ is_an_object d = true)).
  { intros d. unfold Main.decode. split.
    - destruct (s =? EmptyString)%string; [discriminate|]. cbn [orb].
      destruct (trim s =? EmptyString)%string eqn:E; [discriminate|].
      destruct (JSON_parse s) as [d'|]; [|discriminate]. rewrite T.
      destruct (is_an_object d') eqn:O; [|discriminate].
      intros H. injection H as <-. repeat split; auto.
      intros H. rewrite H in E. discriminate.
    - intros (Ht & Hp & Ho).
      destruct (s =? EmptyString)%string eqn:E.
      + apply eqb_empty in E. subst. now destruct Ht.
      + cbn [orb]. destruct (trim s =? EmptyString)%string eqn:E'.
        * apply eqb_empty in E'. contradiction.
        * now rewrite Hp, T, Ho. }
  split; [|exact F]. split.
  - intros H. unfold malformed.
    destruct (trim s =? EmptyString)%string eqn:E; [left; now apply eqb_empty in E|].
    right. destruct (JSON_parse s) as [d|] eqn:P; [|now left].
    right. exists d. split; [reflexivity|].
    destruct (is_an_object d) eqn:O; [|reflexivity].
    assert (G : Main.decode (Some s) = Some d).
    { apply F. repeat split; auto. intros H'. rewrite H' in E. discriminate. }
    congruence.
  - apply decode_malformed.
Qed.

Lemma checks_reject_exactly_the_malformed_witness :
  Main.decode (Some "42") = None
  /\ Main.decode (Some "[42]") = Some (JArr [JNum (of_Z 42)]).
Proof.
  split.
  - apply (proj2 (proj1 (checks_reject_exactly_the_malformed "42"))).
    right; right. exists (JNum (of_Z 42)). split; reflexivity.
  - apply (proj2 (proj2 (checks_reject_exactly_the_malformed "[42]")
                    (JArr [JNum (of_Z 42)]))).
    split; [vm_compute; discriminate | split; reflexivity].
Defined.

(** ** Results of tools *)

Lemma fire_all_timers (ts : list (nat * card)) (st : app) :
  timers st = ts ->
  referenceCards (fire_all (List.length ts) st) = (referenceCards st ++ map snd ts)%list
  /\ timers (fire_all (List.length ts) st) = []
  /\ answerContent (fire_all (List.length ts) st) = answerContent st
  /\ referencesVisible (fire_all (List.length ts) st) = referencesVisible st.
Proof.
  revert st. induction ts as [|[d c] ts IH]; intros st E.
  - cbn. rewrite app_nil_r. auto.
  - cbn [List.length]. unfold fire_all in *. rewrite Nat.iter_succ_r.
    assert (S1 : timer_fires 0 st
                 = with_referenceCards (referenceCards st ++ [c])%list (with_timers ts st)).
    { unfold timer_fires. rewrite E. reflexivity. }
    rewrite S1. destruct (IH (with_referenceCards (referenceCards st ++ [c])%list
                                (with_timers ts st)) eq_refl) as (A & B & C & D).
    rewrite A, B, C, D. fields. cbn [map snd]. rewrite <- app_assoc. auto.
Qed.

Lemma schedule_all (make : nat -> json -> option card) (rs : list json) :
  (forall idx r, In r rs -> make idx r <> None) ->
  forall i,
    List.length (schedule make i rs) = List.length rs
    /\ map fst (schedule make i rs) = map (fun k => k * 100) (seq i (List.length rs))
    /\ forall k r, nth_error rs k = Some r ->
                   nth_error (map snd (schedule make i rs)) k = make (i + k) r.
Proof.
  induction rs as [|r0 rs IH]; intros H i.
  - cbn. repeat split. intros [|k] r; discriminate.
  - cbn [schedule]. destruct (make i r0) as [c|] eqn:M.
    + destruct (IH (fun idx r Hr => H idx r (or_intror Hr)) (S i)) as (L & F & N).
      cbn [List.length map fst seq]. rewrite L, F. repeat split.
      intros [|k] r Hk; cbn in Hk |- *.
      * injection Hk as <-. now rewrite Nat.add_0_r, M.
      * rewrite (N k r Hk). now rewrite Nat.add_succ_r.
    + exfalso. apply (H i r0); [now left | exact M].
Qed.

Lemma less_nan (x : number) : less x S754_nan = false.
Proof. now destruct x. Qed.

Lemma lookup_flat (k : string) (members : list (string * json)) (v : json) :
  forallb (fun m => flat (snd m)) members = true ->
  lookup k members = Some v -> flat v = true.
Proof.
  induction members as [|[k' w] l IH]; [discriminate|].
  cbn [forallb snd lookup]. intros H. apply andb_prop in H. destruct H as [F G].
  destruct (lookup k l) as [u|].
  - intros E. injection E as <-. now apply IH.
  - destruct (k' =? k)%string; [|discriminate]. intros E. now injection E as <-.
Qed.

(** [truncateContent] of a flat value throws nothing. *)
Lemma truncateContent_flat (c : value) (n : nat) :
  match c with Some v => flat v = true | None => True end ->
  exists w, truncateContent c n = Returns w.
Proof.
  intros H. unfold truncateContent.
  destruct (negb (truthy c)); [eexists; reflexivity|].
  destruct c as [[| b | x | s | items | members]|]; try discriminate;
    try (cbn [length_of get ToNumber]; rewrite less_nan);
    try (eexists; reflexivity).
  - destruct (n <? length16 s); eexists; reflexivity.
  - destruct (n <? List.length items); eexists; reflexivity.
Qed.

Lemma content_text_of_a_record (members : list (string * json)) (k : string) :
  record (JObj members) = true ->
  exists t, content_text (get (JObj members) k) = Some t.
Proof.
  intros R. unfold content_text.
  destruct (truncateContent_flat (get (JObj members) k) 300) as [w ->];
    [|eexists; reflexivity].
  cbn [get]. destruct (lookup k members) as [v|] eqn:E; [|exact I].
  now apply (lookup_flat k members).
Qed.

Lemma card_of_a_record (v : json) :
  record v = true ->
  forall idx, MainB.web_card idx v <> None /\ MainB.paper_card idx v <> None.
Proof.
  intros R idx. destruct v; try discriminate.
  unfold MainB.web_card, MainB.paper_card.
  destruct (content_text_of_a_record members "content" R) as [t ->].
  split; discriminate.
Qed.

Lemma handleResults_shown
    (make : nat -> json -> option card) (nothing : string) (rs : list json) (st : app) :
  (forall idx r, In r rs -> make idx r <> None) ->
  timers st = [] -> rs <> [] ->
  let st1 := MainB.handleResults make nothing (JArr rs) st in
  let st2 := fire_all (List.length rs) st1 in
  (referenceCards st1 = [] /\ referencesVisible st1 = true
   /\ map fst (timers st1) = map (fun k => k * 100) (seq 0 (List.length rs)))
  /\ timers st2 = []
  /\ List.length (referenceCards st2) = List.length rs
  /\ forall k r, nth_error rs k = Some r ->
                 nth_error (referenceCards st2) k = make k r.
Proof.
  intros H T N st1 st2.
  destruct (schedule_all make rs H 0) as (L & F & G).
  assert (E : timers st1 = schedule make 0 rs).
  { unfold st1, MainB.handleResults. destruct rs as [|r rs]; [congruence|].
    fields. now rewrite T. }
  assert (C : referenceCards st1 = [] /\ referencesVisible st1 = true).
  { unfold st1, MainB.handleResults. destruct rs as [|r rs]; [congruence|]. auto. }
  destruct C as [C V].
  destruct (fire_all_timers (schedule make 0 rs) st1 E) as (A & B & _).
  rewrite L in A, B. fold st2 in A, B. rewrite C in A. cbn [List.app] in A.
  repeat split; auto.
  - now rewrite E.
  - now rewrite A, length_map.
  - intros k r Hk. rewrite A. exact (G k r Hk).
Qed.

(** X17.  [handleSearchResults] and [handleArxivResults] on an array of
    records (objects whose members hold no object): the pane is emptied and
    shown, one timer is set for each result, 100 ms apart, and once the
    timers have fired in their order the pane holds one card for each
    result, in the order of the array, the card number k being the one of
    the result number k.  (The callback of a result that is [null], or
    whose content is an object with a length above 300, throws, and no card
    comes of it.) *)
Theorem results_are_shown_in_their_order (rs : list json) (st : app) :
  Forall (fun r => record r = true) rs ->
  timers st = [] ->
  rs <> [] ->
  (let st1 := MainB.handleSearchResults (JArr rs) st in
   let st2 := fire_all (List.length rs) st1 in
   (referenceCards st1 = [] /\ referencesVisible st1 = true
    /\ map fst (timers st1) = map (fun k => k * 100) (seq 0 (List.length rs)))
   /\ timers st2 = []
   /\ List.length (referenceCards st2) = List.length rs
   /\ forall k r, nth_error rs k = Some r ->
                  nth_error (referenceCards st2) k = MainB.web_card k r)
  /\ (let st1 := MainB.handleArxivResults (JArr rs) st in
      let st2 := fire_all (List.length rs) st1 in
      (referenceCards st1 = [] /\ referencesVisible st1 = true
       /\ map fst (timers st1) = map (fun k => k * 100) (seq 0 (List.length rs)))
      /\ timers st2 = []
      /\ List.length (referenceCards st2) = List.length rs
      /\ forall k r, nth_error rs k = Some r ->
                     nth_error (referenceCards st2) k = MainB.paper_card k r).
Proof.
  intros F T N. rewrite Forall_forall in F. split.
  - apply (handleResults_shown MainB.web_card txt_no_results rs st); auto.
    intros idx r Hr. now apply card_of_a_record, F.
  - apply (handleResults_shown MainB.paper_card txt_no_papers rs st); auto.
    intros idx r Hr. now apply card_of_a_record, F.
Qed.

Lemma results_are_shown_in_their_order_witness :
  let rs := [JObj [("link", JStr "a"); ("title", JStr "T1")];
             JObj [("link", JStr "b"); ("content", JStr "text")]] in
  List.length (referenceCards (fire_all 2 (MainB.handleSearchResults (JArr rs) asked))) = 2
  /\ nth_error (referenceCards (fire_all 2 (MainB.handleSearchResults (JArr rs) asked))) 1
     = Some (ReferenceCard "result-1" (Some "b") txt_no_title None "text" None).
Proof.
  cbv zeta.
  pose proof (proj1 (results_are_shown_in_their_order
                       [JObj [("link", JStr "a"); ("title", JStr "T1")];
                        JObj [("link", JStr "b"); ("content", JStr "text")]] asked
                       ltac:(repeat constructor) ltac:(reflexivity)
                       ltac:(discriminate))) as (_ & _ & L & N).
  split; [exact L|].
  exact (N 1 (JObj [("link", JStr "b"); ("content", JStr "text")]) eq_refl).
Defined.

(** X18.  A [tool_result] without a tool name or without a result (or with
    a result that is [null], zero, [false] or the empty text) changes
    nothing.  The result of a search that is there but is not an array with
    at least one element (an empty array, an object, a text) puts the text
    that nothing was found in the place of the cards and hides the pane;
    it sets no timer and cancels none. *)
Theorem tool_result_with_nothing_to_show (data : json) (st : app) :
  (truthy (get data "tool_name") && truthy (get data "result") = false ->
   MainB.handleToolResult data st = Normal st)
  /\ (forall result nothing,
        get data "result" = Some result -> truthy (Some result) = true ->
        (forall x xs, result <> JArr (x :: xs)) ->
        (get data "tool_name" = Some (JStr "search_web") /\ nothing = txt_no_results)
        \/ (get data "tool_name" = Some (JStr "search_arxiv") /\ nothing = txt_no_papers) ->
        MainB.handleToolResult data st
        = Normal (with_referencesVisible false
                    (with_referenceCards [NoResults nothing] st))).
Proof.
  split.
  - intros H. unfold MainB.handleToolResult. now rewrite H.
  - intros result nothing Hr Ht Hn [[Hw ->] | [Ha ->]];
      unfold MainB.handleToolResult; rewrite Hr, Ht.
    + rewrite Hw. cbn [truthy String.eqb negb andb is_string]. literals.
      unfold MainB.handleSearchResults, MainB.handleResults.
      destruct result as [| | | |[|x xs]|]; try reflexivity. now destruct (Hn x xs).
    + rewrite Ha. cbn [truthy String.eqb negb andb is_string]. literals.
      unfold MainB.handleArxivResults, MainB.handleResults.
      destruct result as [| | | |[|x xs]|]; try reflexivity. now destruct (Hn x xs).
Qed.

Lemma tool_result_with_nothing_to_show_witness :
  MainB.handleToolResult
    (JObj [("tool_name", JStr "search_arxiv"); ("result", JStr "none")]) holding_a
  = Normal (with_referencesVisible false
              (with_referenceCards [NoResults txt_no_papers] holding_a)).
Proof.
  refine (proj2 (tool_result_with_nothing_to_show
                   (JObj [("tool_name", JStr "search_arxiv"); ("result", JStr "none")])
                   holding_a) (JStr "none") txt_no_papers _ _ _ _).
  - reflexivity.
  - reflexivity.
  - discriminate.
  - right. split; reflexivity.
Defined.








(** ** Timers that are pending *)

Lemma pending_kept_same (st st' : app) : timers st' = timers st -> pending_kept st st'.
Proof. intros E. exists []. now rewrite app_nil_r. Qed.

Lemma pending_kept_trans (a b c : app) :
  pending_kept a b -> pending_kept b c -> pending_kept a c.
Proof.
  intros [x Hx] [y Hy]. exists (x ++ y)%list. now rewrite Hy, Hx, app_assoc.
Qed.

Ltac pending :=
  fields;
  first [ apply pending_kept_same; reflexivity
        | eexists; fields; reflexivity ].

Lemma showError_timers (data : json) (st : app) :
  timers (page (showError data st)) = timers st.
Proof. unfold showError. branches; reflexivity. Qed.

Lemma updateAnswer_timers (data : json) (st : app) :
  timers (page (updateAnswer data st)) = timers st.
Proof.
  unfold updateAnswer.
  destruct data; fields; try reflexivity;
    (destruct (is_string _ "error"); [apply showError_timers | branches; reflexivity]).
Qed.

Lemma updateSearchResults_pending (data : json) (st : app) :
  pending_kept st (page (updateSearchResults data st)).
Proof. unfold updateSearchResults. branches; pending. Qed.

Lemma Part002_updateSearchResults_pending (data : json) (st : app) :
  pending_kept st (page (Part002.updateSearchResults data st)).
Proof. unfold Part002.updateSearchResults. branches; pending. Qed.

Lemma MainB_handleToolResult_pending (data : json) (st : app) :
  pending_kept st (page (MainB.handleToolResult data st)).
Proof.
  unfold MainB.handleToolResult, MainB.handleSearchResults, MainB.handleArxivResults,
    MainB.handleResults.
  branches; pending.
Qed.

Lemma caught_pending (st : app) (c : completion) :
  pending_kept st (page c) -> pending_kept st (Main.caught c).
Proof.
  intros H. destruct c; cbn [Main.caught page] in *; [exact H|].
  eapply pending_kept_trans; [exact H|]. apply pending_kept_same, showError_timers.
Qed.

Lemma MainB_handleEventData_pending (type : string) (data : option string) (st : app) :
  pending_kept st (MainB.handleEventData type data st).
Proof.
  unfold MainB.handleEventData.
  destruct (Main.decode data) as [d|]; [|now apply pending_kept_same].
  apply caught_pending.
  repeat match goal with
         | |- context [if ?b then _ else _] => destruct b
         end; cbn [page].
  - apply pending_kept_same. unfold MainB.updateStatus, MainB.set_width.
    branches; reflexivity.
  - apply MainB_handleToolResult_pending.
  - apply pending_kept_same, updateAnswer_timers.
  - apply pending_kept_same, showError_timers.
  - now apply pending_kept_same.
Qed.

Lemma MainA_handleEventData_pending (type : string) (data : option string) (st : app) :
  pending_kept st (MainA.handleEventData type data st).
Proof.
  unfold MainA.handleEventData.
  destruct (Main.decode data) as [d|]; [|now apply pending_kept_same].
  apply caught_pending.
  repeat match goal with
         | |- context [if ?b then _ else _] => destruct b
         end; cbn [page MainA.updateSearchResult].
  - apply pending_kept_same. unfold MainA.updateStatus. branches; reflexivity.
  - apply updateSearchResults_pending.
  - now apply pending_kept_same.
  - apply pending_kept_same, updateAnswer_timers.
  - apply pending_kept_same, showError_timers.
  - now apply pending_kept_same.
Qed.

Lemma Part002_handleEventData_pending (type : string) (data : option string) (st : app) :
  pending_kept st (Part002.handleEventData type data st).
Proof.
  unfold Part002.handleEventData.
  match goal with
  | |- context [match ?c with Normal _ => _ | Throw _ _ => _ end] =>
      assert (E : pending_kept st (page c)); [|destruct c]
  end.
  - destruct (Part002.parse_data data) as [d|]; [|now apply pending_kept_same].
    repeat match goal with
           | |- context [if ?b then _ else _] => destruct b
           end; cbn [page Part002.updateSearchResult];
      try (now apply pending_kept_same).
    + apply pending_kept_same. unfold Part002.updateStatus. branches; reflexivity.
    + apply Part002_updateSearchResults_pending.
    + apply pending_kept_same, updateAnswer_timers.
    + apply pending_kept_same, showError_timers.
  - exact E.
  - eapply pending_kept_trans; [exact E|]. apply pending_kept_same, showError_timers.
Qed.

Section PendingTimers.

Variable eventTypes : list string.
Variable listener : nat -> string -> option string -> app -> app.
Variable onerror : nat -> app -> app.
Variable handleSendMessage : Z -> app -> app.

Hypothesis listener_pending : forall i t d st, pending_kept st (listener i t d st).
Hypothesis onerror_timers : forall i st, timers (onerror i st) = timers st.
Hypothesis send_timers : forall now st, timers (handleSendMessage now st) = timers st.

Lemma step_pending (e : event) (st : app) :
  (forall k, e <> TimerFires k) ->
  pending_kept st (Browser.step eventTypes listener onerror handleSendMessage e st).
Proof.
  assert (D : forall i type data s,
             pending_kept s (Browser.dispatch eventTypes listener onerror i type data s)).
  { intros i type data s. unfold Browser.dispatch.
    assert (E : pending_kept s (if existsb (String.eqb type) eventTypes
                                then listener i type data s else s)).
    { destruct (existsb _ _); [apply listener_pending | now apply pending_kept_same]. }
    destruct (type =? "error")%string; [|exact E].
    eapply pending_kept_trans; [exact E|]. apply pending_kept_same, onerror_timers. }
  intros H. destruct e as [input now|i|i type data|i fatal|k]; cbn.
  - apply pending_kept_same. now rewrite send_timers.
  - unfold Browser.opens. branches; now apply pending_kept_same.
  - unfold Browser.frame. destruct (readyState_of i st) as [[]|];
      try (now apply pending_kept_same). apply D.
  - unfold Browser.fails. destruct (readyState_of i st) as [[]|];
      try (now apply pending_kept_same);
      (eapply pending_kept_trans; [|apply D]); now apply pending_kept_same.
  - now destruct (H k).
Qed.

End PendingTimers.

Lemma Main_listener_pending (handle : string -> option string -> app -> app) :
  (forall t d st, pending_kept st (handle t d st)) ->
  forall i t d st, pending_kept st (Main.listener handle i t d st).
Proof.
  intros Hh i t d st. unfold Main.listener.
  destruct (readyState_of i st) as [[]|]; try (now apply pending_kept_same);
    (destruct d as [[|c s]|]; try (now apply pending_kept_same);
     destruct (t =? "complete")%string; [|apply Hh];
     destruct (Hh t (Some (String c s)) st) as [x Hx]; exists x; exact Hx).
Qed.

Lemma Main_onerror_timers (i : nat) (st : app) :
  timers (Main.onerror i st) = timers st.
Proof.
  unfold Main.onerror.
  destruct (readyState_of i st) as [[]|]; try reflexivity.
  destruct (negb _); [reflexivity | apply showError_timers].
Qed.

Lemma Main_send_timers (now : Z) (st : app) :
  timers (Main.handleSendMessage now st) = timers st.
Proof.
  unfold Main.handleSendMessage.
  destruct (begin_message st) as [[message st1]|] eqn:E; [|reflexivity].
  assert (T : timers st1 = timers st).
  { unfold begin_message in E. destruct (_ =? _)%string; [discriminate|].
    now injection E as _ <-. }
  destruct (toolOptions st1); [exact T | now rewrite showError_timers].
Qed.

Lemma Part002_send_timers (now : Z) (st : app) :
  timers (Part002.handleSendMessage now st) = timers st.
Proof.
  unfold Part002.handleSendMessage.
  destruct (begin_message st) as [[message st1]|] eqn:E; [|reflexivity].
  unfold begin_message in E. destruct (_ =? _)%string; [discriminate|].
  now injection E as _ <-.
Qed.

(** X21.  Nothing cancels a timer: after any event other than a timer
    firing (a question sent, a frame of any type and payload, a failure),
    the timers that were pending are still pending, in their order, before
    those that the event has set, in each revision.  The cards of an
    earlier batch of results are therefore still appended when their timers
    fire, also after the pane was emptied or a new question was sent. *)
Theorem no_event_cancels_a_timer (e : event) (st : app) :
  (forall k, e <> TimerFires k) ->
  pending_kept st (MainB.step e st)
  /\ pending_kept st (MainA.step e st)
  /\ pending_kept st (Part002.step e st).
Proof.
  intros H. repeat split.
  - apply step_pending; auto using Main_onerror_timers, Main_send_timers.
    apply Main_listener_pending, MainB_handleEventData_pending.
  - apply step_pending; auto using Main_onerror_timers, Main_send_timers.
    apply Main_listener_pending, MainA_handleEventData_pending.
  - apply step_pending; auto using Part002_send_timers.
    + intros i t d s. unfold Part002.listens, Part002.listener.
      pose proof (Part002_handleEventData_pending t d s) as E.
      branches; exact E.
    + intros i s. unfold Part002.onerror.
      destruct (readyState_of i s) as [[]|]; try reflexivity;
        cbn [close timers with_sources]; apply showError_timers.
Qed.

Lemma no_event_cancels_a_timer_witness :
  let results := tool_payload "search_web" ("[{" ++ q "link" ++ ":" ++ q "a" ++ "}]") in
  let st := MainB.step (Frame 0 "tool_result" results) asked in
  pending_kept st (MainB.step (Frame 0 "status" (status_payload "searching")) st).
Proof.
  exact (proj1 (no_event_cancels_a_timer
                  (Frame 0 "status" (status_payload "searching")) _
                  ltac:(discriminate))).
Defined.

(** A card of the first question arrives in the pane of the second one. *)
Example late_card_of_an_earlier_batch :
  let results := tool_payload "search_web" ("[{" ++ q "link" ++ ":" ++ q "a" ++ "}]") in
  referenceCards
    (MainB.run [Frame 0 "tool_result" results;
                Send "again" 2%Z; Opens 1;
                Frame 1 "status" (status_payload "searching");
                TimerFires 0] asked)
  = [CardLoading txt_searching;
     ReferenceCard "result-0" (Some "a") txt_no_title None txt_no_content None].
Proof. vm_compute. reflexivity. Qed.

(** ** The reference pane at a [search_results] event *)


Lemma result_card_of_a_record (v : json) (idx : nat) :
  record v = true -> result_card idx v <> None.
Proof.
  intros R. destruct v; try discriminate. unfold result_card.
  destruct (truthy (get (JObj members) "isArxiv")).
  - destruct (truthy (get (JObj members) "abstract")).
    + destruct (content_text_of_a_record members "abstract" R) as [t ->]. discriminate.
    + destruct (content_text_of_a_record members "content" R) as [t ->]. discriminate.
  - destruct (content_text_of_a_record members "content" R) as [t ->]. discriminate.
Qed.



(** ** The reference pane of part_002 *)

Lemma same_pane_refl (st : app) : same_pane st st.
Proof. repeat split. Qed.

Lemma same_pane_trans (a b c : app) : same_pane a b -> same_pane b c -> same_pane a c.
Proof.
  intros (H1 & H2 & H3 & H4) (K1 & K2 & K3 & K4).
  unfold same_pane. rewrite K1, K2, K3, K4. auto.
Qed.

Ltac pane := unfold same_pane; fields; auto.

Lemma showError_same_pane (data : json) (st : app) :
  same_pane st (page (showError data st)).
Proof. unfold showError. branches; pane. Qed.

Lemma updateAnswer_same_pane (data : json) (st : app) :
  same_pane st (page (updateAnswer data st)).
Proof.
  unfold updateAnswer.
  destruct data; fields; try apply same_pane_refl;
    (destruct (is_string _ "error"); [apply showError_same_pane | branches; pane]).
Qed.

Lemma Part002_handleEventData_same_pane (type : string) (data : option string) (st : app) :
  searchToggle st = false ->
  same_pane st (Part002.handleEventData type data st).
Proof.
  intros T. unfold Part002.handleEventData.
  match goal with
  | |- context [match ?c with Normal _ => _ | Throw _ _ => _ end] =>
      assert (E : same_pane st (page c)); [|destruct c]
  end.
  - destruct (Part002.parse_data data) as [d|]; [|apply same_pane_refl].
    rewrite T.
    repeat match goal with
           | |- context [if ?b then _ else _] => destruct b
           end; cbn [page]; try apply same_pane_refl.
    + unfold Part002.updateStatus. rewrite T. branches; pane.
    + apply updateAnswer_same_pane.
    + apply showError_same_pane.
  - exact E.
  - eapply same_pane_trans; [exact E|]. apply showError_same_pane.
Qed.

Lemma Part002_listens_same_pane (i : nat) (t : string) (d : option string) (st : app) :
  searchToggle st = false -> same_pane st (Part002.listens i t d st).
Proof.
  intros T. unfold Part002.listens, Part002.listener.
  pose proof (Part002_handleEventData_same_pane t d st T) as E.
  branches; exact E.
Qed.

Lemma Part002_onerror_same_pane (i : nat) (st : app) :
  same_pane st (Part002.onerror i st).
Proof.
  unfold Part002.onerror.
  destruct (readyState_of i st) as [[]|]; try apply same_pane_refl;
    cbn [close]; apply (showError_same_pane (JStr txt_connection_error) st).
Qed.

Lemma Part002_send_same_pane (now : Z) (st : app) :
  same_pane st (Part002.handleSendMessage now st).
Proof.
  unfold Part002.handleSendMessage.
  destruct (begin_message st) as [[message st1]|] eqn:E; [|apply same_pane_refl].
  unfold begin_message in E. destruct (_ =? _)%string; [discriminate|].
  injection E as _ <-. pane.
Qed.

(** X23.  In part_002, when the search toggle is off and no timer is
    pending, nothing that happens changes the reference pane: after any
    events (questions, frames of any type and payload, failures, timers) the
    pane has the cards it had, is shown or hidden as it was, and no timer is
    pending. *)
Theorem legacy_pane_is_idle_without_search (es : list event) (st : app) :
  searchToggle st = false ->
  timers st = [] ->
  same_pane st (Part002.run es st).
Proof.
  intros T N.
  assert (Q : searchToggle (Part002.run es st) = false
              /\ timers (Part002.run es st) = []
              /\ same_pane st (Part002.run es st)).
  { assert (K : forall s s', (searchToggle s = false /\ timers s = [] /\ same_pane st s) ->
                             same_pane s s' ->
                             searchToggle s' = false /\ timers s' = [] /\ same_pane st s').
    { intros s s' (A & B & C) S. pose proof S as (_ & _ & S3 & S4).
      split; [congruence|]. split; [congruence|]. eapply same_pane_trans; eauto. }
    apply (run_preserves
             (fun s => searchToggle s = false /\ timers s = [] /\ same_pane st s)).
    - intros i s Hs. apply (K s); [exact Hs|]. unfold Browser.opens. branches; pane.
    - intros i fatal s r _ _ Hs. apply (K s); [exact Hs|]. pane.
    - intros k s Hs. unfold timer_fires. destruct Hs as (A & B & C). rewrite B.
      destruct k; cbn [nth_error]; auto.
    - intros i t d s Hs. apply (K s); [exact Hs|].
      apply Part002_listens_same_pane, Hs.
    - intros i s Hs. apply (K s); [exact Hs|]. apply Part002_onerror_same_pane.
    - intros input now s Hs. apply (K s); [exact Hs|].
      eapply same_pane_trans; [|apply Part002_send_same_pane]. pane.
    - split; [exact T|]. split; [exact N|]. apply same_pane_refl. }
  apply Q.
Qed.

Lemma legacy_pane_is_idle_without_search_witness :
  let data := "{" ++ q "results" ++ ":[{" ++ q "link" ++ ":" ++ q "b" ++ "}]}" in
  let st := Part002.run [Send "q" 1%Z; Opens 0] (constructor [Placeholder] [] false) in
  referenceCards
    (Part002.run [Frame 0 "status" (status_payload "searching");
                  Frame 0 "search_results" data; TimerFires 0] st)
  = referenceCards st.
Proof.
  intros data st.
  refine (proj1 (legacy_pane_is_idle_without_search _ st _ _)); vm_compute; reflexivity.
Defined.

Lemma Part002_search_results_frame (i : nat) (s : string) (d : json) (st : app) :
  readyState_of i st = Some OPEN ->
  Part002.parse_data (Some s) = Some d ->
  searchToggle st = true ->
  Part002.step (Frame i "search_results" s) st
  = match Part002.updateSearchResults d st with
    | Normal st' => st'
    | Throw e st' =>
        page (showError (error_object txt_processing_error (message_of e)) st')
    end.
Proof.
  intros Ho Hd T.
  unfold Part002.step, Browser.step, Browser.frame. rewrite Ho.
  unfold Browser.dispatch, Part002.listens, Part002.listener, Part002.eventTypes.
  rewrite Hd. literals. cbn [page].
  unfold Part002.handleEventData. rewrite Hd, T. literals. reflexivity.
Qed.

(** X24.  In part_002, with the search toggle on, a [search_results] event
    whose results are an array that is not empty (and whose status is not an
    error) keeps the children that the reference pane has, a loading line
    and the cards of an earlier batch among them: the pane is shown and one
    timer is set for each result, after those that are pending.  The
    revisions of main.js empty the pane there. *)
Theorem legacy_search_results_keep_the_cards
    (i : nat) (data : string) (d r : json) (rest : list json) (st : app) :
  readyState_of i st = Some OPEN ->
  searchToggle st = true ->
  Part002.parse_data (Some data) = Some d ->
  is_string (get d "status") "error" = false ->
  get d "results" = Some (JArr (r :: rest)) ->
  let st' := Part002.step (Frame i "search_results" data) st in
  referenceCards st' = referenceCards st
  /\ referencesVisible st' = true
  /\ timers st' = (timers st ++ schedule Part002.result_card 0 (r :: rest))%list
  /\ answerContent st' = answerContent st.
Proof.
  intros Ho T Hd Hs Hr st'. subst st'.
  rewrite (Part002_search_results_frame i data d st Ho Hd T).
  unfold Part002.updateSearchResults. rewrite T.
  destruct d; try discriminate. rewrite Hs, Hr. cbn. auto.
Qed.

Lemma legacy_search_results_keep_the_cards_witness :
  let data := "{" ++ q "results" ++ ":[{" ++ q "link" ++ ":" ++ q "b" ++ "}]}" in
  let st := with_referenceCards [card_a "old"] asked_legacy in
  referenceCards (Part002.step (Frame 0 "search_results" data) st) = [card_a "old"].
Proof.
  intros data st.
  refine (proj1 (legacy_search_results_keep_the_cards 0 data
                   (JObj [("results", JArr [JObj [("link", JStr "b")]])])
                   (JObj [("link", JStr "b")]) [] st _ _ _ _ _));
    vm_compute; reflexivity.
Defined.

(** ** The update of one result *)

Lemma update_first_twice {A : Type} (sel : A -> bool) (f : A -> A) (l : list A) :
  (forall x, sel x = true -> sel (f x) = true /\ f (f x) = f x) ->
  update_first sel f (update_first sel f l) = update_first sel f l.
Proof.
  intros H. induction l as [|x l IH]; [reflexivity|]. cbn.
  destruct (sel x) eqn:E; cbn.
  - destruct (H x E) as [-> ->]. reflexivity.
  - now rewrite E, IH.
Qed.

Lemma has_update_first {A : Type} (sel : A -> bool) (f : A -> A) (l : list A) :
  (forall x, sel x = true -> sel (f x) = true) ->
  has sel (update_first sel f l) = has sel l.
Proof.
  intros H. unfold has. induction l as [|x l IH]; [reflexivity|]. cbn.
  destruct (sel x) eqn:E; cbn.
  - now rewrite (H x E).
  - now rewrite E, IH.
Qed.

Lemma href_is_set_paper_content (resolve : string -> string) (link : json) (t : string)
    (c : card) :
  MainB.href_is resolve link (MainB.set_paper_content t c) = MainB.href_is resolve link c.
Proof. now destruct c. Qed.

Lemma set_paper_content_twice (t : string) (c : card) :
  MainB.set_paper_content t (MainB.set_paper_content t c) = MainB.set_paper_content t c.
Proof. now destruct c. Qed.

(** X25.  [updateSearchResult] of the second revision of main.js, for a
    result that is a record with a link.  When a card of the pane has the
    link, the update is idempotent: done again on the page it gives, it
    gives that page; no timer is set.  When no card has the link, the cards
    that the pane has are all taken out, the pane is shown, and one timer
    is set, after those that are pending, for the card of the result.  (For a result whose content is an object with a length above
    300 the update of a card throws, and nothing is changed.) *)
Theorem update_of_one_result
    (resolve : string -> string) (data result link : json) (st : app) :
  get data "result" = Some result ->
  record result = true ->
  get result "link" = Some link ->
  truthy (Some link) = true ->
  (has (MainB.href_is resolve link) (referenceCards st) = true ->
   exists st',
     MainB.updateSearchResult resolve data st = Normal st'
     /\ MainB.updateSearchResult resolve data st' = Normal st'
     /\ timers st' = timers st)
  /\ (has (MainB.href_is resolve link) (referenceCards st) = false ->
      exists c st',
        MainB.updateSearchResult resolve data st = Normal st'
        /\ referenceCards st' = []
        /\ referencesVisible st' = true
        /\ timers st' = (timers st ++ [(0, c)])%list
        /\ result_card 0 result = Some c).
Proof.
  intros Hr R Hl Ht.
  assert (Dn : data <> JNull) by (intros ->; discriminate).
  destruct result as [| | | | |members]; try discriminate.
  assert (Tr : truthy (Some (JObj members)) && has_link (JObj members) = true).
  { unfold has_link. now rewrite Hl, Ht. }
  destruct (truncateContent_flat (get (JObj members) "content") 300) as [w W].
  { cbn [get]. destruct (lookup "content" members) as [v|] eqn:E; [|exact I].
    now apply (lookup_flat "content" members). }
  split; intros Hh.
  - eexists. split; [|split].
    + unfold MainB.updateSearchResult. destruct data; [congruence| | | | |];
        rewrite Hr, Tr, Hl, Hh, W; reflexivity.
    + unfold MainB.updateSearchResult. destruct data; [congruence| | | | |];
        rewrite Hr, Tr, Hl, W; fields;
        (rewrite has_update_first, Hh;
         [|intros y Hy; now rewrite href_is_set_paper_content]);
        (rewrite update_first_twice;
         [reflexivity
         |intros y Hy; split;
          [now rewrite href_is_set_paper_content | apply set_paper_content_twice]]).
    + reflexivity.
  - destruct (result_card 0 (JObj members)) as [c|] eqn:C;
      [|now destruct (result_card_of_a_record (JObj members) 0 R)].
    exists c. eexists. split; [|split; [|split; [|split]]].
    + unfold MainB.updateSearchResult. destruct data; [congruence| | | | |];
        rewrite Hr, Tr, Hl, Hh; unfold updateSearchResults;
        cbn -[result_card]; rewrite C; reflexivity.
    + reflexivity.
    + reflexivity.
    + reflexivity.
    + reflexivity.
Qed.

Lemma update_of_one_result_witness :
  let data := JObj [("result", JObj [("link", JStr "a"); ("content", JStr "new")])] in
  exists st',
    MainB.updateSearchResult (fun s => s) data holding_a = Normal st'
    /\ MainB.updateSearchResult (fun s => s) data st' = Normal st'
    /\ timers st' = timers holding_a.
Proof.
  intros data.
  refine (proj1 (update_of_one_result (fun s => s) data
                   (JObj [("link", JStr "a"); ("content", JStr "new")]) (JStr "a")
                   holding_a _ _ _ _) _); vm_compute; reflexivity.
Defined.
